(** * packet.py: Ethernet / IPv4 / TCP decoding, reset forging and checksums

    A shallow embedding of [packet.py].  Python integers are unbounded, so
    every integer is a [Z]; [<<], [>>], [&], [|] and [~] are [Z.shiftl],
    [Z.shiftr], [Z.land], [Z.lor] and [Z.lnot], which agree with Python on
    negative numbers as well (two's complement with infinite sign extension).
    A [bytes] object is a [list Z] whose elements lie in [0, 256); a tuple of
    integers is a [list Z] too.  Exceptions are the left summand of
    [result].  The conversion [bytes(l)] of a tuple or buffer is written
    [l]: it raises [ValueError] on an element outside [0, 256), so the
    serializers are the code's where the address tuples and the payload
    hold octets, as they do in everything decoded from a byte buffer. *)

From Stdlib Require Import String Ascii.
From Stdlib Require Import ZArith List Bool Lia.
From Stdlib Require DecimalString HexadecimalString.
Import ListNotations.
Local Open Scope Z_scope.

(** ** Python runtime: exceptions, [len], indexing and slicing *)

Inductive exn : Type :=
| IndexError
| ValueError (msg : string).

Definition result (A : Type) : Type := (exn + A)%type.

Definition Ok {A : Type} (a : A) : result A := inr a.
Definition Raise {A : Type} (e : exn) : result A := inl e.

Definition bind {A B : Type} (m : result A) (k : A -> result B) : result B :=
  match m with
  | inl e => inl e
  | inr a => k a
  end.

Notation "x <- m ;; k" := (bind m (fun x => k))
  (at level 61, m at next level, right associativity).

Definition bytes := list Z.

Definition len (l : list Z) : Z := Z.of_nat (length l).

(** [is_bytes l]: every element is an unsigned 8-bit value, as in a Python
    [bytes] object. *)
Definition is_byte (b : Z) : bool := (0 <=? b) && (b <? 256).
Definition is_bytes (l : list Z) : bool := forallb is_byte l.

(** [octets[i]]: a negative index counts from the end; out of range raises
    [IndexError]. *)
Definition getitem (octets : list Z) (i : Z) : result Z :=
  let j := if i <? 0 then i + len octets else i in
  if j <? 0 then Raise IndexError
  else match nth_error octets (Z.to_nat j) with
       | Some o => Ok o
       | None => Raise IndexError
       end.

(** Slice bounds are clamped to [0, len]; a negative bound counts from the
    end.  A slice never raises. *)
Definition clamp (n i : Z) : Z :=
  if i <? 0 then Z.max 0 (i + n) else Z.min i n.

(** [octets[a:b]] *)
Definition slice (octets : list Z) (a b : Z) : list Z :=
  let a' := clamp (len octets) a in
  let b' := clamp (len octets) b in
  firstn (Z.to_nat (b' - a')) (skipn (Z.to_nat a') octets).

(** [octets[a:]] *)
Definition slice_from (octets : list Z) (a : Z) : list Z :=
  skipn (Z.to_nat (clamp (len octets) a)) octets.

(** [range(n)] and [range(start, stop, step)] for a positive step. *)
Definition range (n : Z) : list Z :=
  map Z.of_nat (seq 0 (Z.to_nat n)).

Definition range_step (start stop step : Z) : list Z :=
  map (fun k => start + step * Z.of_nat k)
      (seq 0 (Z.to_nat ((stop - start + step - 1) / step))).

(** [sum(...)] of a sequence of integers. *)
Definition sum (l : list Z) : Z := fold_left Z.add l 0.

(** [bool(i)] and [int(b)] *)
Definition bool_of_int (i : Z) : bool := negb (i =? 0).
Definition int_of_bool (b : bool) : Z := if b then 1 else 0.

(** ** Bit and integer codec

    Python raises [ValueError] on a negative shift count.  Every call of
    [to_bits] in the file passes [0 <= length] and
    [offset + length <= n_bits] (literal arguments, or the loop of
    [to_octets]), and every shift in [to_integer] and [to_integer_le] is by
    a non-negative multiple of [n_bits], so no shift of the program has a
    negative count and the functions below are total. *)

Definition to_bits (octet offset length n_bits : Z) : Z :=
  let mask := Z.shiftl 1 length - 1 in
  Z.land (Z.shiftr octet (n_bits - offset - length)) mask.

Definition to_octets (i n_octets : Z) : bytes :=
  map (fun x => to_bits i (8 * x) 8 (8 * n_octets)) (range n_octets).

(** The loop keeps the pair (l, i). *)
Definition to_integer (octets : list Z) (n_bits : Z) : Z :=
  snd (fold_left
         (fun '(l, i) o => (l - 1, i + Z.shiftl o (l * n_bits)))
         octets (len octets - 1, 0)).

Definition to_integer_le (octets : list Z) (n_bits : Z) : Z :=
  snd (fold_left
         (fun '(l, i) o => (l + 1, i + Z.shiftl o (l * n_bits)))
         octets (0, 0)).

(** ** Checksum engine *)

Definition checksum (octets : bytes) : Z :=
  let octets := if len octets mod 2 =? 1 then octets ++ [0] else octets in
  let s := sum (map (fun i => to_integer_le (slice octets i (i + 2)) 8)
                    (range_step 0 (len octets) 2)) in
  let s := Z.shiftr s 16 + Z.land s 65535 in
  let s := s + Z.shiftr s 16 in
  let s := Z.lnot s in
  Z.land (Z.lor (Z.land (Z.shiftr s 8) 255) (Z.shiftl s 8)) 65535.

(** ** Address value types

    [tuple(int(o) for o in octets)]: the elements of a byte sequence are
    integers already, so the tuple holds the input's elements in order.  No
    length is checked. *)

Module MACAddress.
Record t := mk { address : list Z }.

Definition init (octets : list Z) : t :=
  {| address := map (fun o => o) octets |}.

Definition getitem (self : t) (i : Z) : result Z :=
  getitem (address self) i.
End MACAddress.

Module IPv4Address.
Record t := mk { address : list Z }.

Definition init (octets : list Z) : t :=
  {| address := map (fun o => o) octets |}.

Definition getitem (self : t) (i : Z) : result Z :=
  getitem (address self) i.
End IPv4Address.

(** ** TCP layer

    The object graph is a tree: the frame owns the IPv4 packet, which owns
    the TCP segment, and each [parent] attribute points back at the owner.
    The records below nest accordingly and leave [parent] out; the two TCP
    methods that go through [self.parent] ([replace_checksum] and
    [forge_reset]) are defined after the IPv4 layer, as functions on the
    parent that holds [self] as its payload. *)

Module TCPPacket.
Record t := mk {
  _raw : bytes;
  source_port : Z;
  dest_port : Z;
  sequence : Z;
  ack_number : Z;
  data_offset : Z;
  reserved : Z;
  NS : bool;
  CWR : bool;
  ECE : bool;
  URG : bool;
  ACK : bool;
  PSH : bool;
  RST : bool;
  SYN : bool;
  FIN : bool;
  window_size : Z;
  checksum : Z;
  urgent_pointer : Z;
  options : Z;
  payload : bytes
}.

(** [octets[12]] and [octets[13]] are read several times; the buffer does
    not change, so each is bound once, at its first read. *)
Definition init (octets : bytes) : result t :=
  let source_port := to_integer (slice octets 0 2) 8 in
  let dest_port := to_integer (slice octets 2 4) 8 in
  let sequence := to_integer (slice octets 4 8) 8 in
  let ack_number := to_integer (slice octets 8 12) 8 in
  o12 <- getitem octets 12 ;;
  let data_offset := to_bits o12 0 4 8 in
  let reserved := to_bits o12 4 3 8 in
  let NS := bool_of_int (to_bits o12 7 1 8) in
  o13 <- getitem octets 13 ;;
  let CWR := bool_of_int (to_bits o13 0 1 8) in
  let ECE := bool_of_int (to_bits o13 1 1 8) in
  let URG := bool_of_int (to_bits o13 2 1 8) in
  let ACK := bool_of_int (to_bits o13 3 1 8) in
  let PSH := bool_of_int (to_bits o13 4 1 8) in
  let RST := bool_of_int (to_bits o13 5 1 8) in
  let SYN := bool_of_int (to_bits o13 6 1 8) in
  let FIN := bool_of_int (to_bits o13 7 1 8) in
  let window_size := to_integer (slice octets 14 16) 8 in
  let checksum := to_integer (slice octets 16 18) 8 in
  let urgent_pointer := to_integer (slice octets 18 20) 8 in
  let option_words := data_offset - 5 in
  let options := to_integer (slice octets 20 (20 + 4 * option_words)) 8 in
  let payload := slice_from octets (20 + 4 * option_words) in
  Ok {| _raw := octets;
        source_port := source_port; dest_port := dest_port;
        sequence := sequence; ack_number := ack_number;
        data_offset := data_offset; reserved := reserved;
        NS := NS; CWR := CWR; ECE := ECE; URG := URG; ACK := ACK;
        PSH := PSH; RST := RST; SYN := SYN; FIN := FIN;
        window_size := window_size; checksum := checksum;
        urgent_pointer := urgent_pointer;
        options := options; payload := payload |}.

Definition raw_header (self : t) : bytes :=
  to_octets (source_port self) 2 ++
  to_octets (dest_port self) 2 ++
  to_octets (sequence self) 4 ++
  to_octets (ack_number self) 4 ++
  to_octets (Z.shiftl (data_offset self) 4 +
             Z.shiftl (reserved self) 1 +
             int_of_bool (NS self)) 1 ++
  to_octets (to_integer (map int_of_bool
               [CWR self; ECE self; URG self; ACK self;
                PSH self; RST self; SYN self; FIN self]) 1) 1 ++
  to_octets (window_size self) 2 ++
  to_octets (checksum self) 2 ++
  to_octets (urgent_pointer self) 2 ++
  to_octets (options self) ((data_offset self - 5) * 4).

Definition raw (self : t) : bytes :=
  raw_header self ++ payload self.

(** [self.checksum = c] *)
Definition set_checksum (c : Z) (self : t) : t :=
  {| _raw := _raw self;
     source_port := source_port self; dest_port := dest_port self;
     sequence := sequence self; ack_number := ack_number self;
     data_offset := data_offset self; reserved := reserved self;
     NS := NS self; CWR := CWR self; ECE := ECE self; URG := URG self;
     ACK := ACK self; PSH := PSH self; RST := RST self; SYN := SYN self;
     FIN := FIN self;
     window_size := window_size self; checksum := c;
     urgent_pointer := urgent_pointer self;
     options := options self; payload := payload self |}.

(** The fourteen attribute assignments that open [forge_reset] (nine
    flags, sequence, ack number, window size, urgent pointer, payload).
    They write distinct attributes and read none, so they are one record
    update. *)
Definition forge_reset_fields (sequence' : Z) (self : t) : t :=
  {| _raw := _raw self;
     source_port := source_port self; dest_port := dest_port self;
     sequence := sequence'; ack_number := 0;
     data_offset := data_offset self; reserved := reserved self;
     NS := false; CWR := false; ECE := false; URG := false;
     ACK := false; PSH := false; RST := true; SYN := false;
     FIN := false;
     window_size := 0; checksum := checksum self;
     urgent_pointer := 0;
     options := options self; payload := [] |}.
End TCPPacket.

(** ** IPv4 layer *)

Module IPv4Packet.
(** The record below has a field [checksum]; the module-level function
    [checksum] is reached through this name. *)
Local Abbreviation checksum_engine := checksum (only parsing).

Record t := mk {
  _raw : bytes;
  version : Z;
  ihl : Z;
  dscp : Z;
  ecn : Z;
  length : Z;
  identification : Z;
  flags : Z;
  fragment_offset : Z;
  ttl : Z;
  protocol : Z;
  checksum : Z;
  source_address : IPv4Address.t;
  dest_address : IPv4Address.t;
  options : Z;
  payload : TCPPacket.t
}.

Definition init (octets : bytes) : result t :=
  o0 <- getitem octets 0 ;;
  let version := to_bits o0 0 4 8 in
  if negb (version =? 4) then Raise (ValueError "non-ipv4 packet"%string)
  else
  let ihl := to_bits o0 4 4 8 in
  o1 <- getitem octets 1 ;;
  let dscp := to_bits o1 0 6 8 in
  let ecn := to_bits o1 6 2 8 in
  let length := to_integer (slice octets 2 4) 8 in
  let identification := to_integer (slice octets 4 6) 8 in
  let flags_and_fragment := to_integer (slice octets 6 8) 8 in
  let flags := to_bits flags_and_fragment 0 3 16 in
  let fragment_offset := to_bits flags_and_fragment 3 13 16 in
  ttl <- getitem octets 8 ;;
  protocol <- getitem octets 9 ;;
  if negb (protocol =? 6) then Raise (ValueError "non-tcp packet"%string)
  else
  let checksum := to_integer (slice octets 10 12) 8 in
  let source_address := IPv4Address.init (slice octets 12 16) in
  let dest_address := IPv4Address.init (slice octets 16 20) in
  let option_words := ihl - 5 in
  let options := to_integer (slice octets 20 (20 + 4 * option_words)) 8 in
  payload <- TCPPacket.init (slice_from octets (20 + 4 * option_words)) ;;
  Ok {| _raw := octets;
        version := version; ihl := ihl; dscp := dscp; ecn := ecn;
        length := length; identification := identification;
        flags := flags; fragment_offset := fragment_offset;
        ttl := ttl; protocol := protocol; checksum := checksum;
        source_address := source_address; dest_address := dest_address;
        options := options; payload := payload |}.

Definition raw_header (self : t) : bytes :=
  to_octets (to_integer [version self; ihl self] 4) 1 ++
  to_octets (Z.shiftl (dscp self) 2 + ecn self) 1 ++
  to_octets (length self) 2 ++
  to_octets (identification self) 2 ++
  to_octets (Z.shiftl (flags self) 13 + fragment_offset self) 2 ++
  to_octets (ttl self) 1 ++
  to_octets (protocol self) 1 ++
  to_octets (checksum self) 2 ++
  IPv4Address.address (source_address self) ++
  IPv4Address.address (dest_address self) ++
  to_octets (options self) ((ihl self - 5) * 4).

Definition raw (self : t) : bytes :=
  raw_header self ++ TCPPacket.raw (payload self).

(** [self.checksum = c] *)
Definition set_checksum (c : Z) (self : t) : t :=
  {| _raw := _raw self;
     version := version self; ihl := ihl self; dscp := dscp self;
     ecn := ecn self; length := length self;
     identification := identification self;
     flags := flags self; fragment_offset := fragment_offset self;
     ttl := ttl self; protocol := protocol self; checksum := c;
     source_address := source_address self;
     dest_address := dest_address self;
     options := options self; payload := payload self |}.

(** The payload object after a mutation of the TCP layer: the parent still
    holds the same object, which now has the fields of [p]. *)
Definition set_payload (p : TCPPacket.t) (self : t) : t :=
  {| _raw := _raw self;
     version := version self; ihl := ihl self; dscp := dscp self;
     ecn := ecn self; length := length self;
     identification := identification self;
     flags := flags self; fragment_offset := fragment_offset self;
     ttl := ttl self; protocol := protocol self;
     checksum := checksum self;
     source_address := source_address self;
     dest_address := dest_address self;
     options := options self; payload := p |}.

Definition replace_checksum (self : t) : t :=
  let self := set_checksum 0 self in
  set_checksum (checksum_engine (raw_header self)) self.

Definition tcp_checksum_bytes (self : t) : bytes :=
  IPv4Address.address (source_address self) ++
  IPv4Address.address (dest_address self) ++
  to_octets 0 1 ++
  to_octets (protocol self) 1 ++
  to_octets (len (TCPPacket.raw (payload self))) 2.
End IPv4Packet.

(** ** TCP methods that go through [self.parent]

    [parent] is the IPv4 packet whose payload is [self]; the result is the
    parent after the call, holding the mutated [self]. *)

Definition TCPPacket_replace_checksum (parent : IPv4Packet.t) : IPv4Packet.t :=
  let parent :=
    IPv4Packet.set_payload
      (TCPPacket.set_checksum 0 (IPv4Packet.payload parent)) parent in
  IPv4Packet.set_payload
    (TCPPacket.set_checksum
       (checksum (IPv4Packet.tcp_checksum_bytes parent ++
                  TCPPacket.raw_header (IPv4Packet.payload parent)))
       (IPv4Packet.payload parent))
    parent.

Definition TCPPacket_forge_reset (sequence : Z) (parent : IPv4Packet.t)
  : IPv4Packet.t :=
  let parent :=
    IPv4Packet.set_payload
      (TCPPacket.forge_reset_fields sequence (IPv4Packet.payload parent))
      parent in
  let parent := IPv4Packet.replace_checksum parent in
  TCPPacket_replace_checksum parent.

(** ** Ethernet layer *)

Module EthernetFrame.
Record t := mk {
  _raw : bytes;
  dest_address : MACAddress.t;
  source_address : MACAddress.t;
  ethertype : Z;
  payload : IPv4Packet.t
}.

Definition init (octets : bytes) : result t :=
  let dest_address := MACAddress.init (slice octets 0 6) in
  let source_address := MACAddress.init (slice octets 6 12) in
  o12 <- getitem octets 12 ;;
  o13 <- getitem octets 13 ;;
  let ethertype := Z.shiftl o12 8 + o13 in
  if negb (ethertype =? 2048) then Raise (ValueError "non-ipv4 packet"%string)
  else
  payload <- IPv4Packet.init (slice_from octets 14) ;;
  Ok {| _raw := octets;
        dest_address := dest_address; source_address := source_address;
        ethertype := ethertype; payload := payload |}.

Definition raw (self : t) : bytes :=
  MACAddress.address (dest_address self) ++
  MACAddress.address (source_address self) ++
  to_octets (ethertype self) 2 ++
  IPv4Packet.raw (payload self).
End EthernetFrame.

(** * Specification-side definitions

    What the statements below need besides the program: the header fields
    as they stand in a buffer, the checksum in arithmetic form and as the
    specification words it, the headers cut at their checksum fields, the
    bit field as the specification words it, and sample buffers. *)

(** Equality of two buffers, as a boolean. *)
Definition bytes_eqb (l1 l2 : list Z) : bool :=
  if list_eq_dec Z.eq_dec l1 l2 then true else false.

(** The three protocol identifiers read off the wire: ethertype at offsets
    12 and 13, the version nibble at offset 14, the protocol at offset 23. *)
Definition passes_checks (octets : bytes) : bool :=
  match getitem octets 12, getitem octets 13,
        getitem octets 14, getitem octets 23 with
  | inr e12, inr e13, inr v, inr proto =>
      (Z.shiftl e12 8 + e13 =? 2048) && (to_bits v 0 4 8 =? 4) &&
      (proto =? 6)
  | _, _, _, _ => false
  end.

(** The IPv4 header length, in words, as the buffer declares it. *)
Definition wire_ihl (octets : bytes) : Z :=
  match getitem octets 14 with
  | inr v => to_bits v 4 4 8
  | inl _ => 0
  end.

(** The TCP data offset, in words, read where the decoder reads it: twelve
    bytes after the end of the IPv4 header. *)
Definition wire_data_offset (octets : bytes) : Z :=
  match getitem octets (14 + 4 * wire_ihl octets + 12) with
  | inr d => to_bits d 0 4 8
  | inl _ => 0
  end.

(** The sum of the 16-bit little-endian words of a buffer, by recursion on
    the buffer; a trailing single byte is a word with a zero high byte. *)
Fixpoint le_words_sum (l : list Z) : Z :=
  match l with
  | a :: b :: r => a + 256 * b + le_words_sum r
  | [a] => a
  | [] => 0
  end.

(** Folding twice, complementing and swapping the two bytes, on the sum. *)
Definition finish (s : Z) : Z :=
  let s := Z.shiftr s 16 + Z.land s 65535 in
  let s := s + Z.shiftr s 16 in
  let s := Z.lnot s in
  Z.land (Z.lor (Z.land (Z.shiftr s 8) 255) (Z.shiftl s 8)) 65535.

(** The checksum as the specification words it: pad to an even length, sum
    the 16-bit little-endian words, fold the upper 16 bits into the lower 16
    bits twice, complement the 16-bit result, swap its two bytes. *)
Definition pad_even (octets : bytes) : bytes :=
  if Nat.odd (length octets) then octets ++ [0] else octets.

Fixpoint le_words (octets : bytes) : list Z :=
  match octets with
  | lo :: hi :: rest => (lo + 256 * hi) :: le_words rest
  | _ => []
  end.

Definition fold16 (s : Z) : Z := s / 65536 + s mod 65536.

Definition complement16 (s : Z) : Z := 65535 - s mod 65536.

Definition swap16 (c : Z) : Z := (c mod 256) * 256 + c / 256.

Definition checksum_spec (octets : bytes) : Z :=
  swap16 (complement16 (fold16 (fold16 (sum (le_words (pad_even octets)))))).

(** The 16-bit one's-complement sum that [finish] complements. *)
Definition ones_sum (s : Z) : Z :=
  let s1 := s / 65536 + s mod 65536 in
  (s1 + s1 / 65536) mod 65536.

(** Writing the checksum [c] into the two-byte field at [offset]. *)
Definition insert_checksum (octets : bytes) (offset c : Z) : bytes :=
  slice octets 0 offset ++ to_octets c 2 ++ slice_from octets (offset + 2).

(** The ten bytes before the IPv4 header checksum, and what follows it. *)
Definition ip_header_pre (p : IPv4Packet.t) : bytes :=
  to_octets (to_integer [IPv4Packet.version p; IPv4Packet.ihl p] 4) 1 ++
  to_octets (Z.shiftl (IPv4Packet.dscp p) 2 + IPv4Packet.ecn p) 1 ++
  to_octets (IPv4Packet.length p) 2 ++
  to_octets (IPv4Packet.identification p) 2 ++
  to_octets (Z.shiftl (IPv4Packet.flags p) 13
             + IPv4Packet.fragment_offset p) 2 ++
  to_octets (IPv4Packet.ttl p) 1 ++
  to_octets (IPv4Packet.protocol p) 1.

Definition ip_header_post (p : IPv4Packet.t) : bytes :=
  IPv4Address.address (IPv4Packet.source_address p) ++
  IPv4Address.address (IPv4Packet.dest_address p) ++
  to_octets (IPv4Packet.options p) ((IPv4Packet.ihl p - 5) * 4).

(** The sixteen bytes before the TCP checksum, and what follows it. *)
Definition tcp_header_pre (t : TCPPacket.t) : bytes :=
  to_octets (TCPPacket.source_port t) 2 ++
  to_octets (TCPPacket.dest_port t) 2 ++
  to_octets (TCPPacket.sequence t) 4 ++
  to_octets (TCPPacket.ack_number t) 4 ++
  to_octets (Z.shiftl (TCPPacket.data_offset t) 4 +
             Z.shiftl (TCPPacket.reserved t) 1 +
             int_of_bool (TCPPacket.NS t)) 1 ++
  to_octets (to_integer (map int_of_bool
               [TCPPacket.CWR t; TCPPacket.ECE t; TCPPacket.URG t;
                TCPPacket.ACK t; TCPPacket.PSH t; TCPPacket.RST t;
                TCPPacket.SYN t; TCPPacket.FIN t]) 1) 1 ++
  to_octets (TCPPacket.window_size t) 2.

Definition tcp_header_post (t : TCPPacket.t) : bytes :=
  to_octets (TCPPacket.urgent_pointer t) 2 ++
  to_octets (TCPPacket.options t) ((TCPPacket.data_offset t - 5) * 4).

(** The field as the specification words it: the bits of a [width]-bit
    value listed from the most significant one, the [length] bits from
    position [offset] on, read as an unsigned integer. *)
Definition bits_msb_first (value width : Z) : list bool :=
  map (fun k => Z.testbit value (width - 1 - k)) (range width).

Definition unsigned_of_bits (bits : list bool) : Z :=
  fold_left (fun acc b => 2 * acc + int_of_bool b) bits 0.

Definition extract_bits_spec (value offset length width : Z) : Z :=
  unsigned_of_bits
    (firstn (Z.to_nat length)
            (skipn (Z.to_nat offset) (bits_msb_first value width))).

(** A 55-byte frame: Ethernet, a 20-byte IPv4 header with total length 41,
    a 20-byte TCP header (ACK, PSH) and one byte of payload. *)
Definition sample_frame : bytes :=
  [0; 1; 2; 3; 4; 5; 6; 7; 8; 9; 10; 11; 8; 0;
   69; 0; 0; 41; 28; 70; 64; 0; 64; 6; 177; 230; 172; 16; 10; 99;
   172; 16; 10; 12;
   0; 80; 48; 57; 1; 2; 3; 4; 5; 6; 7; 8; 80; 24; 255; 255; 171; 205; 0; 0;
   99].

(** The IPv4 packet of [sample_frame]. *)
Definition sample_packet : bytes :=
  [69; 0; 0; 41; 28; 70; 64; 0; 64; 6; 177; 230; 172; 16; 10; 99;
   172; 16; 10; 12;
   0; 80; 48; 57; 1; 2; 3; 4; 5; 6; 7; 8; 80; 24; 255; 255; 171; 205; 0; 0;
   99].

(** A 20-byte IPv4 header with a zero checksum field (offset 10). *)
Definition sample_header : bytes :=
  [69; 0; 0; 60; 28; 70; 64; 0; 64; 6; 0; 0; 172; 16; 10; 99;
   172; 16; 10; 12].

(** An ARP request: ethertype 0x0806. *)
Definition arp_frame : bytes :=
  [255; 255; 255; 255; 255; 255; 6; 7; 8; 9; 10; 11; 8; 6;
   0; 1; 8; 0; 6; 4; 0; 1; 6; 7; 8; 9; 10; 11; 10; 0; 0; 1;
   0; 0; 0; 0; 0; 0; 10; 0; 0; 2].

(** A 50-byte frame whose IPv4 header declares IHL 4 (16 bytes), followed
    by a 20-byte TCP header; the total-length field is 36. *)
Definition short_ihl_frame : bytes :=
  [0; 1; 2; 3; 4; 5; 6; 7; 8; 9; 10; 11; 8; 0;
   68; 0; 0; 36; 0; 0; 0; 0; 64; 6; 0; 0; 10; 0; 0; 1;
   0; 80; 48; 57; 0; 0; 0; 1; 0; 0; 0; 0; 80; 16; 255; 255; 0; 0; 0; 0].

(** A 29-byte frame: the IPv4 part has 15 bytes and declares IHL 0, so the
    decoder reads the TCP header from the same 15 bytes. *)
Definition truncated_frame : bytes :=
  [0; 1; 2; 3; 4; 5; 6; 7; 8; 9; 10; 11; 8; 0;
   64; 0; 0; 15; 0; 0; 0; 0; 64; 6; 0; 0; 10; 0; 1].

(** The IPv4 part of a truncated frame: 18 bytes, IHL 1. *)
Definition truncated_packet : bytes :=
  [65; 0; 0; 18; 0; 0; 0; 0; 64; 6; 0; 0; 10; 0; 0; 1; 80; 16].

(** A 60-byte frame: a 40-byte IPv4 packet (total length 40, no TCP data)
    padded by the link layer with six zero bytes. *)
Definition padded_frame : bytes :=
  [0; 1; 2; 3; 4; 5; 6; 7; 8; 9; 10; 11; 8; 0;
   69; 0; 0; 40; 0; 0; 64; 0; 64; 6; 0; 0; 10; 0; 0; 1; 10; 0; 0; 2;
   0; 80; 48; 57; 0; 0; 0; 1; 0; 0; 0; 2; 80; 16; 255; 255; 0; 0; 0; 0;
   0; 0; 0; 0; 0; 0].

(** A 131079-byte buffer: a zero checksum field, 65538 words 0xffff, and
    a last byte 1. *)
Definition huge_buffer : bytes :=
  [0; 0] ++ Z.iter 131076 (cons 255) [1].

(** ** Serialize, then decode

    The field widths of the wire format, the object a constructor builds
    from a serialized one, and the frame after a reset was forged below
    it. *)

(** Every field of the segment fits its width on the wire. *)
Definition TCPPacket_in_range (t : TCPPacket.t) : Prop :=
  0 <= TCPPacket.source_port t < 65536 /\
  0 <= TCPPacket.dest_port t < 65536 /\
  0 <= TCPPacket.sequence t < 4294967296 /\
  0 <= TCPPacket.ack_number t < 4294967296 /\
  0 <= TCPPacket.data_offset t < 16 /\
  0 <= TCPPacket.reserved t < 8 /\
  0 <= TCPPacket.window_size t < 65536 /\
  0 <= TCPPacket.checksum t < 65536 /\
  0 <= TCPPacket.urgent_pointer t < 65536 /\
  0 <= TCPPacket.options t
    < 2 ^ (8 * Z.max 0 ((TCPPacket.data_offset t - 5) * 4)) /\
  is_bytes (TCPPacket.payload t) = true.

(** Every field of the IPv4 header fits its width on the wire. *)
Definition IPv4Packet_in_range (p : IPv4Packet.t) : Prop :=
  0 <= IPv4Packet.version p < 16 /\
  0 <= IPv4Packet.ihl p < 16 /\
  0 <= IPv4Packet.dscp p < 64 /\
  0 <= IPv4Packet.ecn p < 4 /\
  0 <= IPv4Packet.length p < 65536 /\
  0 <= IPv4Packet.identification p < 65536 /\
  0 <= IPv4Packet.flags p < 8 /\
  0 <= IPv4Packet.fragment_offset p < 8192 /\
  0 <= IPv4Packet.ttl p < 256 /\
  0 <= IPv4Packet.protocol p < 256 /\
  0 <= IPv4Packet.checksum p < 65536 /\
  is_bytes (IPv4Address.address (IPv4Packet.source_address p)) = true /\
  is_bytes (IPv4Address.address (IPv4Packet.dest_address p)) = true /\
  len (IPv4Address.address (IPv4Packet.source_address p)) <= 4 /\
  len (IPv4Address.address (IPv4Packet.dest_address p)) <= 4 /\
  0 <= IPv4Packet.options p
    < 2 ^ (8 * Z.max 0 ((IPv4Packet.ihl p - 5) * 4)).

(** [bytes(l)] raises [ValueError] when an element of [l] lies outside
    [0, 256); the serializers write it as [l].  They are the code's
    serializers on the objects below, whose address tuples and TCP payload
    hold octets: there no [bytes(...)] of [raw_header], [raw] or
    [tcp_checksum_bytes] raises. *)
Definition IPv4Packet_octets (p : IPv4Packet.t) : Prop :=
  is_bytes (IPv4Address.address (IPv4Packet.source_address p)) = true /\
  is_bytes (IPv4Address.address (IPv4Packet.dest_address p)) = true /\
  is_bytes (TCPPacket.payload (IPv4Packet.payload p)) = true.

(** The segment [TCPPacket] builds from [t.raw()] when it decodes it back:
    [t] itself, holding the serialized bytes as its [_raw]. *)
Definition TCPPacket_reparsed (t : TCPPacket.t) : TCPPacket.t :=
  {| TCPPacket._raw := TCPPacket.raw t;
     TCPPacket.source_port := TCPPacket.source_port t;
     TCPPacket.dest_port := TCPPacket.dest_port t;
     TCPPacket.sequence := TCPPacket.sequence t;
     TCPPacket.ack_number := TCPPacket.ack_number t;
     TCPPacket.data_offset := TCPPacket.data_offset t;
     TCPPacket.reserved := TCPPacket.reserved t;
     TCPPacket.NS := TCPPacket.NS t; TCPPacket.CWR := TCPPacket.CWR t;
     TCPPacket.ECE := TCPPacket.ECE t; TCPPacket.URG := TCPPacket.URG t;
     TCPPacket.ACK := TCPPacket.ACK t; TCPPacket.PSH := TCPPacket.PSH t;
     TCPPacket.RST := TCPPacket.RST t; TCPPacket.SYN := TCPPacket.SYN t;
     TCPPacket.FIN := TCPPacket.FIN t;
     TCPPacket.window_size := TCPPacket.window_size t;
     TCPPacket.checksum := TCPPacket.checksum t;
     TCPPacket.urgent_pointer := TCPPacket.urgent_pointer t;
     TCPPacket.options := TCPPacket.options t;
     TCPPacket.payload := TCPPacket.payload t |}.

Definition IPv4Packet_reparsed (p : IPv4Packet.t) : IPv4Packet.t :=
  {| IPv4Packet._raw := IPv4Packet.raw p;
     IPv4Packet.version := IPv4Packet.version p;
     IPv4Packet.ihl := IPv4Packet.ihl p;
     IPv4Packet.dscp := IPv4Packet.dscp p;
     IPv4Packet.ecn := IPv4Packet.ecn p;
     IPv4Packet.length := IPv4Packet.length p;
     IPv4Packet.identification := IPv4Packet.identification p;
     IPv4Packet.flags := IPv4Packet.flags p;
     IPv4Packet.fragment_offset := IPv4Packet.fragment_offset p;
     IPv4Packet.ttl := IPv4Packet.ttl p;
     IPv4Packet.protocol := IPv4Packet.protocol p;
     IPv4Packet.checksum := IPv4Packet.checksum p;
     IPv4Packet.source_address := IPv4Packet.source_address p;
     IPv4Packet.dest_address := IPv4Packet.dest_address p;
     IPv4Packet.options := IPv4Packet.options p;
     IPv4Packet.payload := TCPPacket_reparsed (IPv4Packet.payload p) |}.

Definition EthernetFrame_reparsed (f : EthernetFrame.t) : EthernetFrame.t :=
  {| EthernetFrame._raw := EthernetFrame.raw f;
     EthernetFrame.dest_address := EthernetFrame.dest_address f;
     EthernetFrame.source_address := EthernetFrame.source_address f;
     EthernetFrame.ethertype := EthernetFrame.ethertype f;
     EthernetFrame.payload :=
       IPv4Packet_reparsed (EthernetFrame.payload f) |}.

(** The frame after [frame.payload.payload.forge_reset(sequence)]: the
    frame object is the same and its payload is the mutated packet. *)
Definition EthernetFrame_forge_reset (sequence : Z) (f : EthernetFrame.t)
  : EthernetFrame.t :=
  {| EthernetFrame._raw := EthernetFrame._raw f;
     EthernetFrame.dest_address := EthernetFrame.dest_address f;
     EthernetFrame.source_address := EthernetFrame.source_address f;
     EthernetFrame.ethertype := EthernetFrame.ethertype f;
     EthernetFrame.payload :=
       TCPPacket_forge_reset sequence (EthernetFrame.payload f) |}.

(** ** Further sample inputs *)

(** The TCP segment of [sample_frame]. *)
Definition sample_segment : bytes :=
  [0; 80; 48; 57; 1; 2; 3; 4; 5; 6; 7; 8; 80; 24; 255; 255; 171; 205; 0; 0;
   99].

(** A SYN segment built field by field, with one option word (maximum
    segment size 1460), the packet that carries it and the frame that
    carries the packet. *)
Definition syn_segment : TCPPacket.t :=
  {| TCPPacket._raw := [];
     TCPPacket.source_port := 49152;
     TCPPacket.dest_port := 443;
     TCPPacket.sequence := 1000;
     TCPPacket.ack_number := 0;
     TCPPacket.data_offset := 6;
     TCPPacket.reserved := 0;
     TCPPacket.NS := false; TCPPacket.CWR := false;
     TCPPacket.ECE := false; TCPPacket.URG := false;
     TCPPacket.ACK := false; TCPPacket.PSH := false;
     TCPPacket.RST := false; TCPPacket.SYN := true;
     TCPPacket.FIN := false;
     TCPPacket.window_size := 65535;
     TCPPacket.checksum := 0;
     TCPPacket.urgent_pointer := 0;
     TCPPacket.options := 33818036;
     TCPPacket.payload := [] |}.

Definition syn_packet : IPv4Packet.t :=
  {| IPv4Packet._raw := [];
     IPv4Packet.version := 4;
     IPv4Packet.ihl := 5;
     IPv4Packet.dscp := 0;
     IPv4Packet.ecn := 0;
     IPv4Packet.length := 44;
     IPv4Packet.identification := 1;
     IPv4Packet.flags := 2;
     IPv4Packet.fragment_offset := 0;
     IPv4Packet.ttl := 64;
     IPv4Packet.protocol := 6;
     IPv4Packet.checksum := 0;
     IPv4Packet.source_address := IPv4Address.init [10; 0; 0; 1];
     IPv4Packet.dest_address := IPv4Address.init [10; 0; 0; 2];
     IPv4Packet.options := 0;
     IPv4Packet.payload := syn_segment |}.

Definition syn_frame : EthernetFrame.t :=
  {| EthernetFrame._raw := [];
     EthernetFrame.dest_address := MACAddress.init [0; 1; 2; 3; 4; 5];
     EthernetFrame.source_address := MACAddress.init [6; 7; 8; 9; 10; 11];
     EthernetFrame.ethertype := 2048;
     EthernetFrame.payload := syn_packet |}.

(** ** Address formatting

    The two [__str__] methods and the string operations of the Python
    runtime they call.  [hex(o)] is the sign, [0x] and the lowercase
    hexadecimal digits of [abs(o)] without leading zeros; [str(o)] is the
    decimal numeral of [o] (Python caps the number of digits [str] will
    print at 4300; the properties below are about octets). *)

Definition hex (o : Z) : string :=
  String.append (if o <? 0 then "-0x"%string else "0x"%string)
    (HexadecimalString.NilZero.string_of_uint (N.to_hex_uint (Z.abs_N o))).


Definition str_len (s : string) : Z := Z.of_nat (String.length s).

Fixpoint str_skip (n : nat) (s : string) : string :=
  match n, s with
  | S n', String _ s' => str_skip n' s'
  | _, _ => s
  end.

(** [s[a:]] *)
Definition str_slice_from (s : string) (a : Z) : string :=
  str_skip (Z.to_nat (clamp (str_len s) a)) s.

Fixpoint str_repeat (c : ascii) (n : nat) : string :=
  match n with
  | O => EmptyString
  | S n' => String c (str_repeat c n')
  end.

(** [s.rjust(width, fillchar)]: [s] itself when it is already that wide. *)
Definition rjust (s : string) (width : Z) (fillchar : ascii) : string :=
  String.append (str_repeat fillchar (Z.to_nat (width - str_len s))) s.

(** [sep.join(l)] *)
Definition join (sep : string) (l : list string) : string :=
  String.concat sep l.

Definition MACAddress_str (self : MACAddress.t) : string :=
  join ":" (map (fun o => rjust (str_slice_from (hex o) 2) 2 "0")
              (MACAddress.address self)).


(** Reading the formats back: [s.split(sep)] for a one-character
    separator, [int(s, 16)] and [int(s)] on digit strings, and the two
    lowercase hexadecimal digits of an octet, high nibble first. *)
Fixpoint str_split (sep : ascii) (s : string) : list string :=
  match s with
  | EmptyString => [EmptyString]
  | String c s' =>
      if Ascii.eqb c sep then EmptyString :: str_split sep s'
      else match str_split sep s' with
           | x :: r => String c x :: r
           | [] => [String c EmptyString]
           end
  end.

Fixpoint str_mem (c : ascii) (s : string) : bool :=
  match s with
  | EmptyString => false
  | String c' s' => Ascii.eqb c' c || str_mem c s'
  end.

Definition int_of_hex (s : string) : option Z :=
  option_map (fun u => Z.of_N (N.of_hex_uint u))
    (HexadecimalString.NilZero.uint_of_string s).


Definition hex_digit (n : Z) : ascii :=
  match String.get (Z.to_nat n) "0123456789abcdef" with
  | Some c => c
  | None => "?"%char
  end.

Definition two_hex_digits (o : Z) : string :=
  String (hex_digit (o / 16)) (String (hex_digit (o mod 16)) EmptyString).

(** * Properties *)

(** ** Lists, indexing and slices *)

Lemma len_nonneg (l : list Z) : 0 <= len l.
Proof. unfold len; lia. Qed.

Lemma len_cons (x : Z) (l : list Z) : len (x :: l) = len l + 1.
Proof. unfold len; cbn [length]; lia. Qed.

Lemma len_app (l1 l2 : list Z) : len (l1 ++ l2) = len l1 + len l2.
Proof. unfold len; rewrite length_app; lia. Qed.

Lemma is_bytes_app (l1 l2 : list Z) :
  is_bytes (l1 ++ l2) = is_bytes l1 && is_bytes l2.
Proof. apply forallb_app. Qed.

Lemma is_bytes_firstn (n : nat) (l : list Z) :
  is_bytes l = true -> is_bytes (firstn n l) = true.
Proof.
  revert n; induction l as [|x l IH]; intros [|n] H; cbn in *; auto.
  apply andb_true_iff in H as [Hx Hl]; rewrite Hx; cbn; auto.
Qed.

Lemma is_bytes_skipn (n : nat) (l : list Z) :
  is_bytes l = true -> is_bytes (skipn n l) = true.
Proof.
  revert n; induction l as [|x l IH]; intros [|n] H; cbn in *; auto.
  apply andb_true_iff in H as [_ Hl]; auto.
Qed.

Lemma is_bytes_slice (l : list Z) (a b : Z) :
  is_bytes l = true -> is_bytes (slice l a b) = true.
Proof. intros H; unfold slice; now apply is_bytes_firstn, is_bytes_skipn. Qed.

Lemma is_bytes_slice_from (l : list Z) (a : Z) :
  is_bytes l = true -> is_bytes (slice_from l a) = true.
Proof. intros H; unfold slice_from; now apply is_bytes_skipn. Qed.

Lemma is_byte_range (b : Z) : is_byte b = true <-> 0 <= b < 256.
Proof. unfold is_byte; lia. Qed.

Lemma clamp_in (n i : Z) : 0 <= i <= n -> clamp n i = i.
Proof. unfold clamp; intros H; destruct (Z.ltb_spec i 0); lia. Qed.

Lemma clamp_nonneg (n i : Z) : 0 <= i -> clamp n i = Z.min i n.
Proof. unfold clamp; intros H; destruct (Z.ltb_spec i 0); lia. Qed.

Lemma slice_from_0 (l : list Z) : slice_from l 0 = l.
Proof.
  unfold slice_from; rewrite clamp_in by (pose proof (len_nonneg l); lia).
  reflexivity.
Qed.

Lemma len_slice (l : list Z) (a b : Z) :
  0 <= a <= b -> b <= len l -> len (slice l a b) = b - a.
Proof.
  intros Hab Hb; unfold slice.
  rewrite !clamp_in by lia.
  unfold len in *; rewrite length_firstn, length_skipn; lia.
Qed.

Lemma len_slice_from (l : list Z) (a : Z) :
  0 <= a <= len l -> len (slice_from l a) = len l - a.
Proof.
  intros Ha; unfold slice_from; rewrite clamp_in by lia.
  unfold len in *; rewrite length_skipn; lia.
Qed.

(** A slice and the tail after it concatenate. *)
Lemma slice_glue_from (l : list Z) (a b : Z) :
  0 <= a <= b -> slice l a b ++ slice_from l b = slice_from l a.
Proof.
  intros Hab; unfold slice, slice_from.
  rewrite !clamp_nonneg by lia.
  pose proof (len_nonneg l) as Hn.
  replace (Z.to_nat (Z.min b (len l)))
    with (Z.to_nat (Z.min b (len l) - Z.min a (len l)) +
          Z.to_nat (Z.min a (len l)))%nat by lia.
  rewrite <- skipn_skipn.
  apply firstn_skipn.
Qed.

Lemma getitem_ok (l : list Z) (i : Z) :
  0 <= i < len l -> exists o, getitem l i = Ok o /\ slice l i (i + 1) = [o].
Proof.
  intros Hi; unfold getitem, slice.
  assert ((i <? 0) = false) as E0 by lia.
  cbv zeta; rewrite !E0, !clamp_in by lia.
  replace (Z.to_nat (i + 1 - i)) with 1%nat by lia.
  unfold len in Hi.
  destruct (nth_error l (Z.to_nat i)) as [o|] eqn:E.
  - exists o; split; [reflexivity|].
    apply nth_error_split in E as (l1 & l2 & -> & Hl1).
    rewrite <- Hl1, skipn_app, skipn_all, Nat.sub_diag; reflexivity.
  - apply nth_error_None in E; lia.
Qed.

Lemma getitem_inv (l : list Z) (i o : Z) :
  0 <= i -> getitem l i = Ok o -> i < len l /\ slice l i (i + 1) = [o].
Proof.
  intros Hi H.
  assert (i < len l) as Hlt.
  { unfold getitem in H.
    assert ((i <? 0) = false) as E0 by lia.
    cbv zeta in H; rewrite !E0 in H.
    destruct (nth_error l (Z.to_nat i)) eqn:E; [|discriminate].
    assert (Z.to_nat i < length l)%nat
      by (apply nth_error_Some; congruence).
    unfold len; lia. }
  split; [exact Hlt|].
  destruct (getitem_ok l i) as (o' & H1 & H2); [lia|].
  rewrite H1 in H; injection H as ->; exact H2.
Qed.

Lemma is_bytes_singleton_slice (l : list Z) (i o : Z) :
  is_bytes l = true -> slice l i (i + 1) = [o] -> 0 <= o < 256.
Proof.
  intros Hl Hs.
  pose proof (is_bytes_slice l i (i + 1) Hl) as H.
  rewrite Hs in H; cbn in H.
  apply is_byte_range; now rewrite andb_true_r in H.
Qed.

(** ** Bit and integer codec *)

Lemma to_bits_8 (i offset n_bits : Z) :
  to_bits i offset 8 n_bits = Z.land (Z.shiftr i (n_bits - offset - 8)) 255.
Proof. reflexivity. Qed.

Lemma to_bits_range (i offset n_bits : Z) :
  0 <= to_bits i offset 8 n_bits < 256.
Proof.
  rewrite to_bits_8; change 255 with (Z.ones 8).
  rewrite Z.land_ones by lia; apply Z.mod_pos_bound; lia.
Qed.

Lemma range_succ (n : Z) :
  0 <= n -> range (n + 1) = 0 :: map (fun x => x + 1) (range n).
Proof.
  intros Hn; unfold range.
  replace (Z.to_nat (n + 1)) with (S (Z.to_nat n)) by lia.
  cbn [seq map]; f_equal.
  rewrite <- seq_shift, !map_map.
  apply map_ext; intros x; lia.
Qed.

Lemma range_nonpos (n : Z) : n <= 0 -> range n = [].
Proof.
  intros Hn; unfold range.
  replace (Z.to_nat n) with 0%nat by lia; reflexivity.
Qed.

Lemma to_octets_succ (i n : Z) :
  0 <= n ->
  to_octets i (n + 1) = Z.land (Z.shiftr i (8 * n)) 255 :: to_octets i n.
Proof.
  intros Hn; unfold to_octets.
  rewrite range_succ by exact Hn; cbn [map].
  rewrite to_bits_8; f_equal; [do 2 f_equal; lia|].
  rewrite map_map; apply map_ext; intros x.
  rewrite !to_bits_8; do 2 f_equal; lia.
Qed.

Lemma to_octets_2 (i : Z) :
  to_octets i 2 = [Z.land (Z.shiftr i 8) 255; Z.land i 255].
Proof. reflexivity. Qed.

Lemma len_to_octets (i n : Z) : len (to_octets i n) = Z.max 0 n.
Proof.
  unfold to_octets, range, len.
  rewrite !length_map, length_seq; lia.
Qed.

Lemma is_bytes_to_octets (i n : Z) : is_bytes (to_octets i n) = true.
Proof.
  unfold to_octets, is_bytes.
  apply forallb_forall; intros b Hb.
  apply in_map_iff in Hb as (x & <- & _).
  apply is_byte_range, to_bits_range.
Qed.

Lemma to_integer_acc (n_bits : Z) (octets : list Z) (l i : Z) :
  snd (fold_left (fun '(l, i) o => (l - 1, i + Z.shiftl o (l * n_bits)))
                 octets (l, i))
  = i + snd (fold_left
               (fun '(l, i) o => (l - 1, i + Z.shiftl o (l * n_bits)))
               octets (l, 0)).
Proof.
  revert l i; induction octets as [|o octets IH]; intros l i; cbn [fold_left].
  - cbn; lia.
  - rewrite IH, (IH _ (0 + _)); lia.
Qed.

Lemma to_integer_cons (o : Z) (octets : list Z) (n_bits : Z) :
  to_integer (o :: octets) n_bits
  = Z.shiftl o (len octets * n_bits) + to_integer octets n_bits.
Proof.
  unfold to_integer; cbn [fold_left].
  rewrite len_cons.
  replace (len octets + 1 - 1) with (len octets) by lia.
  rewrite to_integer_acc.
  replace (len octets - 1 - 1 + 1) with (len octets - 1) by lia.
  lia.
Qed.

Lemma to_integer_bound (octets : list Z) :
  is_bytes octets = true ->
  0 <= to_integer octets 8 < 2 ^ (8 * len octets).
Proof.
  induction octets as [|o octets IH]; intros Hb.
  - cbn; lia.
  - cbn in Hb; apply andb_true_iff in Hb as [Ho Hb].
    apply is_byte_range in Ho; specialize (IH Hb).
    pose proof (len_nonneg octets) as Hn.
    rewrite to_integer_cons, Z.shiftl_mul_pow2, len_cons by lia.
    replace (8 * (len octets + 1)) with (8 + len octets * 8) by lia.
    rewrite Z.pow_add_r by lia.
    replace (8 * len octets) with (len octets * 8) in IH by lia.
    nia.
Qed.

(** Encoding what was decoded gives the bytes back, whatever lies above
    them in the integer. *)
Lemma to_octets_to_integer_above (octets : list Z) :
  is_bytes octets = true ->
  forall hi,
    to_octets (hi * 2 ^ (8 * len octets) + to_integer octets 8) (len octets)
    = octets.
Proof.
  induction octets as [|o octets IH]; intros Hb hi.
  - reflexivity.
  - cbn in Hb; apply andb_true_iff in Hb as [Ho Hb].
    apply is_byte_range in Ho.
    pose proof (len_nonneg octets) as Hn.
    pose proof (to_integer_bound octets Hb) as Hv.
    rewrite len_cons, to_octets_succ by lia.
    rewrite to_integer_cons, Z.shiftl_mul_pow2 by lia.
    replace (len octets * 8) with (8 * len octets) by lia.
    replace (8 * (len octets + 1)) with (8 + 8 * len octets) by lia.
    rewrite Z.pow_add_r by lia.
    set (P := 2 ^ (8 * len octets)) in *.
    assert (0 < P) as HP by (apply Z.pow_pos_nonneg; lia).
    replace (hi * (2 ^ 8 * P) + (o * P + to_integer octets 8))
      with ((hi * 256 + o) * P + to_integer octets 8) by (change (2 ^ 8) with 256; lia).
    f_equal.
    + rewrite Z.shiftr_div_pow2 by lia; fold P.
      change 255 with (Z.ones 8); rewrite Z.land_ones by lia.
      rewrite Z.div_add_l, (Z.div_small _ P) by lia.
      change (2 ^ 8) with 256.
      rewrite Z.add_0_r, Z.add_comm, Z.mod_add by lia.
      apply Z.mod_small; lia.
    + apply (IH Hb).
Qed.

Lemma to_octets_to_integer (octets : list Z) (n : Z) :
  is_bytes octets = true -> n = len octets ->
  to_octets (to_integer octets 8) n = octets.
Proof.
  intros Hb ->.
  exact (to_octets_to_integer_above octets Hb 0).
Qed.

(** A property of one byte is checked on its 256 values. *)
Lemma byte_cases (P : Z -> bool) :
  forallb P (range 256) = true -> forall b, 0 <= b < 256 -> P b = true.
Proof.
  intros H b Hb.
  rewrite forallb_forall in H; apply H.
  unfold range; apply in_map_iff.
  exists (Z.to_nat b); split; [lia|].
  apply in_seq; lia.
Qed.

Lemma bytes_eqb_eq (l1 l2 : list Z) : bytes_eqb l1 l2 = true -> l1 = l2.
Proof. unfold bytes_eqb; now destruct (list_eq_dec Z.eq_dec l1 l2). Qed.

Ltac by_byte_cases o H :=
  apply bytes_eqb_eq;
  revert o H;
  apply (byte_cases (fun o => bytes_eqb _ [o]));
  vm_compute; reflexivity.

(** The four packed header bytes are rebuilt from their fields. *)
Lemma tcp_offset_byte (o : Z) :
  0 <= o < 256 ->
  to_octets (Z.shiftl (to_bits o 0 4 8) 4 +
             Z.shiftl (to_bits o 4 3 8) 1 +
             int_of_bool (bool_of_int (to_bits o 7 1 8))) 1 = [o].
Proof. intros H; by_byte_cases o H. Qed.

Lemma tcp_flags_byte (o : Z) :
  0 <= o < 256 ->
  to_octets
    (to_integer
       (map int_of_bool
          [bool_of_int (to_bits o 0 1 8); bool_of_int (to_bits o 1 1 8);
           bool_of_int (to_bits o 2 1 8); bool_of_int (to_bits o 3 1 8);
           bool_of_int (to_bits o 4 1 8); bool_of_int (to_bits o 5 1 8);
           bool_of_int (to_bits o 6 1 8); bool_of_int (to_bits o 7 1 8)]) 1)
    1 = [o].
Proof. intros H; by_byte_cases o H. Qed.

Lemma ip_version_byte (o : Z) :
  0 <= o < 256 ->
  to_octets (to_integer [to_bits o 0 4 8; to_bits o 4 4 8] 4) 1 = [o].
Proof. intros H; by_byte_cases o H. Qed.

Lemma ip_dscp_byte (o : Z) :
  0 <= o < 256 ->
  to_octets (Z.shiftl (to_bits o 0 6 8) 2 + to_bits o 6 2 8) 1 = [o].
Proof. intros H; by_byte_cases o H. Qed.

Lemma plain_byte (o : Z) : 0 <= o < 256 -> to_octets o 1 = [o].
Proof. intros H; by_byte_cases o H. Qed.

Lemma nibble_range (o a b : Z) : 0 <= to_bits o a 4 b < 16.
Proof.
  unfold to_bits; change (Z.shiftl 1 4 - 1) with (Z.ones 4).
  rewrite Z.land_ones by lia; apply Z.mod_pos_bound; lia.
Qed.

(** The 16-bit flags / fragment-offset word is rebuilt from its two
    fields. *)
Lemma ip_fragment_word (v : Z) :
  0 <= v < 65536 ->
  Z.shiftl (to_bits v 0 3 16) 13 + to_bits v 3 13 16 = v.
Proof.
  intros Hv; unfold to_bits.
  change (Z.shiftl 1 3 - 1) with (Z.ones 3).
  change (Z.shiftl 1 13 - 1) with (Z.ones 13).
  change (16 - 0 - 3) with 13; change (16 - 3 - 13) with 0.
  rewrite Z.shiftr_0_r, !Z.land_ones, Z.shiftr_div_pow2,
    Z.shiftl_mul_pow2 by lia.
  change (2 ^ 13) with 8192; change (2 ^ 3) with 8.
  Z.div_mod_to_equations; lia.
Qed.

(** ** Decoding *)

Ltac tcp_fields :=
  cbn [TCPPacket._raw TCPPacket.source_port TCPPacket.dest_port
       TCPPacket.sequence TCPPacket.ack_number TCPPacket.data_offset
       TCPPacket.reserved TCPPacket.NS TCPPacket.CWR TCPPacket.ECE
       TCPPacket.URG TCPPacket.ACK TCPPacket.PSH TCPPacket.RST
       TCPPacket.SYN TCPPacket.FIN TCPPacket.window_size
       TCPPacket.checksum TCPPacket.urgent_pointer TCPPacket.options
       TCPPacket.payload] in *.

Ltac ip_fields :=
  cbn [IPv4Packet._raw IPv4Packet.version IPv4Packet.ihl IPv4Packet.dscp
       IPv4Packet.ecn IPv4Packet.length IPv4Packet.identification
       IPv4Packet.flags IPv4Packet.fragment_offset IPv4Packet.ttl
       IPv4Packet.protocol IPv4Packet.checksum IPv4Packet.source_address
       IPv4Packet.dest_address IPv4Packet.options IPv4Packet.payload
       IPv4Address.address IPv4Address.init] in *.

Ltac eth_fields :=
  cbn [EthernetFrame._raw EthernetFrame.dest_address
       EthernetFrame.source_address EthernetFrame.ethertype
       EthernetFrame.payload MACAddress.address MACAddress.init] in *.

(** Splits a successful run of a constructor into its successful steps. *)
Ltac bind_inv H :=
  repeat match type of H with
         | bind ?m _ = _ =>
             let E := fresh "E" in
             destruct m eqn:E; cbn [bind] in H; [discriminate H|]
         | (if ?c then _ else _) = _ =>
             let E := fresh "E" in
             destruct c eqn:E; [discriminate H|]
         end.

Lemma TCPPacket_init_inv (octets : bytes) (p : TCPPacket.t) :
  TCPPacket.init octets = Ok p ->
  exists o12 o13,
    getitem octets 12 = Ok o12 /\ getitem octets 13 = Ok o13 /\
    p = {| TCPPacket._raw := octets;
           TCPPacket.source_port := to_integer (slice octets 0 2) 8;
           TCPPacket.dest_port := to_integer (slice octets 2 4) 8;
           TCPPacket.sequence := to_integer (slice octets 4 8) 8;
           TCPPacket.ack_number := to_integer (slice octets 8 12) 8;
           TCPPacket.data_offset := to_bits o12 0 4 8;
           TCPPacket.reserved := to_bits o12 4 3 8;
           TCPPacket.NS := bool_of_int (to_bits o12 7 1 8);
           TCPPacket.CWR := bool_of_int (to_bits o13 0 1 8);
           TCPPacket.ECE := bool_of_int (to_bits o13 1 1 8);
           TCPPacket.URG := bool_of_int (to_bits o13 2 1 8);
           TCPPacket.ACK := bool_of_int (to_bits o13 3 1 8);
           TCPPacket.PSH := bool_of_int (to_bits o13 4 1 8);
           TCPPacket.RST := bool_of_int (to_bits o13 5 1 8);
           TCPPacket.SYN := bool_of_int (to_bits o13 6 1 8);
           TCPPacket.FIN := bool_of_int (to_bits o13 7 1 8);
           TCPPacket.window_size := to_integer (slice octets 14 16) 8;
           TCPPacket.checksum := to_integer (slice octets 16 18) 8;
           TCPPacket.urgent_pointer := to_integer (slice octets 18 20) 8;
           TCPPacket.options :=
             to_integer
               (slice octets 20 (20 + 4 * (to_bits o12 0 4 8 - 5))) 8;
           TCPPacket.payload :=
             slice_from octets (20 + 4 * (to_bits o12 0 4 8 - 5)) |}.
Proof.
  intros H; unfold TCPPacket.init in H; cbv zeta in H.
  bind_inv H.
  injection H as <-; eauto.
Qed.

Lemma TCPPacket_init_ok (octets : bytes) :
  14 <= len octets -> exists p, TCPPacket.init octets = Ok p.
Proof.
  intros Hlen; unfold TCPPacket.init; cbv zeta.
  destruct (getitem_ok octets 12) as (o12 & -> & _); [lia|].
  destruct (getitem_ok octets 13) as (o13 & -> & _); [lia|].
  cbn [bind Ok]; eauto.
Qed.

(** The TCP segment is rebuilt byte for byte when its data offset is a
    valid header length that the buffer covers. *)
Lemma TCPPacket_round_trip (octets : bytes) (p : TCPPacket.t) :
  is_bytes octets = true ->
  TCPPacket.init octets = Ok p ->
  5 <= TCPPacket.data_offset p ->
  4 * TCPPacket.data_offset p <= len octets ->
  TCPPacket.raw p = octets.
Proof.
  intros Hb Hinit Hdo Hlen.
  apply TCPPacket_init_inv in Hinit as (o12 & o13 & E12 & E13 & ->).
  tcp_fields.
  apply getitem_inv in E12 as [L12 S12]; [|lia].
  apply getitem_inv in E13 as [L13 S13]; [|lia].
  pose proof (is_bytes_singleton_slice _ _ _ Hb S12) as R12.
  pose proof (is_bytes_singleton_slice _ _ _ Hb S13) as R13.
  unfold TCPPacket.raw, TCPPacket.raw_header; tcp_fields.
  rewrite tcp_offset_byte, tcp_flags_byte by assumption.
  rewrite !to_octets_to_integer
    by first [ now apply is_bytes_slice | rewrite len_slice; lia ].
  rewrite <- S12, <- S13.
  change (12 + 1) with 13; change (13 + 1) with 14.
  rewrite <- !app_assoc.
  rewrite !slice_glue_from by lia.
  apply slice_from_0.
Qed.

Lemma IPv4Packet_init_inv (octets : bytes) (p : IPv4Packet.t) :
  IPv4Packet.init octets = Ok p ->
  exists o0 o1 ttl protocol tcp,
    getitem octets 0 = Ok o0 /\ to_bits o0 0 4 8 = 4 /\
    getitem octets 1 = Ok o1 /\
    getitem octets 8 = Ok ttl /\
    getitem octets 9 = Ok protocol /\ protocol = 6 /\
    TCPPacket.init (slice_from octets (20 + 4 * (to_bits o0 4 4 8 - 5)))
      = Ok tcp /\
    p = {| IPv4Packet._raw := octets;
           IPv4Packet.version := to_bits o0 0 4 8;
           IPv4Packet.ihl := to_bits o0 4 4 8;
           IPv4Packet.dscp := to_bits o1 0 6 8;
           IPv4Packet.ecn := to_bits o1 6 2 8;
           IPv4Packet.length := to_integer (slice octets 2 4) 8;
           IPv4Packet.identification := to_integer (slice octets 4 6) 8;
           IPv4Packet.flags :=
             to_bits (to_integer (slice octets 6 8) 8) 0 3 16;
           IPv4Packet.fragment_offset :=
             to_bits (to_integer (slice octets 6 8) 8) 3 13 16;
           IPv4Packet.ttl := ttl;
           IPv4Packet.protocol := protocol;
           IPv4Packet.checksum := to_integer (slice octets 10 12) 8;
           IPv4Packet.source_address :=
             IPv4Address.init (slice octets 12 16);
           IPv4Packet.dest_address :=
             IPv4Address.init (slice octets 16 20);
           IPv4Packet.options :=
             to_integer
               (slice octets 20 (20 + 4 * (to_bits o0 4 4 8 - 5))) 8;
           IPv4Packet.payload := tcp |}.
Proof.
  intros H; unfold IPv4Packet.init in H; cbv zeta in H.
  bind_inv H.
  injection H as <-.
  apply negb_false_iff, Z.eqb_eq in E0, E4.
  do 5 eexists; repeat split; eauto.
Qed.

Lemma TCPPacket_raw_of_init (octets : bytes) (p : TCPPacket.t) :
  TCPPacket.init octets = Ok p -> TCPPacket._raw p = octets.
Proof.
  intros H; apply TCPPacket_init_inv in H as (? & ? & _ & _ & ->).
  reflexivity.
Qed.

Lemma IPv4Packet_round_trip (octets : bytes) (p : IPv4Packet.t) :
  is_bytes octets = true ->
  IPv4Packet.init octets = Ok p ->
  5 <= IPv4Packet.ihl p ->
  4 * IPv4Packet.ihl p <= len octets ->
  5 <= TCPPacket.data_offset (IPv4Packet.payload p) ->
  4 * TCPPacket.data_offset (IPv4Packet.payload p)
    <= len (TCPPacket._raw (IPv4Packet.payload p)) ->
  IPv4Packet.raw p = octets.
Proof.
  intros Hb Hinit Hihl Hlen Hdo Htcp.
  apply IPv4Packet_init_inv in Hinit
    as (o0 & o1 & ttl & protocol & tcp &
        E0 & Hv & E1 & E8 & E9 & Hp & Etcp & ->).
  ip_fields.
  pose proof (TCPPacket_raw_of_init _ _ Etcp) as Hraw.
  rewrite Hraw in Htcp.
  apply getitem_inv in E0 as [L0 S0]; [|lia].
  apply getitem_inv in E1 as [L1 S1]; [|lia].
  apply getitem_inv in E8 as [L8 S8]; [|lia].
  apply getitem_inv in E9 as [L9 S9]; [|lia].
  pose proof (is_bytes_singleton_slice _ _ _ Hb S0) as R0.
  pose proof (is_bytes_singleton_slice _ _ _ Hb S1) as R1.
  pose proof (is_bytes_singleton_slice _ _ _ Hb S8) as R8.
  pose proof (is_bytes_singleton_slice _ _ _ Hb S9) as R9.
  unfold IPv4Packet.raw, IPv4Packet.raw_header; ip_fields.
  rewrite (TCPPacket_round_trip _ _ (is_bytes_slice_from _ _ Hb) Etcp Hdo Htcp).
  rewrite ip_version_byte, ip_dscp_byte by assumption.
  rewrite (plain_byte ttl), (plain_byte protocol) by assumption.
  rewrite ip_fragment_word.
  2:{ pose proof (to_integer_bound (slice octets 6 8)
                    (is_bytes_slice _ _ _ Hb)) as Hw.
      rewrite len_slice in Hw by lia.
      exact Hw. }
  rewrite !to_octets_to_integer
    by first [ now apply is_bytes_slice | rewrite len_slice; lia ].
  rewrite !map_id.
  rewrite <- S0, <- S1, <- S8, <- S9.
  change (0 + 1) with 1; change (1 + 1) with 2;
    change (8 + 1) with 9; change (9 + 1) with 10.
  rewrite <- !app_assoc.
  rewrite !slice_glue_from by lia.
  apply slice_from_0.
Qed.

Lemma EthernetFrame_init_inv (octets : bytes) (f : EthernetFrame.t) :
  EthernetFrame.init octets = Ok f ->
  exists o12 o13 ip,
    getitem octets 12 = Ok o12 /\ getitem octets 13 = Ok o13 /\
    Z.shiftl o12 8 + o13 = 2048 /\
    IPv4Packet.init (slice_from octets 14) = Ok ip /\
    f = {| EthernetFrame._raw := octets;
           EthernetFrame.dest_address := MACAddress.init (slice octets 0 6);
           EthernetFrame.source_address :=
             MACAddress.init (slice octets 6 12);
           EthernetFrame.ethertype := Z.shiftl o12 8 + o13;
           EthernetFrame.payload := ip |}.
Proof.
  intros H; unfold EthernetFrame.init in H; cbv zeta in H.
  bind_inv H.
  injection H as <-.
  apply negb_false_iff, Z.eqb_eq in E1.
  do 3 eexists; repeat split; eauto.
Qed.

Lemma IPv4Packet_raw_of_init (octets : bytes) (p : IPv4Packet.t) :
  IPv4Packet.init octets = Ok p -> IPv4Packet._raw p = octets.
Proof.
  intros H.
  apply IPv4Packet_init_inv in H
    as (? & ? & ? & ? & ? & _ & _ & _ & _ & _ & _ & _ & ->).
  reflexivity.
Qed.

Lemma EthernetFrame_round_trip_decoded (octets : bytes) (f : EthernetFrame.t) :
  is_bytes octets = true ->
  EthernetFrame.init octets = Ok f ->
  let ip := EthernetFrame.payload f in
  let tcp := IPv4Packet.payload ip in
  5 <= IPv4Packet.ihl ip ->
  4 * IPv4Packet.ihl ip <= len (IPv4Packet._raw ip) ->
  5 <= TCPPacket.data_offset tcp ->
  4 * TCPPacket.data_offset tcp <= len (TCPPacket._raw tcp) ->
  EthernetFrame.raw f = octets.
Proof.
  intros Hb Hinit ip tcp; subst ip tcp.
  apply EthernetFrame_init_inv in Hinit
    as (o12 & o13 & ip & E12 & E13 & Het & Eip & ->).
  eth_fields; intros Hihl Hlen Hdo Htcp.
  pose proof (IPv4Packet_raw_of_init _ _ Eip) as Hraw.
  rewrite Hraw in Hlen.
  apply getitem_inv in E12 as [L12 S12]; [|lia].
  apply getitem_inv in E13 as [L13 S13]; [|lia].
  pose proof (is_bytes_singleton_slice _ _ _ Hb S12) as R12.
  pose proof (is_bytes_singleton_slice _ _ _ Hb S13) as R13.
  unfold EthernetFrame.raw; eth_fields.
  rewrite (IPv4Packet_round_trip _ _ (is_bytes_slice_from _ _ Hb)
             Eip Hihl Hlen Hdo Htcp).
  rewrite Het, !map_id.
  rewrite Z.shiftl_mul_pow2 in Het by lia; change (2 ^ 8) with 256 in Het.
  assert (o12 = 8) as -> by lia.
  assert (o13 = 0) as -> by lia.
  change (to_octets 2048 2) with ([8] ++ [0]).
  rewrite <- S12, <- S13.
  change (12 + 1) with 13; change (13 + 1) with 14.
  rewrite <- !app_assoc.
  rewrite !slice_glue_from by lia.
  apply slice_from_0.
Qed.

(** ** The header fields as they stand in a buffer *)

Lemma getitem_slice_from (l : list Z) (a i : Z) :
  0 <= a -> 0 <= i -> getitem (slice_from l a) i = getitem l (a + i).
Proof.
  intros Ha Hi; unfold getitem, slice_from; cbv zeta.
  assert ((i <? 0) = false) as -> by lia.
  assert ((a + i <? 0) = false) as -> by lia.
  assert ((i <? 0) = false) as -> by lia.
  assert ((a + i <? 0) = false) as -> by lia.
  rewrite nth_error_skipn, clamp_nonneg by lia.
  pose proof (len_nonneg l) as Hn; unfold len in *.
  destruct (Z.le_gt_cases a (Z.of_nat (length l))) as [Hle|Hgt].
  - replace (Z.to_nat (Z.min a (Z.of_nat (length l))) + Z.to_nat i)%nat
      with (Z.to_nat (a + i)) by lia.
    reflexivity.
  - assert (nth_error l (Z.to_nat (Z.min a (Z.of_nat (length l)))
                         + Z.to_nat i) = None) as ->
      by (apply nth_error_None; lia).
    assert (nth_error l (Z.to_nat (a + i)) = None) as ->
      by (apply nth_error_None; lia).
    reflexivity.
Qed.

Lemma slice_from_slice_from (l : list Z) (a b : Z) :
  0 <= a <= len l -> 0 <= b ->
  slice_from (slice_from l a) b = slice_from l (a + b).
Proof.
  intros Ha Hb.
  pose proof (len_slice_from l a Ha) as Hl.
  unfold slice_from in *.
  rewrite Hl, skipn_skipn; f_equal.
  rewrite !clamp_nonneg by lia; lia.
Qed.

Lemma IPv4Packet_init_ok (octets : bytes) (o0 : Z) :
  getitem octets 0 = Ok o0 ->
  to_bits o0 0 4 8 = 4 ->
  getitem octets 9 = Ok 6 ->
  14 <= len (slice_from octets (20 + 4 * (to_bits o0 4 4 8 - 5))) ->
  exists p, IPv4Packet.init octets = Ok p.
Proof.
  intros E0 Hv E9 Htcp.
  pose proof (getitem_inv octets 9 6 ltac:(lia) E9) as [L9 _].
  destruct (getitem_ok octets 1) as (o1 & E1 & _); [lia|].
  destruct (getitem_ok octets 8) as (ttl & E8 & _); [lia|].
  destruct (TCPPacket_init_ok _ Htcp) as (tcp & Etcp).
  unfold IPv4Packet.init; cbv zeta.
  rewrite E0; cbn [bind Ok]; rewrite Hv.
  change (negb (4 =? 4)) with false; cbv iota.
  rewrite E1; cbn [bind Ok]; rewrite E8; cbn [bind Ok].
  rewrite E9; cbn [bind Ok].
  change (negb (6 =? 6)) with false; cbv iota.
  rewrite Etcp; cbn [bind Ok]; eauto.
Qed.

(** C1 (as amended).  A byte buffer that passes the three protocol checks,
    whose IPv4 header length and TCP data offset are both at least 5 words,
    and which is long enough for the two headers it declares, decodes, and
    the decoded frame serializes to the buffer itself; the frame, the packet
    and the segment keep the bytes they were decoded from. *)
Theorem round_trip (octets : bytes) :
  is_bytes octets = true ->
  passes_checks octets = true ->
  5 <= wire_ihl octets ->
  5 <= wire_data_offset octets ->
  14 + 4 * wire_ihl octets + 4 * wire_data_offset octets <= len octets ->
  exists frame,
    EthernetFrame.init octets = Ok frame /\
    EthernetFrame.raw frame = octets /\
    EthernetFrame._raw frame = octets /\
    IPv4Packet._raw (EthernetFrame.payload frame) = slice_from octets 14 /\
    TCPPacket._raw (IPv4Packet.payload (EthernetFrame.payload frame))
      = slice_from octets (14 + 4 * wire_ihl octets).
Proof.
  intros Hb Hc Hihl Hdo Hlen.
  unfold passes_checks in Hc.
  destruct (getitem octets 12) as [|e12] eqn:E12; [discriminate|].
  destruct (getitem octets 13) as [|e13] eqn:E13; [discriminate|].
  destruct (getitem octets 14) as [|v] eqn:E14; [discriminate|].
  destruct (getitem octets 23) as [|proto] eqn:E23; [discriminate|].
  apply andb_true_iff in Hc as [Hc Hproto].
  apply andb_true_iff in Hc as [Het Hv].
  apply Z.eqb_eq in Het, Hv, Hproto; subst proto.
  unfold wire_data_offset in *; unfold wire_ihl in *; rewrite E14 in *.
  destruct (getitem octets (14 + 4 * to_bits v 4 4 8 + 12)) as [|d] eqn:Ed;
    [lia|].
  set (ihl := to_bits v 4 4 8) in *.
  pose proof (len_nonneg octets) as Hn.
  assert (len (slice_from octets 14) = len octets - 14) as Lip
    by (apply len_slice_from; lia).
  assert (len (slice_from (slice_from octets 14) (20 + 4 * (ihl - 5)))
          = len octets - 14 - 4 * ihl) as Ltcp
    by (rewrite len_slice_from; lia).
  assert (getitem (slice_from octets 14) 0 = Ok v) as E0
    by (rewrite getitem_slice_from by lia; exact E14).
  assert (getitem (slice_from octets 14) 9 = Ok 6) as E9
    by (rewrite getitem_slice_from by lia; exact E23).
  assert (getitem (slice_from (slice_from octets 14) (20 + 4 * (ihl - 5))) 12
          = Ok d) as E12'.
  { rewrite !getitem_slice_from by lia.
    replace (14 + (20 + 4 * (ihl - 5) + 12)) with (14 + 4 * ihl + 12) by lia.
    exact Ed. }
  destruct (IPv4Packet_init_ok _ _ E0 Hv E9) as (ip & Eip);
    [fold ihl; lia|].
  assert (EthernetFrame.init octets
          = Ok {| EthernetFrame._raw := octets;
                  EthernetFrame.dest_address :=
                    MACAddress.init (slice octets 0 6);
                  EthernetFrame.source_address :=
                    MACAddress.init (slice octets 6 12);
                  EthernetFrame.ethertype := Z.shiftl e12 8 + e13;
                  EthernetFrame.payload := ip |}) as Einit.
  { unfold EthernetFrame.init; cbv zeta.
    rewrite E12; cbn [bind Ok]; rewrite E13; cbn [bind Ok].
    rewrite Het; change (negb (2048 =? 2048)) with false; cbv iota.
    rewrite Eip; reflexivity. }
  eexists; split; [exact Einit|].
  pose proof (IPv4Packet_raw_of_init _ _ Eip) as Rip.
  pose proof Eip as Eip'.
  apply IPv4Packet_init_inv in Eip'
    as (o0 & o1 & ttl & protocol & tcp &
        E0' & _ & _ & _ & _ & _ & Etcp & Hipeq).
  rewrite E0 in E0'; injection E0' as <-; fold ihl in Etcp, Hipeq.
  pose proof (TCPPacket_raw_of_init _ _ Etcp) as Rtcp.
  pose proof Etcp as Etcp'.
  apply TCPPacket_init_inv in Etcp' as (o12 & o13 & Eo12 & _ & Htcpeq).
  rewrite E12' in Eo12; injection Eo12 as <-.
  assert (IPv4Packet.ihl ip = ihl) as Hi by (rewrite Hipeq; reflexivity).
  assert (IPv4Packet.payload ip = tcp) as Hpay
    by (rewrite Hipeq; reflexivity).
  assert (TCPPacket.data_offset tcp = to_bits d 0 4 8) as Hd
    by (rewrite Htcpeq; reflexivity).
  split; [|eth_fields; repeat split].
  - eapply EthernetFrame_round_trip_decoded; [exact Hb|exact Einit| | | |];
      eth_fields; rewrite ?Hpay, ?Hi, ?Hd, ?Rip, ?Rtcp, ?Lip, ?Ltcp; lia.
  - exact Rip.
  - rewrite Hpay, Rtcp, slice_from_slice_from by lia.
    f_equal; lia.
Qed.

(** ** Checksum engine *)

Lemma pair_induction (P : list Z -> Prop) :
  P [] -> (forall a, P [a]) ->
  (forall a b r, P r -> P (a :: b :: r)) ->
  forall l, P l.
Proof.
  intros Hnil Hone Hpair l.
  enough (P l /\ forall a, P (a :: l)) by tauto.
  induction l as [|b l [IH1 IH2]]; auto.
Qed.

Lemma fold_add_acc (l : list Z) (acc : Z) :
  fold_left Z.add l acc = acc + fold_left Z.add l 0.
Proof.
  revert acc; induction l as [|y l IH]; intros acc; cbn [fold_left]; [lia|].
  rewrite (IH (acc + y)), (IH (0 + y)); lia.
Qed.

Lemma sum_cons (x : Z) (l : list Z) : sum (x :: l) = x + sum l.
Proof. unfold sum; cbn [fold_left]; rewrite fold_add_acc; lia. Qed.

Lemma to_integer_le_pair (a b : Z) : to_integer_le [a; b] 8 = a + 256 * b.
Proof.
  unfold to_integer_le; cbn [fold_left snd].
  change (0 * 8) with 0; change ((0 + 1) * 8) with 8.
  rewrite Z.shiftl_0_r, Z.shiftl_mul_pow2 by lia.
  change (2 ^ 8) with 256; lia.
Qed.

Lemma to_integer_le_single (a : Z) : to_integer_le [a] 8 = a.
Proof.
  unfold to_integer_le; cbn [fold_left snd].
  change (0 * 8) with 0; rewrite Z.shiftl_0_r; lia.
Qed.

Lemma slice_cons (x : Z) (l : list Z) (a b : Z) :
  0 <= a -> 0 <= b -> slice (x :: l) (a + 1) (b + 1) = slice l a b.
Proof.
  intros Ha Hb; unfold slice.
  pose proof (len_nonneg l) as Hn.
  rewrite len_cons, !clamp_nonneg by lia.
  replace (Z.to_nat (Z.min (a + 1) (len l + 1)))
    with (S (Z.to_nat (Z.min a (len l)))) by lia.
  cbn [skipn]; f_equal; lia.
Qed.

Lemma range_step_2_succ (n : Z) :
  0 <= n ->
  range_step 0 (n + 2) 2 = 0 :: map (fun i => i + 2) (range_step 0 n 2).
Proof.
  intros Hn; unfold range_step.
  replace ((n + 2 - 0 + 2 - 1) / 2) with ((n - 0 + 2 - 1) / 2 + 1)
    by (Z.div_mod_to_equations; lia).
  replace (Z.to_nat ((n - 0 + 2 - 1) / 2 + 1))
    with (S (Z.to_nat ((n - 0 + 2 - 1) / 2)))
    by (Z.div_mod_to_equations; lia).
  cbn [seq map]; f_equal.
  rewrite <- seq_shift, !map_map.
  apply map_ext; intros k; lia.
Qed.

(** The index loop of [checksum] sums the little-endian words. *)
Lemma word_loop_sum (l : list Z) :
  sum (map (fun i => to_integer_le (slice l i (i + 2)) 8)
           (range_step 0 (len l) 2))
  = le_words_sum l.
Proof.
  induction l as [| a | a b r IH] using pair_induction.
  - reflexivity.
  - cbn; apply to_integer_le_single.
  - rewrite !len_cons.
    replace (len r + 1 + 1) with (len r + 2) by lia.
    rewrite range_step_2_succ by apply len_nonneg.
    cbn [map]; rewrite sum_cons, map_map.
    cbn [le_words_sum]; rewrite <- IH.
    f_equal.
    + change (slice (a :: b :: r) 0 (0 + 2)) with
        (firstn (Z.to_nat (clamp (len (a :: b :: r)) 2
                           - clamp (len (a :: b :: r)) 0))
                (skipn (Z.to_nat (clamp (len (a :: b :: r)) 0))
                       (a :: b :: r))).
      pose proof (len_nonneg r) as Hn.
      rewrite !len_cons, !clamp_in by lia.
      cbn; apply to_integer_le_pair.
    + f_equal; apply map_ext_in; intros i Hi.
      assert (0 <= i) as Hi0.
      { unfold range_step in Hi; apply in_map_iff in Hi as (k & <- & _).
        lia. }
      rewrite <- (slice_cons b r i (i + 2)) by lia.
      rewrite <- (slice_cons a (b :: r) (i + 1) (i + 2 + 1)) by lia.
      do 2 f_equal; lia.
Qed.

Lemma le_words_sum_pad (l : list Z) :
  len l mod 2 = 1 -> le_words_sum (l ++ [0]) = le_words_sum l.
Proof.
  induction l as [| a | a b r IH] using pair_induction; intros Hodd.
  - discriminate.
  - cbn; lia.
  - cbn [app le_words_sum]; rewrite IH; [reflexivity|].
    rewrite !len_cons in Hodd.
    Z.div_mod_to_equations; lia.
Qed.

Lemma checksum_finish (octets : bytes) :
  checksum octets = finish (le_words_sum octets).
Proof.
  unfold checksum, finish; cbv zeta.
  rewrite word_loop_sum.
  destruct (Z.eqb_spec (len octets mod 2) 1) as [Hodd|Heven];
    [rewrite le_words_sum_pad by exact Hodd|]; reflexivity.
Qed.

Lemma swap_bytes_arith (x : Z) :
  Z.land (Z.lor (Z.land (Z.shiftr x 8) 255) (Z.shiftl x 8)) 65535
  = (x / 256) mod 256 + 256 * (x mod 256).
Proof.
  rewrite Z.land_lor_distr_l, <- Z.land_assoc.
  change (Z.land 255 65535) with (Z.ones 8).
  change 65535 with (Z.ones 16).
  assert (Z.land (Z.land (Z.shiftr x 8) (Z.ones 8))
                 (Z.land (Z.shiftl x 8) (Z.ones 16)) = 0) as Hdisj.
  { apply Z.bits_inj'; intros n Hn.
    rewrite !Z.land_spec, Z.bits_0.
    destruct (Z.ltb_spec n 8).
    - rewrite (Z.shiftl_spec_low x 8 n) by lia.
      now rewrite andb_false_l, andb_false_r.
    - rewrite (Z.ones_spec_high 8 n) by lia.
      now rewrite andb_false_r. }
  rewrite <- Z.lxor_lor, <- Z.add_nocarry_lxor by exact Hdisj.
  rewrite !Z.land_ones, Z.shiftr_div_pow2, Z.shiftl_mul_pow2 by lia.
  change (2 ^ 8) with 256; change (2 ^ 16) with 65536.
  Z.div_mod_to_equations; lia.
Qed.

(** [finish] in plain arithmetic: two folds, the 16-bit complement, the
    byte swap. *)
Lemma finish_arith (s : Z) :
  let s1 := s / 65536 + s mod 65536 in
  let r := (s1 + s1 / 65536) mod 65536 in
  let c := 65535 - r in
  finish s = c / 256 + 256 * (c mod 256).
Proof.
  cbv zeta; unfold finish; cbv zeta.
  rewrite swap_bytes_arith.
  replace (Z.land s 65535) with (s mod 65536)
    by (change 65535 with (Z.ones 16); now rewrite Z.land_ones).
  rewrite !Z.shiftr_div_pow2 by lia.
  change (2 ^ 16) with 65536.
  set (s1 := s / 65536 + s mod 65536).
  unfold Z.lnot; rewrite <- !Z.sub_1_r.
  generalize (s1 + s1 / 65536); intros t.
  Z.div_mod_to_equations; lia.
Qed.

Lemma finish_range (s : Z) : 0 <= finish s < 65536.
Proof.
  pose proof (finish_arith s) as H; cbv zeta in H; rewrite H.
  Z.div_mod_to_equations; lia.
Qed.

Lemma sum_le_words_pad (octets : bytes) :
  sum (le_words (pad_even octets)) = le_words_sum octets.
Proof.
  unfold pad_even.
  induction octets as [| a | a b r IH] using pair_induction.
  - reflexivity.
  - cbn; lia.
  - cbn [length Nat.odd].
    replace (Nat.odd (S (S (length r)))) with (Nat.odd (length r))
      by (now rewrite Nat.odd_succ_succ).
    destruct (Nat.odd (length r));
      cbn [app le_words le_words_sum]; rewrite sum_cons, IH; reflexivity.
Qed.

(** C4.  [checksum] computes what the specification's algorithm computes,
    on every buffer, and its result fits in 16 bits. *)
Theorem checksum_matches_spec (octets : bytes) :
  checksum octets = checksum_spec octets /\ 0 <= checksum octets < 65536.
Proof.
  rewrite checksum_finish; split; [|apply finish_range].
  pose proof (finish_arith (le_words_sum octets)) as H; cbv zeta in H.
  rewrite H; unfold checksum_spec; rewrite sum_le_words_pad.
  unfold swap16, complement16, fold16.
  generalize (le_words_sum octets); intros s.
  Z.div_mod_to_equations; lia.
Qed.

Lemma le_words_sum_app_even (pre post : list Z) :
  len pre mod 2 = 0 ->
  le_words_sum (pre ++ post) = le_words_sum pre + le_words_sum post.
Proof.
  induction pre as [| a | a b r IH] using pair_induction; intros Heven.
  - cbn; lia.
  - discriminate.
  - cbn [app le_words_sum]; rewrite IH; [lia|].
    rewrite !len_cons in Heven.
    Z.div_mod_to_equations; lia.
Qed.

Lemma le_words_sum_bound (l : list Z) :
  is_bytes l = true ->
  0 <= le_words_sum l /\ 2 * le_words_sum l <= 65535 * len l.
Proof.
  induction l as [| a | a b r IH] using pair_induction; intros Hb.
  - cbn; lia.
  - cbn in Hb; rewrite andb_true_r in Hb; apply is_byte_range in Hb.
    cbn [le_words_sum]; change (len [a]) with 1; lia.
  - cbn in Hb.
    apply andb_true_iff in Hb as [Ha Hb].
    apply andb_true_iff in Hb as [Hb' Hr].
    apply is_byte_range in Ha, Hb'.
    specialize (IH Hr).
    cbn [le_words_sum]; rewrite !len_cons; lia.
Qed.

(** The two bytes [to_octets] writes for a checksum read back, as a
    little-endian word, as the complement of the one's-complement sum. *)
Lemma inserted_word (s : Z) :
  le_words_sum (to_octets (finish s) 2) = 65535 - ones_sum s.
Proof.
  rewrite to_octets_2; cbn [le_words_sum].
  change 255 with (Z.ones 8); rewrite !Z.land_ones, Z.shiftr_div_pow2 by lia.
  change (2 ^ 8) with 256.
  pose proof (finish_arith s) as H; cbv zeta in H; rewrite H.
  unfold ones_sum; cbv zeta.
  generalize (s / 65536 + s mod 65536); intros t.
  Z.div_mod_to_equations; lia.
Qed.

(** Up to 65538 words 0xffff the two folds give the sum modulo 0xffff. *)
Lemma ones_sum_cases (s : Z) :
  0 <= s <= 65535 * 65538 ->
  exists k,
    0 <= k /\ s = 65535 * k + ones_sum s /\ 0 <= ones_sum s < 65536 /\
    (ones_sum s = 0 -> s = 0).
Proof.
  intros Hs; unfold ones_sum; cbv zeta.
  pose proof (Z.div_mod s 65536 ltac:(lia)) as Hd.
  pose proof (Z.mod_pos_bound s 65536 ltac:(lia)) as Hm.
  set (hi := s / 65536) in *; set (lo := s mod 65536) in *.
  assert (0 <= hi <= 65536) as Hhi by lia.
  assert (hi + lo < 65536 \/ 65536 <= hi + lo < 131071) as [C|C] by lia.
  - rewrite (Z.div_small (hi + lo)), Z.add_0_r, Z.mod_small by lia.
    exists hi; lia.
  - replace ((hi + lo) / 65536) with 1
      by (apply Z.div_unique with (hi + lo - 65536); lia).
    replace ((hi + lo + 1) mod 65536) with (hi + lo + 1 - 65536)
      by (apply Z.mod_unique with 1; lia).
    exists (hi + 1); lia.
Qed.

(** A sum of at most 65538 words 0xffff, with the complement of its
    one's-complement sum added, finishes to 0. *)
Lemma finish_self_consistent (s : Z) :
  0 <= s <= 65535 * 65538 ->
  finish (s + (65535 - ones_sum s)) = 0.
Proof.
  intros Hs.
  destruct (ones_sum_cases s Hs) as (k & Hk & Hsk & Hr & Hz).
  set (r := ones_sum s) in *.
  replace (s + (65535 - r)) with (65535 * (k + 1)) by lia.
  pose proof (finish_arith (65535 * (k + 1))) as Hf.
  cbv zeta in Hf; rewrite Hf; clear Hf.
  assert (k = 65537 \/ k = 65536 \/ k < 65536) as [->|[->|Hlt]] by lia;
    [reflexivity|reflexivity|].
  replace (65535 * (k + 1) / 65536) with k
    by (apply Z.div_unique with (65536 - (k + 1)); lia).
  replace ((65535 * (k + 1)) mod 65536) with (65536 - (k + 1))
    by (apply Z.mod_unique with k; lia).
  replace (k + (65536 - (k + 1))) with 65535 by lia.
  reflexivity.
Qed.

(** Self-consistency on a buffer cut at its checksum field. *)
Lemma checksum_self_consistent_parts (pre post : bytes) :
  is_bytes pre = true -> is_bytes post = true ->
  len pre mod 2 = 0 ->
  len pre + 2 + len post <= 131078 ->
  checksum (pre ++ to_octets (checksum (pre ++ [0; 0] ++ post)) 2 ++ post)
  = 0.
Proof.
  intros Hpre Hpost Heven Hlen.
  rewrite !checksum_finish.
  rewrite (le_words_sum_app_even pre ([0; 0] ++ post)) by exact Heven.
  cbn [app le_words_sum].
  replace (le_words_sum pre + (0 + 256 * 0 + le_words_sum post))
    with (le_words_sum pre + le_words_sum post) by lia.
  set (s := le_words_sum pre + le_words_sum post).
  rewrite (le_words_sum_app_even pre) by exact Heven.
  rewrite (le_words_sum_app_even (to_octets (finish s) 2) post)
    by (rewrite len_to_octets; reflexivity).
  rewrite inserted_word.
  replace (le_words_sum pre + (65535 - ones_sum s + le_words_sum post))
    with (s + (65535 - ones_sum s)) by (unfold s; lia).
  pose proof (le_words_sum_bound pre Hpre) as [Hp0 Hp1].
  pose proof (le_words_sum_bound post Hpost) as [Hq0 Hq1].
  apply finish_self_consistent; unfold s; lia.
Qed.

(** C5 (as amended).  In a byte buffer of at most 131078 bytes whose two-byte
    checksum field, at an even offset, is zero, writing [checksum] of the
    buffer into the field big-endian makes [checksum] of the result 0. *)
Theorem checksum_self_consistent (octets : bytes) (offset : Z) :
  is_bytes octets = true ->
  0 <= offset -> offset mod 2 = 0 -> offset + 2 <= len octets ->
  slice octets offset (offset + 2) = [0; 0] ->
  len octets <= 131078 ->
  checksum (insert_checksum octets offset (checksum octets)) = 0.
Proof.
  intros Hb Hoff Heven Hin Hzero Hlen.
  unfold insert_checksum.
  assert (octets = slice octets 0 offset ++ [0; 0]
                   ++ slice_from octets (offset + 2)) as Hsplit.
  { rewrite <- Hzero, slice_glue_from, slice_glue_from by lia.
    symmetry; apply slice_from_0. }
  rewrite Hsplit at 2.
  apply checksum_self_consistent_parts.
  - now apply is_bytes_slice.
  - now apply is_bytes_slice_from.
  - rewrite len_slice by lia; rewrite Z.sub_0_r; exact Heven.
  - rewrite len_slice, len_slice_from by lia; lia.
Qed.

(** ** Headers around their checksum fields *)

Lemma ip_raw_header_split (p : IPv4Packet.t) :
  IPv4Packet.raw_header p
  = ip_header_pre p ++ to_octets (IPv4Packet.checksum p) 2
    ++ ip_header_post p.
Proof.
  unfold IPv4Packet.raw_header, ip_header_pre, ip_header_post.
  now rewrite <- !app_assoc.
Qed.

Lemma tcp_raw_header_split (t : TCPPacket.t) :
  TCPPacket.raw_header t
  = tcp_header_pre t ++ to_octets (TCPPacket.checksum t) 2
    ++ tcp_header_post t.
Proof.
  unfold TCPPacket.raw_header, tcp_header_pre, tcp_header_post.
  now rewrite <- !app_assoc.
Qed.

Lemma len_ip_header_pre (p : IPv4Packet.t) : len (ip_header_pre p) = 10.
Proof. reflexivity. Qed.

Lemma len_tcp_header_pre (t : TCPPacket.t) : len (tcp_header_pre t) = 16.
Proof. reflexivity. Qed.

Lemma is_bytes_ip_header_pre (p : IPv4Packet.t) :
  is_bytes (ip_header_pre p) = true.
Proof.
  unfold ip_header_pre.
  now rewrite !is_bytes_app, !is_bytes_to_octets.
Qed.

Lemma is_bytes_tcp_header_pre (t : TCPPacket.t) :
  is_bytes (tcp_header_pre t) = true.
Proof.
  unfold tcp_header_pre.
  now rewrite !is_bytes_app, !is_bytes_to_octets.
Qed.

Lemma is_bytes_tcp_header_post (t : TCPPacket.t) :
  is_bytes (tcp_header_post t) = true.
Proof.
  unfold tcp_header_post.
  now rewrite !is_bytes_app, !is_bytes_to_octets.
Qed.

Lemma len_tcp_raw_header (t : TCPPacket.t) :
  len (TCPPacket.raw_header t)
  = 20 + Z.max 0 ((TCPPacket.data_offset t - 5) * 4).
Proof.
  unfold TCPPacket.raw_header.
  rewrite !len_app, !len_to_octets; lia.
Qed.

Lemma len_ip_raw_header (p : IPv4Packet.t) :
  len (IPv4Packet.raw_header p)
  = 12 + len (IPv4Address.address (IPv4Packet.source_address p))
    + len (IPv4Address.address (IPv4Packet.dest_address p))
    + Z.max 0 ((IPv4Packet.ihl p - 5) * 4).
Proof.
  unfold IPv4Packet.raw_header.
  rewrite !len_app, !len_to_octets; lia.
Qed.

Lemma len_slice_le (l : list Z) (a b : Z) :
  0 <= a <= b -> len (slice l a b) <= b - a.
Proof.
  intros Hab; unfold slice, len.
  rewrite length_firstn, !clamp_nonneg by lia.
  pose proof (len_nonneg l); unfold len in *; lia.
Qed.

(** ** Checksum recomputation *)

Lemma IPv4Packet_checksum_consistent (p : IPv4Packet.t) :
  is_bytes (ip_header_post p) = true ->
  len (ip_header_post p) <= 1000 ->
  checksum (IPv4Packet.raw_header (IPv4Packet.replace_checksum p)) = 0.
Proof.
  intros Hb Hlen.
  unfold IPv4Packet.replace_checksum; cbv zeta.
  rewrite !ip_raw_header_split.
  change (checksum
            (ip_header_pre p ++
             to_octets (checksum (ip_header_pre p ++ [0; 0]
                                  ++ ip_header_post p)) 2 ++
             ip_header_post p) = 0).
  apply checksum_self_consistent_parts; auto.
  - apply is_bytes_ip_header_pre.
  - rewrite len_ip_header_pre; lia.
Qed.

Lemma payload_set_payload (t : TCPPacket.t) (p : IPv4Packet.t) :
  IPv4Packet.payload (IPv4Packet.set_payload t p) = t.
Proof. reflexivity. Qed.

Lemma set_payload_set_payload (t t' : TCPPacket.t) (p : IPv4Packet.t) :
  IPv4Packet.set_payload t' (IPv4Packet.set_payload t p)
  = IPv4Packet.set_payload t' p.
Proof. reflexivity. Qed.

Lemma len_tcp_raw_set_checksum (c : Z) (t : TCPPacket.t) :
  len (TCPPacket.raw (TCPPacket.set_checksum c t)) = len (TCPPacket.raw t).
Proof.
  unfold TCPPacket.raw; rewrite !len_app, !len_tcp_raw_header; reflexivity.
Qed.

Lemma tcp_checksum_bytes_set_checksum
  (c : Z) (t : TCPPacket.t) (p : IPv4Packet.t) :
  IPv4Packet.tcp_checksum_bytes
    (IPv4Packet.set_payload (TCPPacket.set_checksum c t) p)
  = IPv4Packet.tcp_checksum_bytes (IPv4Packet.set_payload t p).
Proof.
  unfold IPv4Packet.tcp_checksum_bytes.
  cbn [IPv4Packet.set_payload IPv4Packet.payload IPv4Packet.protocol
       IPv4Packet.source_address IPv4Packet.dest_address].
  now rewrite len_tcp_raw_set_checksum.
Qed.

Lemma is_bytes_tcp_checksum_bytes (p : IPv4Packet.t) :
  is_bytes (IPv4Address.address (IPv4Packet.source_address p)) = true ->
  is_bytes (IPv4Address.address (IPv4Packet.dest_address p)) = true ->
  is_bytes (IPv4Packet.tcp_checksum_bytes p) = true.
Proof.
  intros Hs Hd; unfold IPv4Packet.tcp_checksum_bytes.
  now rewrite !is_bytes_app, !is_bytes_to_octets, Hs, Hd.
Qed.

Lemma len_tcp_checksum_bytes (p : IPv4Packet.t) :
  len (IPv4Packet.tcp_checksum_bytes p)
  = len (IPv4Address.address (IPv4Packet.source_address p))
    + len (IPv4Address.address (IPv4Packet.dest_address p)) + 4.
Proof.
  unfold IPv4Packet.tcp_checksum_bytes.
  rewrite !len_app, !len_to_octets; lia.
Qed.

Lemma TCPPacket_checksum_consistent (p : IPv4Packet.t) :
  let src := IPv4Address.address (IPv4Packet.source_address p) in
  let dst := IPv4Address.address (IPv4Packet.dest_address p) in
  is_bytes src = true -> is_bytes dst = true ->
  (len src + len dst) mod 2 = 0 ->
  len src + len dst <= 1000 ->
  TCPPacket.data_offset (IPv4Packet.payload p) <= 1000 ->
  let p' := TCPPacket_replace_checksum p in
  checksum (IPv4Packet.tcp_checksum_bytes p' ++
            TCPPacket.raw_header (IPv4Packet.payload p')) = 0.
Proof.
  intros src dst Hs Hd Heven Hlen Hdo p'; subst p' src dst.
  unfold TCPPacket_replace_checksum; cbv zeta.
  rewrite !payload_set_payload, !set_payload_set_payload.
  rewrite !tcp_checksum_bytes_set_checksum.
  set (t := IPv4Packet.payload p).
  set (P := IPv4Packet.tcp_checksum_bytes (IPv4Packet.set_payload t p)).
  rewrite !tcp_raw_header_split.
  change (checksum
            (P ++ tcp_header_pre t ++
             to_octets (checksum (P ++ tcp_header_pre t ++ [0; 0]
                                  ++ tcp_header_post t)) 2 ++
             tcp_header_post t) = 0).
  rewrite !(app_assoc P).
  assert (len P = len (IPv4Address.address (IPv4Packet.source_address p))
                  + len (IPv4Address.address (IPv4Packet.dest_address p))
                  + 4) as HP
    by (unfold P; now rewrite len_tcp_checksum_bytes).
  apply checksum_self_consistent_parts.
  - rewrite is_bytes_app, is_bytes_tcp_header_pre, andb_true_r.
    unfold P; now apply is_bytes_tcp_checksum_bytes.
  - apply is_bytes_tcp_header_post.
  - rewrite len_app, len_tcp_header_pre, HP.
    Z.div_mod_to_equations; lia.
  - rewrite len_app, len_tcp_header_pre, HP.
    unfold tcp_header_post; rewrite len_app, !len_to_octets.
    fold t in Hdo; lia.
Qed.

Lemma IPv4Packet_decoded_bounds (octets : bytes) (p : IPv4Packet.t) :
  is_bytes octets = true ->
  IPv4Packet.init octets = Ok p ->
  let src := IPv4Address.address (IPv4Packet.source_address p) in
  let dst := IPv4Address.address (IPv4Packet.dest_address p) in
  is_bytes src = true /\ is_bytes dst = true /\
  len src <= 4 /\ len dst <= 4 /\
  (20 <= len octets -> len src = 4 /\ len dst = 4) /\
  0 <= IPv4Packet.ihl p < 16 /\
  0 <= TCPPacket.data_offset (IPv4Packet.payload p) < 16.
Proof.
  intros Hb Hinit.
  apply IPv4Packet_init_inv in Hinit
    as (o0 & o1 & ttl & protocol & tcp &
        _ & _ & _ & _ & _ & _ & Etcp & ->).
  apply TCPPacket_init_inv in Etcp as (o12 & o13 & _ & _ & ->).
  ip_fields; tcp_fields; cbv zeta; rewrite !map_id.
  repeat split;
    try (now apply is_bytes_slice);
    try apply nibble_range;
    try (pose proof (len_slice_le octets 12 16);
         pose proof (len_slice_le octets 16 20); lia);
    try (rewrite len_slice; lia).
Qed.

(** C7.  [IPv4Packet.replace_checksum] sets the header checksum to
    [checksum] of the header bytes serialized with a zero checksum field.
    Those bytes end with the options and do not depend on the TCP payload;
    every other field of the packet is left as it was. *)
Theorem IPv4Packet_replace_checksum_spec (p : IPv4Packet.t) :
  let zeroed := IPv4Packet.set_checksum 0 p in
  let p' := IPv4Packet.replace_checksum p in
  p' = IPv4Packet.set_checksum
         (checksum (IPv4Packet.raw_header zeroed)) zeroed /\
  IPv4Packet.checksum p' = checksum (IPv4Packet.raw_header zeroed) /\
  IPv4Packet.raw_header zeroed
    = ip_header_pre p ++ [0; 0] ++
      IPv4Address.address (IPv4Packet.source_address p) ++
      IPv4Address.address (IPv4Packet.dest_address p) ++
      to_octets (IPv4Packet.options p) ((IPv4Packet.ihl p - 5) * 4) /\
  (forall q : TCPPacket.t,
      IPv4Packet.checksum
        (IPv4Packet.replace_checksum (IPv4Packet.set_payload q p))
      = IPv4Packet.checksum p') /\
  IPv4Packet._raw p' = IPv4Packet._raw p /\
  IPv4Packet.version p' = IPv4Packet.version p /\
  IPv4Packet.ihl p' = IPv4Packet.ihl p /\
  IPv4Packet.dscp p' = IPv4Packet.dscp p /\
  IPv4Packet.ecn p' = IPv4Packet.ecn p /\
  IPv4Packet.length p' = IPv4Packet.length p /\
  IPv4Packet.identification p' = IPv4Packet.identification p /\
  IPv4Packet.flags p' = IPv4Packet.flags p /\
  IPv4Packet.fragment_offset p' = IPv4Packet.fragment_offset p /\
  IPv4Packet.ttl p' = IPv4Packet.ttl p /\
  IPv4Packet.protocol p' = IPv4Packet.protocol p /\
  IPv4Packet.source_address p' = IPv4Packet.source_address p /\
  IPv4Packet.dest_address p' = IPv4Packet.dest_address p /\
  IPv4Packet.options p' = IPv4Packet.options p /\
  IPv4Packet.payload p' = IPv4Packet.payload p.
Proof.
  cbv zeta; repeat split.
Qed.

(** What [TCPPacket.replace_checksum] computes, on the record fields. *)
Lemma TCPPacket_replace_checksum_formula (p : IPv4Packet.t) :
  let t := IPv4Packet.payload p in
  let zeroed := TCPPacket.set_checksum 0 t in
  let src := IPv4Address.address (IPv4Packet.source_address p) in
  let dst := IPv4Address.address (IPv4Packet.dest_address p) in
  let pseudo :=
    src ++ dst ++ [0] ++
    to_octets (IPv4Packet.protocol p) 1 ++
    to_octets (len (TCPPacket.raw_header t) + len (TCPPacket.payload t)) 2 in
  TCPPacket_replace_checksum p
    = IPv4Packet.set_payload
        (TCPPacket.set_checksum
           (checksum (pseudo ++ TCPPacket.raw_header zeroed)) t) p /\
  len (pseudo ++ TCPPacket.raw_header zeroed)
    = len pseudo + len (TCPPacket.raw_header t) /\
  len pseudo = len src + len dst + 4 /\
  (len src = 4 -> len dst = 4 -> len pseudo = 12) /\
  (forall octets,
      IPv4Packet.init octets = Ok p -> 20 <= len octets ->
      len src = 4 /\ len dst = 4).
Proof.
  intros t zeroed src dst pseudo.
  assert (len pseudo = len src + len dst + 4) as Hp.
  { unfold pseudo; rewrite !len_app, !len_to_octets.
    change (len [0]) with 1; lia. }
  repeat match goal with |- _ /\ _ => split end.
  - unfold TCPPacket_replace_checksum; cbv zeta.
    rewrite !payload_set_payload, !set_payload_set_payload.
    rewrite tcp_checksum_bytes_set_checksum.
    unfold IPv4Packet.tcp_checksum_bytes.
    rewrite payload_set_payload.
    unfold TCPPacket.raw at 1; rewrite len_app.
    reflexivity.
  - rewrite len_app.
    unfold zeroed; rewrite !len_tcp_raw_header; reflexivity.
  - exact Hp.
  - intros Hs Hd; lia.
  - intros octets Hinit Hlen; subst src dst.
    apply IPv4Packet_init_inv in Hinit
      as (o0 & o1 & ttl & protocol & tcp &
          _ & _ & _ & _ & _ & _ & _ & ->).
    ip_fields; rewrite !map_id, !len_slice by lia; lia.
Qed.

(** C3 (as amended).  For every packet decoded from a byte buffer (its
    address tuples and payload hold octets, so no [bytes(...)] raises),
    [TCPPacket.replace_checksum] changes the TCP checksum field only, to
    [checksum] of the pseudo-header (source address, destination address, a
    zero byte, the protocol byte, the 16-bit length of the serialized
    segment) followed by the TCP header serialized with a zero checksum
    field; the payload enters through its length alone.  The pseudo-header
    has 12 bytes when the packet was decoded from at least 20 bytes. *)
Theorem TCPPacket_replace_checksum_spec (octets : bytes)
  (p : IPv4Packet.t) :
  is_bytes octets = true ->
  IPv4Packet.init octets = Ok p ->
  let t := IPv4Packet.payload p in
  let zeroed := TCPPacket.set_checksum 0 t in
  let src := IPv4Address.address (IPv4Packet.source_address p) in
  let dst := IPv4Address.address (IPv4Packet.dest_address p) in
  let pseudo :=
    src ++ dst ++ [0] ++
    to_octets (IPv4Packet.protocol p) 1 ++
    to_octets (len (TCPPacket.raw_header t) + len (TCPPacket.payload t)) 2 in
  IPv4Packet_octets p /\
  TCPPacket_replace_checksum p
    = IPv4Packet.set_payload
        (TCPPacket.set_checksum
           (checksum (pseudo ++ TCPPacket.raw_header zeroed)) t) p /\
  len (pseudo ++ TCPPacket.raw_header zeroed)
    = len pseudo + len (TCPPacket.raw_header t) /\
  len pseudo = len src + len dst + 4 /\
  (20 <= len octets -> len src = 4 /\ len dst = 4 /\ len pseudo = 12).
Proof.
  intros Hb Hinit t zeroed src dst pseudo.
  pose proof (TCPPacket_replace_checksum_formula p)
    as (Hf & Hl & Hp & H12 & Hdec).
  cbv zeta in Hf, Hl, Hp, H12, Hdec.
  pose proof (IPv4Packet_decoded_bounds octets p Hb Hinit)
    as (Hs & Hd & _).
  split.
  - split; [exact Hs|]; split; [exact Hd|].
    apply IPv4Packet_init_inv in Hinit
      as (o0 & o1 & ttl & protocol & tcp &
          _ & _ & _ & _ & _ & _ & Etcp & ->).
    apply TCPPacket_init_inv in Etcp as (o12 & o13 & _ & _ & ->).
    ip_fields; tcp_fields.
    now apply is_bytes_slice_from, is_bytes_slice_from.
  - split; [exact Hf|]; split; [exact Hl|]; split; [exact Hp|].
    intros Hlen; destruct (Hdec octets Hinit Hlen) as [H4s H4d].
    split; [exact H4s|]; split; [exact H4d|].
    now apply H12.
Qed.

(** ** Reset forging *)

(** C2 (as amended).  On every decoded frame, [forge_reset s] leaves RST as
    the only flag set, the sequence number [s], a zero ack number, window
    size and urgent pointer, and an empty payload; [checksum] over the IPv4
    header with its recomputed checksum in place is 0; and the IPv4
    checksum is recomputed before the TCP one.  When the frame was decoded
    from at least 34 bytes (so that both IPv4 addresses hold four octets),
    [checksum] over the pseudo-header followed by the TCP header with its
    recomputed checksum in place is 0 as well. *)
Theorem forge_reset_spec (octets : bytes) (frame : EthernetFrame.t) (s : Z) :
  is_bytes octets = true ->
  EthernetFrame.init octets = Ok frame ->
  let ip := EthernetFrame.payload frame in
  let ip' := TCPPacket_forge_reset s ip in
  let tcp' := IPv4Packet.payload ip' in
  TCPPacket.RST tcp' = true /\
  TCPPacket.NS tcp' = false /\ TCPPacket.CWR tcp' = false /\
  TCPPacket.ECE tcp' = false /\ TCPPacket.URG tcp' = false /\
  TCPPacket.ACK tcp' = false /\ TCPPacket.PSH tcp' = false /\
  TCPPacket.SYN tcp' = false /\ TCPPacket.FIN tcp' = false /\
  TCPPacket.sequence tcp' = s /\
  TCPPacket.ack_number tcp' = 0 /\
  TCPPacket.window_size tcp' = 0 /\
  TCPPacket.urgent_pointer tcp' = 0 /\
  TCPPacket.payload tcp' = [] /\
  checksum (IPv4Packet.raw_header ip') = 0 /\
  ip' = TCPPacket_replace_checksum
          (IPv4Packet.replace_checksum
             (IPv4Packet.set_payload
                (TCPPacket.forge_reset_fields s (IPv4Packet.payload ip))
                ip)) /\
  (34 <= len octets ->
   checksum (IPv4Packet.tcp_checksum_bytes ip' ++ TCPPacket.raw_header tcp')
   = 0).
Proof.
  intros Hb Hinit ip ip' tcp'.
  apply EthernetFrame_init_inv in Hinit
    as (o12 & o13 & ip0 & _ & _ & _ & Eip & ->).
  cbn [EthernetFrame.payload] in ip; subst ip.
  pose proof (len_nonneg octets) as Hn.
  pose proof (IPv4Packet_decoded_bounds _ _ (is_bytes_slice_from _ 14 Hb) Eip)
    as (Hs & Hd & Ls & Ld & Hfull & Hihl & Hdo).
  cbv zeta in Hs, Hd, Ls, Ld, Hfull.
  repeat match goal with |- _ /\ _ => split end;
    try reflexivity.
  - change (IPv4Packet.raw_header ip') with
      (IPv4Packet.raw_header
         (IPv4Packet.replace_checksum
            (IPv4Packet.set_payload
               (TCPPacket.forge_reset_fields s (IPv4Packet.payload ip0))
               ip0))).
    apply IPv4Packet_checksum_consistent.
    + unfold ip_header_post.
      cbn [IPv4Packet.set_payload IPv4Packet.source_address
           IPv4Packet.dest_address IPv4Packet.options IPv4Packet.ihl].
      now rewrite !is_bytes_app, Hs, Hd, is_bytes_to_octets.
    + unfold ip_header_post.
      cbn [IPv4Packet.set_payload IPv4Packet.source_address
           IPv4Packet.dest_address IPv4Packet.options IPv4Packet.ihl].
      rewrite !len_app, len_to_octets; lia.
  - intros Hlen.
    destruct Hfull as [Ls4 Ld4]; [rewrite len_slice_from; lia|].
    apply (TCPPacket_checksum_consistent
             (IPv4Packet.replace_checksum
                (IPv4Packet.set_payload
                   (TCPPacket.forge_reset_fields s (IPv4Packet.payload ip0))
                   ip0))).
    + exact Hs.
    + exact Hd.
    + change ((len (IPv4Address.address (IPv4Packet.source_address ip0))
               + len (IPv4Address.address (IPv4Packet.dest_address ip0)))
              mod 2 = 0).
      now rewrite Ls4, Ld4.
    + change (len (IPv4Address.address (IPv4Packet.source_address ip0))
              + len (IPv4Address.address (IPv4Packet.dest_address ip0))
              <= 1000).
      lia.
    + change (TCPPacket.data_offset (IPv4Packet.payload ip0) <= 1000).
      lia.
Qed.

(** C10 (as amended).  [forge_reset] changes no field of the enclosing IPv4
    packet except its header checksum.  The total-length field keeps its
    value, so when it was at least the length of the serialized packet
    before the call and the TCP payload was not empty, it exceeds the length
    of the serialized packet after the call. *)
Theorem forge_reset_ipv4_frame (ip : IPv4Packet.t) (s : Z) :
  let ip' := TCPPacket_forge_reset s ip in
  IPv4Packet.version ip' = IPv4Packet.version ip /\
  IPv4Packet.ihl ip' = IPv4Packet.ihl ip /\
  IPv4Packet.dscp ip' = IPv4Packet.dscp ip /\
  IPv4Packet.ecn ip' = IPv4Packet.ecn ip /\
  IPv4Packet.length ip' = IPv4Packet.length ip /\
  IPv4Packet.identification ip' = IPv4Packet.identification ip /\
  IPv4Packet.flags ip' = IPv4Packet.flags ip /\
  IPv4Packet.fragment_offset ip' = IPv4Packet.fragment_offset ip /\
  IPv4Packet.ttl ip' = IPv4Packet.ttl ip /\
  IPv4Packet.protocol ip' = IPv4Packet.protocol ip /\
  IPv4Packet.source_address ip' = IPv4Packet.source_address ip /\
  IPv4Packet.dest_address ip' = IPv4Packet.dest_address ip /\
  IPv4Packet.options ip' = IPv4Packet.options ip /\
  (TCPPacket.payload (IPv4Packet.payload ip) <> [] ->
   len (IPv4Packet.raw ip) <= IPv4Packet.length ip ->
   len (IPv4Packet.raw ip') < IPv4Packet.length ip').
Proof.
  cbv zeta.
  repeat match goal with |- _ /\ _ => split end; try reflexivity.
  intros Hpay Hlen.
  change (IPv4Packet.length (TCPPacket_forge_reset s ip))
    with (IPv4Packet.length ip).
  assert (0 < len (TCPPacket.payload (IPv4Packet.payload ip))) as Hpos.
  { destruct (TCPPacket.payload (IPv4Packet.payload ip)) as [|x rest];
      [congruence|].
    rewrite len_cons; pose proof (len_nonneg rest); lia. }
  unfold IPv4Packet.raw, TCPPacket.raw in *.
  rewrite !len_app, !len_ip_raw_header, !len_tcp_raw_header in *.
  change (len (TCPPacket.payload
                 (IPv4Packet.payload (TCPPacket_forge_reset s ip))))
    with 0.
  change (TCPPacket.data_offset
            (IPv4Packet.payload (TCPPacket_forge_reset s ip)))
    with (TCPPacket.data_offset (IPv4Packet.payload ip)).
  change (IPv4Packet.ihl (TCPPacket_forge_reset s ip))
    with (IPv4Packet.ihl ip).
  change (IPv4Packet.source_address (TCPPacket_forge_reset s ip))
    with (IPv4Packet.source_address ip).
  change (IPv4Packet.dest_address (TCPPacket_forge_reset s ip))
    with (IPv4Packet.dest_address ip).
  lia.
Qed.

(** ** Bit extraction *)

Lemma firstn_seq_le (n a m : nat) :
  (n <= m)%nat -> firstn n (seq a m) = seq a n.
Proof.
  revert a m; induction n as [|n IH]; intros a [|m] H; cbn; try lia; auto.
  f_equal; apply IH; lia.
Qed.

Lemma unsigned_of_bits_snoc (bits : list bool) (b : bool) :
  unsigned_of_bits (bits ++ [b])
  = 2 * unsigned_of_bits bits + int_of_bool b.
Proof. unfold unsigned_of_bits; now rewrite fold_left_app. Qed.

Lemma unsigned_of_field (value width : Z) (o n : nat) :
  Z.of_nat o + Z.of_nat n <= width ->
  unsigned_of_bits
    (map (fun k => Z.testbit value (width - 1 - Z.of_nat k)) (seq o n))
  = Z.shiftr value (width - Z.of_nat o - Z.of_nat n) mod 2 ^ Z.of_nat n.
Proof.
  induction n as [|n IH]; intros Hw.
  - cbn; now rewrite Z.mod_1_r.
  - rewrite seq_S, map_app; cbn [map].
    rewrite unsigned_of_bits_snoc, IH by lia.
    set (d := width - Z.of_nat o - Z.of_nat (S n)).
    replace (width - Z.of_nat o - Z.of_nat n) with (d + 1) by lia.
    replace (width - 1 - Z.of_nat (o + n)) with (0 + d) by lia.
    rewrite <- Z.shiftr_shiftr, <- Z.shiftr_spec by lia.
    set (x := Z.shiftr value d).
    change (int_of_bool (Z.testbit x 0)) with (Z.b2z (Z.testbit x 0)).
    rewrite Z.bit0_mod, Z.shiftr_div_pow2 by lia.
    change (2 ^ 1) with 2.
    replace (2 ^ Z.of_nat (S n)) with (2 * 2 ^ Z.of_nat n)
      by (rewrite Nat2Z.inj_succ, Z.pow_succ_r by lia; reflexivity).
    rewrite Z.rem_mul_r by lia.
    lia.
Qed.

Lemma to_bits_extract_bits_spec (value offset length width : Z) :
  0 <= offset -> 0 <= length -> offset + length <= width ->
  to_bits value offset length width
  = extract_bits_spec value offset length width.
Proof.
  intros Ho Hl Hw.
  unfold extract_bits_spec, bits_msb_first, range.
  rewrite map_map, skipn_map, firstn_map, skipn_seq, firstn_seq_le by lia.
  rewrite unsigned_of_field by lia.
  unfold to_bits.
  rewrite Z.shiftl_1_l, Z.sub_1_r, <- Z.ones_equiv, Z.land_ones by lia.
  rewrite !Z2Nat.id by lia.
  replace (Z.of_nat (0 + Z.to_nat offset)) with offset by lia.
  reflexivity.
Qed.

(** C6 (as amended).  [to_bits 0b10110100 2 3 8] is [0b110] (6): the
    three bits at positions 2, 3 and 4 counted from the most significant
    bit of the octet; in general [to_bits] returns the [length]-bit field
    at [offset] from the most significant bit of a [width]-bit value. *)
Theorem to_bits_example :
  to_bits 180 2 3 8 = 6 /\
  forall value offset length width,
    0 <= offset -> 0 <= length -> offset + length <= width ->
    to_bits value offset length width
    = extract_bits_spec value offset length width.
Proof.
  split; [reflexivity|].
  exact to_bits_extract_bits_spec.
Qed.

(** ** Rejection *)

(** C8.  A buffer whose bytes at offsets 12 and 13 are 0x08 0x06 is
    rejected by the ethertype check: construction raises
    [ValueError "non-ipv4 packet"] and returns no frame. *)
Theorem EthernetFrame_rejects_arp (octets : bytes) :
  getitem octets 12 = Ok 8 ->
  getitem octets 13 = Ok 6 ->
  EthernetFrame.init octets = Raise (ValueError "non-ipv4 packet") /\
  forall frame, EthernetFrame.init octets <> Ok frame.
Proof.
  intros E12 E13.
  assert (EthernetFrame.init octets = Raise (ValueError "non-ipv4 packet"))
    as H.
  { unfold EthernetFrame.init; cbv zeta.
    rewrite E12; cbn [bind Ok]; rewrite E13; reflexivity. }
  split; [exact H|].
  intros frame; rewrite H; discriminate.
Qed.

(** ** Addresses *)

(** C9 (as amended).  [MACAddress] never rejects its input and holds the
    input's elements in order, so it holds six octets exactly when it is
    given six; the two addresses of a decoded frame hold six unsigned 8-bit
    octets each. *)
Theorem MACAddress_octets (octets : bytes) :
  MACAddress.address (MACAddress.init octets) = octets /\
  (len (MACAddress.address (MACAddress.init octets)) = 6 <->
   len octets = 6) /\
  forall buffer frame,
    is_bytes buffer = true ->
    EthernetFrame.init buffer = Ok frame ->
    let dst := MACAddress.address (EthernetFrame.dest_address frame) in
    let src := MACAddress.address (EthernetFrame.source_address frame) in
    len dst = 6 /\ len src = 6 /\
    is_bytes dst = true /\ is_bytes src = true /\
    dst = slice buffer 0 6 /\ src = slice buffer 6 12.
Proof.
  assert (forall l, MACAddress.address (MACAddress.init l) = l) as Hid
    by (intros l; cbn; apply map_id).
  split; [apply Hid|].
  split; [now rewrite Hid|].
  intros buffer frame Hb Hinit dst src; subst dst src.
  apply EthernetFrame_init_inv in Hinit
    as (o12 & o13 & ip & E12 & _ & _ & _ & ->).
  apply getitem_inv in E12 as [L12 _]; [|lia].
  cbn [EthernetFrame.dest_address EthernetFrame.source_address].
  rewrite !Hid, !len_slice by lia.
  repeat split; try reflexivity; now apply is_bytes_slice.
Qed.

(** ** Concrete inputs *)

(** Names the frame a concrete buffer decodes to. *)
Ltac decode_concrete init buffer frame E :=
  destruct (init buffer) as [?|frame] eqn:E;
  [vm_compute in E; discriminate E|].

(** ** The claims as first stated, at concrete inputs *)

(** C1 as first stated fails: [short_ihl_frame] passes the three checks
    and is long enough for the header lengths it declares, yet serializes
    to 54 bytes. *)
Lemma round_trip_fails_short_ihl :
  is_bytes short_ihl_frame = true /\
  passes_checks short_ihl_frame = true /\
  14 + 4 * wire_ihl short_ihl_frame + 4 * wire_data_offset short_ihl_frame
    <= len short_ihl_frame /\
  exists frame,
    EthernetFrame.init short_ihl_frame = Ok frame /\
    len (EthernetFrame.raw frame) = 54 /\
    EthernetFrame.raw frame <> short_ihl_frame.
Proof.
  split; [vm_compute; reflexivity|].
  split; [vm_compute; reflexivity|].
  split; [vm_compute; discriminate|].
  decode_concrete EthernetFrame.init short_ihl_frame frame E.
  exists frame; split; [reflexivity|].
  vm_compute in E; injection E as <-.
  split; [vm_compute; reflexivity|].
  intros H; apply (f_equal len) in H; vm_compute in H; discriminate H.
Qed.

(** C2 as first stated fails: [truncated_frame] decodes, and after
    [forge_reset] the TCP checksum is not self-consistent. *)
Lemma forge_reset_truncated_frame :
  exists frame,
    EthernetFrame.init truncated_frame = Ok frame /\
    let ip' := TCPPacket_forge_reset 12345 (EthernetFrame.payload frame) in
    checksum (IPv4Packet.tcp_checksum_bytes ip' ++
              TCPPacket.raw_header (IPv4Packet.payload ip')) = 2295 /\
    checksum (IPv4Packet.tcp_checksum_bytes ip' ++
              TCPPacket.raw_header (IPv4Packet.payload ip')) <> 0.
Proof.
  decode_concrete EthernetFrame.init truncated_frame frame E.
  exists frame; split; [reflexivity|].
  vm_compute in E; injection E as <-.
  split; [vm_compute; reflexivity|vm_compute; discriminate].
Qed.

(** C3 as first stated fails: [truncated_packet] decodes, and its
    pseudo-header has 10 bytes. *)
Lemma pseudo_header_truncated_packet :
  exists p,
    IPv4Packet.init truncated_packet = Ok p /\
    len (IPv4Packet.tcp_checksum_bytes p) = 10 /\
    len (IPv4Packet.tcp_checksum_bytes (TCPPacket_replace_checksum p)) <> 12.
Proof.
  decode_concrete IPv4Packet.init truncated_packet p E.
  exists p; split; [reflexivity|].
  vm_compute in E; injection E as <-.
  split; [vm_compute; reflexivity|vm_compute; discriminate].
Qed.

(** C5 as first stated fails: [huge_buffer] has a zero checksum field at
    offset 0, and with its checksum written there its checksum is 0xffff. *)
Lemma checksum_not_self_consistent_huge :
  is_bytes huge_buffer = true /\
  slice huge_buffer 0 2 = [0; 0] /\
  checksum (insert_checksum huge_buffer 0 (checksum huge_buffer)) = 65535 /\
  checksum (insert_checksum huge_buffer 0 (checksum huge_buffer)) <> 0.
Proof.
  split; [vm_compute; reflexivity|].
  split; [vm_compute; reflexivity|].
  rewrite !checksum_finish.
  split; [vm_compute; reflexivity|vm_compute; discriminate].
Qed.

(** C6 as first stated fails: the result is not 5. *)
Lemma to_bits_example_not_5 : to_bits 180 2 3 8 <> 5.
Proof. vm_compute; discriminate. Qed.

(** C9 as first stated fails: three bytes are accepted and give an address
    of three octets. *)
Lemma MACAddress_three_octets :
  MACAddress.address (MACAddress.init [1; 2; 3]) = [1; 2; 3] /\
  len (MACAddress.address (MACAddress.init [1; 2; 3])) <> 6.
Proof. split; [reflexivity|vm_compute; discriminate]. Qed.

(** C10 as first stated fails: [padded_frame] has a non-empty TCP payload
    (the padding), and after [forge_reset] its total-length field, 40,
    equals the length of the serialized packet. *)
Lemma total_length_padded_frame :
  exists frame,
    EthernetFrame.init padded_frame = Ok frame /\
    let ip := EthernetFrame.payload frame in
    let ip' := TCPPacket_forge_reset 12345 ip in
    TCPPacket.payload (IPv4Packet.payload ip) <> [] /\
    IPv4Packet.length ip' = 40 /\
    len (IPv4Packet.raw ip') = 40 /\
    ~ len (IPv4Packet.raw ip') < IPv4Packet.length ip'.
Proof.
  decode_concrete EthernetFrame.init padded_frame frame E.
  exists frame; split; [reflexivity|].
  vm_compute in E; injection E as <-.
  split; [vm_compute; discriminate|].
  split; [vm_compute; reflexivity|].
  split; [vm_compute; reflexivity|vm_compute; discriminate].
Qed.

(** ** The theorems at concrete inputs *)

Lemma round_trip_witness :
  exists frame,
    EthernetFrame.init sample_frame = Ok frame /\
    EthernetFrame.raw frame = sample_frame /\
    EthernetFrame._raw frame = sample_frame /\
    IPv4Packet._raw (EthernetFrame.payload frame)
      = slice_from sample_frame 14 /\
    TCPPacket._raw (IPv4Packet.payload (EthernetFrame.payload frame))
      = slice_from sample_frame (14 + 4 * wire_ihl sample_frame).
Proof.
  apply (round_trip sample_frame).
  - vm_compute; reflexivity.
  - vm_compute; reflexivity.
  - vm_compute; discriminate.
  - vm_compute; discriminate.
  - vm_compute; discriminate.
Defined.

Lemma forge_reset_spec_witness :
  exists frame,
    EthernetFrame.init sample_frame = Ok frame /\
    let ip' := TCPPacket_forge_reset 12345 (EthernetFrame.payload frame) in
    TCPPacket.RST (IPv4Packet.payload ip') = true /\
    TCPPacket.sequence (IPv4Packet.payload ip') = 12345 /\
    checksum (IPv4Packet.raw_header ip') = 0 /\
    checksum (IPv4Packet.tcp_checksum_bytes ip' ++
              TCPPacket.raw_header (IPv4Packet.payload ip')) = 0.
Proof.
  decode_concrete EthernetFrame.init sample_frame frame E.
  exists frame; split; [reflexivity|].
  assert (is_bytes sample_frame = true) as Hb by (vm_compute; reflexivity).
  assert (34 <= len sample_frame) as Hlen by (vm_compute; discriminate).
  pose proof (forge_reset_spec sample_frame frame 12345 Hb E) as H.
  cbv zeta in *.
  repeat match goal with |- _ /\ _ => split end; try apply H.
  exact Hlen.
Defined.

Lemma TCPPacket_replace_checksum_spec_witness :
  exists p,
    IPv4Packet.init sample_packet = Ok p /\
    IPv4Packet_octets p /\
    len (IPv4Address.address (IPv4Packet.source_address p)) = 4 /\
    len (IPv4Address.address (IPv4Packet.dest_address p)) = 4 /\
    len (IPv4Packet.tcp_checksum_bytes p) = 12.
Proof.
  decode_concrete IPv4Packet.init sample_packet p E.
  exists p; split; [reflexivity|].
  assert (is_bytes sample_packet = true) as Hb by (vm_compute; reflexivity).
  assert (20 <= len sample_packet) as Hlen by (vm_compute; discriminate).
  pose proof (TCPPacket_replace_checksum_spec sample_packet p Hb E) as H.
  cbv zeta in H.
  destruct H as (Ho & _ & _ & _ & H5).
  destruct (H5 Hlen) as (Hs & Hd & _).
  repeat match goal with |- _ /\ _ => split end; try assumption.
  rewrite len_tcp_checksum_bytes, Hs, Hd; reflexivity.
Defined.

Lemma checksum_self_consistent_witness :
  checksum (insert_checksum sample_header 10 (checksum sample_header)) = 0.
Proof.
  apply (checksum_self_consistent sample_header 10).
  - vm_compute; reflexivity.
  - lia.
  - reflexivity.
  - vm_compute; discriminate.
  - vm_compute; reflexivity.
  - vm_compute; discriminate.
Defined.

Lemma to_bits_example_witness :
  to_bits 180 2 3 8 = extract_bits_spec 180 2 3 8.
Proof. apply (proj2 to_bits_example 180 2 3 8); lia. Defined.

Lemma EthernetFrame_rejects_arp_witness :
  EthernetFrame.init arp_frame = Raise (ValueError "non-ipv4 packet") /\
  forall frame, EthernetFrame.init arp_frame <> Ok frame.
Proof.
  apply (EthernetFrame_rejects_arp arp_frame); vm_compute; reflexivity.
Defined.

Lemma MACAddress_octets_witness :
  exists frame,
    EthernetFrame.init sample_frame = Ok frame /\
    len (MACAddress.address (EthernetFrame.dest_address frame)) = 6 /\
    len (MACAddress.address (EthernetFrame.source_address frame)) = 6.
Proof.
  decode_concrete EthernetFrame.init sample_frame frame E.
  exists frame; split; [reflexivity|].
  assert (is_bytes sample_frame = true) as Hb by (vm_compute; reflexivity).
  pose proof (proj2 (proj2 (MACAddress_octets [])) sample_frame frame Hb E)
    as H.
  cbv zeta in H.
  split; apply H.
Defined.

Lemma forge_reset_ipv4_frame_witness :
  exists frame,
    EthernetFrame.init sample_frame = Ok frame /\
    let ip' := TCPPacket_forge_reset 12345 (EthernetFrame.payload frame) in
    len (IPv4Packet.raw ip') < IPv4Packet.length ip'.
Proof.
  decode_concrete EthernetFrame.init sample_frame frame E.
  exists frame; split; [reflexivity|].
  apply (forge_reset_ipv4_frame (EthernetFrame.payload frame) 12345).
  - vm_compute in E; injection E as <-; vm_compute; discriminate.
  - vm_compute in E; injection E as <-; vm_compute; discriminate.
Defined.

(** * Further properties of the codec *)

(** X1.  [to_octets] returns [max(0, n_octets)] elements, each an unsigned
    8-bit value, whatever integer it is given: the [bytes(l)] that ends it
    never raises, and a non-positive count gives the empty buffer. *)
Theorem to_octets_shape (i n_octets : Z) :
  len (to_octets i n_octets) = Z.max 0 n_octets /\
  is_bytes (to_octets i n_octets) = true /\
  (n_octets <= 0 -> to_octets i n_octets = []).
Proof.
  split; [apply len_to_octets|].
  split; [apply is_bytes_to_octets|].
  intros Hn; unfold to_octets; now rewrite range_nonpos.
Qed.

Lemma to_integer_to_octets_nat (i : Z) (n : nat) :
  to_integer (to_octets i (Z.of_nat n)) 8 = i mod 2 ^ (8 * Z.of_nat n).
Proof.
  induction n as [|n IH].
  - cbn; now rewrite Z.mod_1_r.
  - rewrite Nat2Z.inj_succ, <- Z.add_1_r, to_octets_succ by lia.
    rewrite to_integer_cons, IH, len_to_octets.
    rewrite Z.max_r, Z.shiftl_mul_pow2, Z.shiftr_div_pow2 by lia.
    change 255 with (Z.ones 8); rewrite Z.land_ones by lia.
    replace (Z.of_nat n * 8) with (8 * Z.of_nat n) by lia.
    replace (8 * (Z.of_nat n + 1)) with (8 * Z.of_nat n + 8) by lia.
    rewrite (Z.pow_add_r 2 (8 * Z.of_nat n) 8) by lia.
    assert (0 < 2 ^ (8 * Z.of_nat n)) by (apply Z.pow_pos_nonneg; lia).
    rewrite Z.rem_mul_r by lia.
    lia.
Qed.

(** X2.  Decoding what [to_octets] encoded gives the integer modulo
    [2 ^ (8 * n_octets)]: the encoder keeps the low bytes and drops the
    rest without an error, for negative integers as well; the bytes depend
    on the integer through that remainder only. *)
Theorem to_integer_to_octets (i n_octets : Z) :
  0 <= n_octets ->
  to_integer (to_octets i n_octets) 8 = i mod 2 ^ (8 * n_octets) /\
  to_octets (i mod 2 ^ (8 * n_octets)) n_octets = to_octets i n_octets.
Proof.
  intros Hn.
  assert (to_integer (to_octets i n_octets) 8 = i mod 2 ^ (8 * n_octets))
    as H.
  { rewrite <- (Z2Nat.id n_octets) by exact Hn.
    apply to_integer_to_octets_nat. }
  split; [exact H|].
  rewrite <- H.
  apply to_octets_to_integer; [apply is_bytes_to_octets|].
  rewrite len_to_octets; lia.
Qed.

(** X3.  Encoding what [to_integer] decoded from a byte buffer, over the
    buffer's length, gives the buffer back, and the decoded integer is
    below [2 ^ (8 * len)]. *)
Theorem to_octets_to_integer_round_trip (octets : bytes) :
  is_bytes octets = true ->
  to_octets (to_integer octets 8) (len octets) = octets /\
  0 <= to_integer octets 8 < 2 ^ (8 * len octets).
Proof.
  intros Hb; split.
  - now apply to_octets_to_integer.
  - now apply to_integer_bound.
Qed.

Lemma to_integer_le_acc (n_bits : Z) (octets : list Z) (l i : Z) :
  snd (fold_left (fun '(l, i) o => (l + 1, i + Z.shiftl o (l * n_bits)))
                 octets (l, i))
  = i + snd (fold_left
               (fun '(l, i) o => (l + 1, i + Z.shiftl o (l * n_bits)))
               octets (l, 0)).
Proof.
  revert l i; induction octets as [|o octets IH]; intros l i; cbn [fold_left].
  - cbn; lia.
  - rewrite IH, (IH _ (0 + _)); lia.
Qed.

Lemma to_integer_fst (n_bits : Z) (octets : list Z) (l i : Z) :
  fst (fold_left (fun '(l, i) o => (l - 1, i + Z.shiftl o (l * n_bits)))
                 octets (l, i))
  = l - len octets.
Proof.
  revert l i; induction octets as [|o octets IH]; intros l i; cbn [fold_left].
  - cbn; lia.
  - rewrite IH, len_cons; lia.
Qed.

Lemma to_integer_le_from (n_bits : Z) (octets : list Z) (a : Z) :
  snd (fold_left (fun '(l, i) o => (l + 1, i + Z.shiftl o (l * n_bits)))
                 octets (a, 0))
  = snd (fold_left (fun '(l, i) o => (l - 1, i + Z.shiftl o (l * n_bits)))
                   (rev octets) (a + len octets - 1, 0)).
Proof.
  revert a; induction octets as [|o octets IH]; intros a.
  - reflexivity.
  - cbn [fold_left rev].
    rewrite to_integer_le_acc, IH, fold_left_app, len_cons.
    cbn [fold_left].
    set (f := fun '(l, i) o => (l - 1, i + Z.shiftl o (l * n_bits))).
    pose proof (to_integer_fst n_bits (rev octets)
                  (a + (len octets + 1) - 1) 0) as Hf.
    fold f in Hf.
    replace (a + 1 + len octets - 1) with (a + (len octets + 1) - 1) by lia.
    destruct (fold_left f (rev octets) (a + (len octets + 1) - 1, 0))
      as [l v].
    cbn [fst snd] in *.
    unfold len in Hf; rewrite length_rev in Hf; fold (len octets) in Hf.
    unfold f; cbn [snd].
    replace l with a by lia.
    lia.
Qed.

(** X4.  [to_integer_le] reads a buffer as [to_integer] reads the reversed
    buffer: the two decoders differ in byte order only. *)
Theorem to_integer_le_rev (octets : list Z) (n_bits : Z) :
  0 <= n_bits ->
  to_integer_le octets n_bits = to_integer (rev octets) n_bits.
Proof.
  intros _; unfold to_integer_le, to_integer.
  rewrite to_integer_le_from.
  unfold len; rewrite length_rev.
  do 3 f_equal; lia.
Qed.

(** X5.  Within its domain ([0 <= length], [offset + length <= n_bits])
    [to_bits] returns a value below [2 ^ length], and a field is its two
    adjacent halves put together: the first [l1] bits times [2 ^ l2] plus
    the next [l2] bits. *)
Theorem to_bits_split (octet offset l1 l2 n_bits : Z) :
  0 <= l1 -> 0 <= l2 -> offset + l1 + l2 <= n_bits ->
  0 <= to_bits octet offset (l1 + l2) n_bits < 2 ^ (l1 + l2) /\
  to_bits octet offset (l1 + l2) n_bits
  = to_bits octet offset l1 n_bits * 2 ^ l2
    + to_bits octet (offset + l1) l2 n_bits.
Proof.
  intros H1 H2 Hw.
  assert (forall x n, 0 <= n ->
            Z.land x (Z.shiftl 1 n - 1) = x mod 2 ^ n) as Hmask.
  { intros x n Hn.
    now rewrite Z.shiftl_1_l, Z.sub_1_r, <- Z.ones_equiv, Z.land_ones. }
  unfold to_bits; rewrite !Hmask by lia.
  split; [apply Z.mod_pos_bound, Z.pow_pos_nonneg; lia|].
  set (d := n_bits - offset - (l1 + l2)).
  replace (n_bits - offset - l1) with (d + l2) by lia.
  replace (n_bits - (offset + l1) - l2) with d by lia.
  rewrite <- Z.shiftr_shiftr by lia.
  set (x := Z.shiftr octet d).
  rewrite Z.shiftr_div_pow2 by lia.
  assert (0 < 2 ^ l1) by (apply Z.pow_pos_nonneg; lia).
  assert (0 < 2 ^ l2) by (apply Z.pow_pos_nonneg; lia).
  rewrite (Z.add_comm l1 l2), Z.pow_add_r, Z.rem_mul_r by lia.
  lia.
Qed.

(** * Further properties of the checksum engine *)

Lemma le_words_sum_snoc_zero (l : list Z) :
  le_words_sum (l ++ [0]) = le_words_sum l.
Proof.
  induction l as [| a | a b r IH] using pair_induction.
  - reflexivity.
  - cbn; lia.
  - cbn [app le_words_sum]; now rewrite IH.
Qed.

(** X6.  A zero byte appended to a buffer, of odd or even length, leaves
    its checksum unchanged. *)
Theorem checksum_zero_padding (octets : bytes) :
  checksum (octets ++ [0]) = checksum octets.
Proof. now rewrite !checksum_finish, le_words_sum_snoc_zero. Qed.

(** X7.  The checksum does not depend on the order of 16-bit-aligned
    blocks: two buffers of even length give the same checksum in either
    order. *)
Theorem checksum_blocks_commute (a b : bytes) :
  len a mod 2 = 0 -> len b mod 2 = 0 ->
  checksum (a ++ b) = checksum (b ++ a).
Proof.
  intros Ha Hb.
  rewrite !checksum_finish, !le_words_sum_app_even by assumption.
  f_equal; lia.
Qed.

(** * Further properties of the constructors *)

Lemma getitem_out_of_range (l : list Z) (i : Z) :
  len l <= i -> getitem l i = Raise IndexError.
Proof.
  intros Hi; pose proof (len_nonneg l) as Hn.
  unfold getitem; cbv zeta.
  assert ((i <? 0) = false) as -> by lia.
  assert ((i <? 0) = false) as -> by lia.
  assert (nth_error l (Z.to_nat i) = None) as ->
    by (apply nth_error_None; unfold len in Hi; lia).
  reflexivity.
Qed.

(** X8.  [TCPPacket] is constructed from every buffer of at least 14
    bytes, whatever they hold, and raises [IndexError] on a shorter one; it
    never raises [ValueError]. *)
Theorem TCPPacket_init_outcome (octets : bytes) :
  (14 <= len octets -> exists p, TCPPacket.init octets = Ok p) /\
  (len octets < 14 -> TCPPacket.init octets = Raise IndexError) /\
  (forall msg, TCPPacket.init octets <> Raise (ValueError msg)).
Proof.
  assert (len octets < 14 -> TCPPacket.init octets = Raise IndexError) as Hs.
  { intros Hlen; unfold TCPPacket.init; cbv zeta.
    destruct (Z.lt_ge_cases 12 (len octets)) as [H12|H12].
    - destruct (getitem_ok octets 12) as (o12 & -> & _);
        [pose proof (len_nonneg octets); lia|].
      cbn [bind Ok]; rewrite getitem_out_of_range by lia; reflexivity.
    - rewrite getitem_out_of_range by lia; reflexivity. }
  split; [apply TCPPacket_init_ok|].
  split; [exact Hs|].
  intros msg H.
  destruct (Z.lt_ge_cases (len octets) 14) as [Hlt|Hge].
  - rewrite Hs in H by exact Hlt; discriminate H.
  - destruct (TCPPacket_init_ok octets Hge) as (p & Hp).
    rewrite Hp in H; discriminate H.
Qed.

(** X9.  [IPv4Packet] raises [IndexError] on the empty buffer and checks
    the version before anything else: a first byte whose high nibble is not
    4 raises [ValueError "non-ipv4 packet"] even when the buffer holds that
    byte alone.  With version 4, a protocol byte other than 6 raises
    [ValueError "non-tcp packet"], whatever follows; with fewer than ten
    bytes the constructor raises [IndexError]; and with version 4 and
    protocol 6 an error of [TCPPacket] on the bytes from offset [4 * ihl]
    on is the error of the packet. *)
Theorem IPv4Packet_init_errors (octets : bytes) :
  (len octets = 0 -> IPv4Packet.init octets = Raise IndexError) /\
  (forall o0,
      getitem octets 0 = Ok o0 ->
      (to_bits o0 0 4 8 <> 4 ->
       IPv4Packet.init octets = Raise (ValueError "non-ipv4 packet")) /\
      (to_bits o0 0 4 8 = 4 -> len octets < 10 ->
       IPv4Packet.init octets = Raise IndexError) /\
      (to_bits o0 0 4 8 = 4 ->
       forall protocol, getitem octets 9 = Ok protocol -> protocol <> 6 ->
       IPv4Packet.init octets = Raise (ValueError "non-tcp packet")) /\
      (to_bits o0 0 4 8 = 4 -> getitem octets 9 = Ok 6 ->
       forall e,
         TCPPacket.init (slice_from octets (4 * to_bits o0 4 4 8))
           = Raise e ->
         IPv4Packet.init octets = Raise e)).
Proof.
  pose proof (len_nonneg octets) as Hn.
  split.
  { intros Hlen; unfold IPv4Packet.init; cbv zeta.
    rewrite getitem_out_of_range by lia; reflexivity. }
  intros o0 E0.
  unfold IPv4Packet.init; cbv zeta; rewrite E0; cbn [bind Ok].
  repeat match goal with |- _ /\ _ => split end.
  - intros Hv.
    apply Z.eqb_neq in Hv; rewrite Hv; reflexivity.
  - intros Hv Hlen; rewrite Hv.
    change (negb (4 =? 4)) with false; cbv iota.
    destruct (Z.lt_ge_cases 1 (len octets)) as [H1|H1];
      [|rewrite getitem_out_of_range by lia; reflexivity].
    destruct (getitem_ok octets 1) as (o1 & -> & _); [lia|]; cbn [bind Ok].
    destruct (Z.lt_ge_cases 8 (len octets)) as [H8|H8];
      [|rewrite getitem_out_of_range by lia; reflexivity].
    destruct (getitem_ok octets 8) as (ttl & -> & _); [lia|]; cbn [bind Ok].
    rewrite getitem_out_of_range by lia; reflexivity.
  - intros Hv protocol E9 Hp; rewrite Hv.
    change (negb (4 =? 4)) with false; cbv iota.
    pose proof (getitem_inv octets 9 protocol ltac:(lia) E9) as [L9 _].
    destruct (getitem_ok octets 1) as (o1 & -> & _); [lia|]; cbn [bind Ok].
    destruct (getitem_ok octets 8) as (ttl & -> & _); [lia|]; cbn [bind Ok].
    rewrite E9; cbn [bind Ok].
    apply Z.eqb_neq in Hp; rewrite Hp; reflexivity.
  - intros Hv E9 e Htcp; rewrite Hv.
    change (negb (4 =? 4)) with false; cbv iota.
    pose proof (getitem_inv octets 9 6 ltac:(lia) E9) as [L9 _].
    destruct (getitem_ok octets 1) as (o1 & -> & _); [lia|]; cbn [bind Ok].
    destruct (getitem_ok octets 8) as (ttl & -> & _); [lia|]; cbn [bind Ok].
    rewrite E9; cbn [bind Ok].
    change (negb (6 =? 6)) with false; cbv iota.
    replace (20 + 4 * (to_bits o0 4 4 8 - 5)) with (4 * to_bits o0 4 4 8)
      by lia.
    rewrite Htcp; reflexivity.
Qed.

(** X10.  [EthernetFrame] raises [IndexError] on every buffer shorter than
    14 bytes.  On a longer buffer an ethertype other than 0x0800 raises
    [ValueError "non-ipv4 packet"] before the payload is looked at, and
    with ethertype 0x0800 an error of [IPv4Packet] on the bytes from offset
    14 on is the error of the frame. *)
Theorem EthernetFrame_init_errors (octets : bytes) :
  (len octets < 14 -> EthernetFrame.init octets = Raise IndexError) /\
  (forall o12 o13,
      getitem octets 12 = Ok o12 -> getitem octets 13 = Ok o13 ->
      (Z.shiftl o12 8 + o13 <> 2048 ->
       EthernetFrame.init octets = Raise (ValueError "non-ipv4 packet")) /\
      (Z.shiftl o12 8 + o13 = 2048 ->
       forall e,
         IPv4Packet.init (slice_from octets 14) = Raise e ->
         EthernetFrame.init octets = Raise e)).
Proof.
  pose proof (len_nonneg octets) as Hn.
  split.
  - intros Hlen; unfold EthernetFrame.init; cbv zeta.
    destruct (Z.lt_ge_cases 12 (len octets)) as [H12|H12];
      [|rewrite getitem_out_of_range by lia; reflexivity].
    destruct (getitem_ok octets 12) as (o12 & -> & _); [lia|].
    cbn [bind Ok]; rewrite getitem_out_of_range by lia; reflexivity.
  - intros o12 o13 E12 E13.
    unfold EthernetFrame.init; cbv zeta.
    rewrite E12; cbn [bind Ok]; rewrite E13; cbn [bind Ok].
    split.
    + intros Het; apply Z.eqb_neq in Het; rewrite Het; reflexivity.
    + intros Het e Hip; rewrite Het.
      change (negb (2048 =? 2048)) with false; cbv iota.
      rewrite Hip; reflexivity.
Qed.

(** * When the round trip holds *)

Lemma len_slice_gen (l : list Z) (a b : Z) :
  0 <= a -> 0 <= b ->
  len (slice l a b) = Z.max 0 (Z.min b (len l) - Z.min a (len l)).
Proof.
  intros Ha Hb; unfold slice.
  rewrite !clamp_nonneg by lia.
  pose proof (len_nonneg l) as Hn.
  unfold len in *; rewrite length_firstn, length_skipn; lia.
Qed.

Lemma len_slice_from_gen (l : list Z) (a : Z) :
  0 <= a -> len (slice_from l a) = Z.max 0 (len l - a).
Proof.
  intros Ha; unfold slice_from.
  rewrite clamp_nonneg by lia.
  pose proof (len_nonneg l) as Hn.
  unfold len in *; rewrite length_skipn; lia.
Qed.

Lemma len_TCPPacket_raw_decoded (octets : bytes) (p : TCPPacket.t) :
  TCPPacket.init octets = Ok p ->
  14 <= len octets /\
  0 <= TCPPacket.data_offset p < 16 /\
  len (TCPPacket.raw p)
  = 20 + Z.max 0 (4 * TCPPacket.data_offset p - 20)
    + Z.max 0 (len octets - 4 * TCPPacket.data_offset p).
Proof.
  intros Hinit.
  apply TCPPacket_init_inv in Hinit as (o12 & o13 & _ & E13 & ->).
  apply getitem_inv in E13 as [L13 _]; [|lia].
  pose proof (nibble_range o12 0 8) as Hdo.
  unfold TCPPacket.raw; rewrite len_app, len_tcp_raw_header; tcp_fields.
  rewrite len_slice_from_gen by lia.
  lia.
Qed.

(** X11.  For a TCP segment decoded from a byte buffer, [raw()] gives the
    buffer back exactly when the data offset is at least 5 words and the
    buffer holds the header it declares; otherwise [raw()] is longer than
    the buffer. *)
Theorem TCPPacket_round_trip_iff (octets : bytes) (p : TCPPacket.t) :
  is_bytes octets = true ->
  TCPPacket.init octets = Ok p ->
  (TCPPacket.raw p = octets <->
   5 <= TCPPacket.data_offset p /\
   4 * TCPPacket.data_offset p <= len octets) /\
  (TCPPacket.raw p <> octets -> len octets < len (TCPPacket.raw p)).
Proof.
  intros Hb Hinit.
  pose proof (len_TCPPacket_raw_decoded _ _ Hinit) as (Hlen & Hdo & Hraw).
  assert (TCPPacket.raw p = octets <->
          5 <= TCPPacket.data_offset p /\
          4 * TCPPacket.data_offset p <= len octets) as Hiff.
  { split.
    - intros Heq; rewrite Heq in Hraw; lia.
    - intros [H5 Hl]; now apply TCPPacket_round_trip. }
  split; [exact Hiff|].
  intros Hne.
  assert (~ (5 <= TCPPacket.data_offset p /\
             4 * TCPPacket.data_offset p <= len octets)) as Hn
    by (intros H; apply Hne, Hiff, H).
  lia.
Qed.

Lemma len_IPv4Packet_raw_decoded (octets : bytes) (p : IPv4Packet.t) :
  IPv4Packet.init octets = Ok p ->
  let tcp := IPv4Packet.payload p in
  0 <= IPv4Packet.ihl p < 16 /\
  TCPPacket._raw tcp = slice_from octets (4 * IPv4Packet.ihl p) /\
  14 + 4 * IPv4Packet.ihl p <= len octets /\
  len (IPv4Packet.raw p)
  = 12 + Z.min 4 (len octets - 12) + Z.max 0 (Z.min 4 (len octets - 16))
    + Z.max 0 (4 * IPv4Packet.ihl p - 20) + len (TCPPacket.raw tcp).
Proof.
  intros Hinit.
  apply IPv4Packet_init_inv in Hinit
    as (o0 & o1 & ttl & protocol & tcp &
        _ & _ & _ & _ & _ & _ & Etcp & ->).
  pose proof (nibble_range o0 4 8) as Hihl.
  pose proof (TCPPacket_raw_of_init _ _ Etcp) as Hraw.
  pose proof (len_TCPPacket_raw_decoded _ _ Etcp) as (Htl & _ & _).
  rewrite len_slice_from_gen in Htl by lia.
  unfold IPv4Packet.raw; rewrite len_app, len_ip_raw_header; ip_fields.
  cbv zeta; rewrite !map_id, !len_slice_gen by lia.
  repeat split; try lia.
  rewrite Hraw; f_equal; lia.
Qed.

(** When a decoded IPv4 packet serializes to its buffer. *)
Lemma IPv4Packet_raw_eq_iff (octets : bytes) (p : IPv4Packet.t) :
  is_bytes octets = true ->
  IPv4Packet.init octets = Ok p ->
  let tcp := IPv4Packet.payload p in
  IPv4Packet.raw p = octets <->
  5 <= IPv4Packet.ihl p /\
  5 <= TCPPacket.data_offset tcp /\
  4 * IPv4Packet.ihl p + 4 * TCPPacket.data_offset tcp <= len octets.
Proof.
  intros Hb Hinit tcp.
  pose proof (len_IPv4Packet_raw_decoded _ _ Hinit)
    as (Hihl & Hraw & Hlen & Hlraw).
  fold tcp in Hraw, Hlraw.
  pose proof Hinit as Hinit'.
  apply IPv4Packet_init_inv in Hinit'
    as (o0 & o1 & ttl & protocol & tcp0 &
        _ & _ & _ & _ & _ & _ & Etcp & Hp).
  assert (tcp = tcp0) as Htcp by (subst p; reflexivity).
  assert (IPv4Packet.ihl p = to_bits o0 4 4 8) as Hi
    by (subst p; reflexivity).
  rewrite <- Htcp in Etcp.
  replace (20 + 4 * (to_bits o0 4 4 8 - 5)) with (4 * IPv4Packet.ihl p)
    in Etcp by lia.
  pose proof (len_TCPPacket_raw_decoded _ _ Etcp) as (_ & Hdo & Htraw).
  rewrite len_slice_from_gen in Htraw by lia.
  split.
  - intros Heq; rewrite Heq in Hlraw; lia.
  - intros (H5 & Hd5 & Hl).
    apply IPv4Packet_round_trip; try assumption; try lia.
    fold tcp; rewrite Hraw, len_slice_from_gen by lia; lia.
Qed.

(** X12.  For an IPv4 packet decoded from a byte buffer, [raw()] gives the
    buffer back exactly when IHL and the TCP data offset are both at least
    5 words and the buffer holds the two headers they declare. *)
Theorem IPv4Packet_round_trip_iff (octets : bytes) (p : IPv4Packet.t) :
  is_bytes octets = true ->
  IPv4Packet.init octets = Ok p ->
  let tcp := IPv4Packet.payload p in
  IPv4Packet.raw p = octets <->
  5 <= IPv4Packet.ihl p /\
  5 <= TCPPacket.data_offset tcp /\
  4 * IPv4Packet.ihl p + 4 * TCPPacket.data_offset tcp <= len octets.
Proof. exact (IPv4Packet_raw_eq_iff octets p). Qed.

(** X13.  For a frame decoded from a byte buffer, [raw()] gives the buffer
    back exactly when IHL and the TCP data offset are both at least 5 words
    and the buffer holds the 14-byte Ethernet header and the two headers
    they declare. *)
Theorem EthernetFrame_round_trip_iff (octets : bytes) (f : EthernetFrame.t) :
  is_bytes octets = true ->
  EthernetFrame.init octets = Ok f ->
  let ip := EthernetFrame.payload f in
  let tcp := IPv4Packet.payload ip in
  EthernetFrame.raw f = octets <->
  5 <= IPv4Packet.ihl ip /\
  5 <= TCPPacket.data_offset tcp /\
  14 + 4 * IPv4Packet.ihl ip + 4 * TCPPacket.data_offset tcp <= len octets.
Proof.
  intros Hb Hinit ip tcp.
  pose proof Hinit as Hinit'.
  apply EthernetFrame_init_inv in Hinit'
    as (o12 & o13 & ip0 & E12 & E13 & Het & Eip & Hf).
  assert (ip = ip0) as Hip by (subst f; reflexivity).
  rewrite <- Hip in Eip.
  apply getitem_inv in E13 as [L13 _]; [|lia].
  pose proof (IPv4Packet_raw_eq_iff _ _ (is_bytes_slice_from _ 14 Hb) Eip)
    as Hiff.
  cbv zeta in Hiff; fold tcp in Hiff.
  rewrite len_slice_from in Hiff by lia.
  pose proof (len_IPv4Packet_raw_decoded _ _ Eip) as (_ & _ & _ & Hlraw).
  assert (len (EthernetFrame.raw f) = 14 + len (IPv4Packet.raw ip)) as Hlf.
  { unfold EthernetFrame.raw; fold ip.
    rewrite !len_app, len_to_octets.
    subst f; eth_fields; rewrite !map_id, !len_slice by lia; lia. }
  split.
  - intros Heq.
    assert (len (IPv4Packet.raw ip) = len octets - 14) as Hl
      by (rewrite Heq in Hlf; lia).
    rewrite len_slice_from in Hlraw by lia.
    cbv zeta in Hlraw; fold tcp in Hlraw.
    pose proof (len_IPv4Packet_raw_decoded _ _ Eip)
      as (Hihl & Hraw & Hlen & _).
    pose proof Eip as Eip'.
    apply IPv4Packet_init_inv in Eip'
      as (o0 & o1 & ttl & protocol & tcp0 &
          _ & _ & _ & _ & _ & _ & Etcp & Hp).
    assert (tcp = tcp0) as Htcp by (unfold tcp; rewrite Hp; reflexivity).
    rewrite <- Htcp in Etcp.
    pose proof (len_TCPPacket_raw_decoded _ _ Etcp) as (Htl & Hdo & Htraw).
    assert (IPv4Packet.ihl ip = to_bits o0 4 4 8) as Hi
      by (rewrite Hp; reflexivity).
    rewrite len_slice_from in Hlen by lia.
    rewrite len_slice_from_gen in Htraw, Htl by lia.
    rewrite len_slice_from in Htraw, Htl by lia.
    lia.
  - intros (H5 & Hd5 & Hl).
    eapply EthernetFrame_round_trip_decoded; [exact Hb|exact Hinit| | | |];
      fold ip; fold tcp; try lia.
    + rewrite (IPv4Packet_raw_of_init _ _ Eip), len_slice_from by lia; lia.
    + pose proof (len_IPv4Packet_raw_decoded _ _ Eip) as (_ & Hraw & _ & _).
      fold tcp in Hraw; rewrite Hraw.
      rewrite len_slice_from_gen, len_slice_from by lia; lia.
Qed.

(** * Serialize, then decode *)

Lemma slice_take_all (l rest : list Z) :
  slice (l ++ rest) 0 (len l) = l.
Proof.
  unfold slice.
  pose proof (len_nonneg l); pose proof (len_nonneg rest).
  rewrite len_app, !clamp_in by lia.
  rewrite Z.sub_0_r; unfold len; rewrite Nat2Z.id.
  cbn [Z.to_nat skipn].
  rewrite firstn_app, firstn_all, Nat.sub_diag; cbn [firstn].
  apply app_nil_r.
Qed.

Lemma slice_app_skip (l rest : list Z) (a b : Z) :
  len l <= a -> len l <= b ->
  slice (l ++ rest) a b = slice rest (a - len l) (b - len l).
Proof.
  intros Ha Hb; unfold slice.
  pose proof (len_nonneg l); pose proof (len_nonneg rest).
  rewrite len_app, !clamp_nonneg by lia.
  rewrite skipn_app, skipn_all2 by (unfold len in *; lia).
  cbn [app]; unfold len in *; f_equal; [lia|f_equal; lia].
Qed.

Lemma slice_from_app_skip (l rest : list Z) (a : Z) :
  len l <= a -> slice_from (l ++ rest) a = slice_from rest (a - len l).
Proof.
  intros Ha; unfold slice_from.
  pose proof (len_nonneg l); pose proof (len_nonneg rest).
  rewrite len_app, !clamp_nonneg by lia.
  rewrite skipn_app, skipn_all2 by (unfold len in *; lia).
  cbn [app]; unfold len in *; f_equal; lia.
Qed.

(** The [k]-th of the pieces a buffer is made of is the slice between the
    lengths of the first [k] and the first [k + 1] pieces. *)
Lemma slice_piece (ps : list (list Z)) (k : nat) (rest : list Z) (a b : Z) :
  (k < length ps)%nat ->
  a = len (concat (firstn k ps)) ->
  b = a + len (nth k ps []) ->
  slice (concat ps ++ rest) a b = nth k ps [].
Proof.
  revert k a b; induction ps as [|p ps IH]; intros k a b Hk Ha Hb.
  - cbn in Hk; lia.
  - destruct k as [|k].
    + cbn [firstn concat nth] in *; subst a b.
      change (len []) with 0; rewrite Z.add_0_l, <- app_assoc.
      apply slice_take_all.
    + cbn [firstn concat nth length] in *.
      rewrite len_app in Ha.
      pose proof (len_nonneg (concat (firstn k ps))).
      pose proof (len_nonneg (nth k ps [])).
      rewrite <- app_assoc, slice_app_skip by lia.
      apply IH; lia.
Qed.

Lemma slice_from_pieces (ps : list (list Z)) (rest : list Z) (a : Z) :
  a = len (concat ps) -> slice_from (concat ps ++ rest) a = rest.
Proof.
  intros ->.
  rewrite slice_from_app_skip, Z.sub_diag by lia.
  apply slice_from_0.
Qed.

Lemma getitem_of_slice (l : list Z) (i o : Z) :
  0 <= i -> slice l i (i + 1) = [o] -> getitem l i = Ok o.
Proof.
  intros Hi Hs.
  destruct (Z.lt_ge_cases i (len l)) as [Hlt|Hge].
  - destruct (getitem_ok l i) as (o' & Hg & Hs'); [lia|].
    rewrite Hs in Hs'; injection Hs' as <-; exact Hg.
  - apply (f_equal len) in Hs.
    rewrite len_slice_gen in Hs by lia.
    change (len [o]) with 1 in Hs; lia.
Qed.

Lemma to_integer_of_to_octets (i n : Z) :
  0 <= n -> to_integer (to_octets i n) 8 = i mod 2 ^ (8 * n).
Proof.
  intros Hn; rewrite <- (Z2Nat.id n) by exact Hn.
  apply to_integer_to_octets_nat.
Qed.

Lemma to_integer_of_to_octets_small (i n : Z) :
  0 <= n -> 0 <= i < 2 ^ (8 * n) -> to_integer (to_octets i n) 8 = i.
Proof.
  intros Hn Hi; rewrite to_integer_of_to_octets by exact Hn.
  now apply Z.mod_small.
Qed.

(** The data-offset byte gives its three fields back. *)
Lemma tcp_offset_byte_fields (data_offset reserved : Z) (ns : bool) :
  0 <= data_offset < 16 -> 0 <= reserved < 8 ->
  let b := Z.land (Z.shiftl data_offset 4 + Z.shiftl reserved 1
                   + int_of_bool ns) 255 in
  to_bits b 0 4 8 = data_offset /\
  to_bits b 4 3 8 = reserved /\
  bool_of_int (to_bits b 7 1 8) = ns.
Proof.
  intros Hd Hr b; subst b.
  unfold to_bits, bool_of_int.
  change (Z.shiftl 1 4 - 1) with (Z.ones 4).
  change (Z.shiftl 1 3 - 1) with (Z.ones 3).
  change (Z.shiftl 1 1 - 1) with (Z.ones 1).
  change 255 with (Z.ones 8).
  change (8 - 0 - 4) with 4; change (8 - 4 - 3) with 1;
    change (8 - 7 - 1) with 0.
  rewrite Z.shiftr_0_r, !Z.land_ones, !Z.shiftr_div_pow2,
    !Z.shiftl_mul_pow2 by lia.
  change (2 ^ 8) with 256; change (2 ^ 4) with 16; change (2 ^ 3) with 8;
    change (2 ^ 1) with 2.
  assert (0 <= int_of_bool ns <= 1) as Hn by (destruct ns; cbn; lia).
  set (n := int_of_bool ns) in *.
  assert ((data_offset * 16 + reserved * 2 + n) mod 256
          = data_offset * 16 + reserved * 2 + n) as ->
    by (apply Z.mod_small; lia).
  repeat split.
  - Z.div_mod_to_equations; lia.
  - Z.div_mod_to_equations; lia.
  - assert ((data_offset * 16 + reserved * 2 + n) mod 2 = n) as ->
      by (Z.div_mod_to_equations; lia).
    subst n; now destruct ns.
Qed.

(** The flags byte gives its eight flags back. *)
Lemma tcp_flags_byte_fields (cwr ece urg ack psh rst syn fin : bool) :
  let b := Z.land (to_integer (map int_of_bool
                     [cwr; ece; urg; ack; psh; rst; syn; fin]) 1) 255 in
  bool_of_int (to_bits b 0 1 8) = cwr /\
  bool_of_int (to_bits b 1 1 8) = ece /\
  bool_of_int (to_bits b 2 1 8) = urg /\
  bool_of_int (to_bits b 3 1 8) = ack /\
  bool_of_int (to_bits b 4 1 8) = psh /\
  bool_of_int (to_bits b 5 1 8) = rst /\
  bool_of_int (to_bits b 6 1 8) = syn /\
  bool_of_int (to_bits b 7 1 8) = fin.
Proof.
  destruct cwr, ece, urg, ack, psh, rst, syn, fin;
    vm_compute; repeat split.
Qed.

Ltac piece ps k :=
  apply (slice_piece ps k);
  [ unfold ps; cbn [length]; lia
  | reflexivity
  | first [ reflexivity
          | unfold ps; cbn [nth]; rewrite ?len_to_octets; lia ] ].

Lemma TCPPacket_init_raw (t : TCPPacket.t) :
  TCPPacket_in_range t ->
  5 <= TCPPacket.data_offset t ->
  TCPPacket.init (TCPPacket.raw t) = Ok (TCPPacket_reparsed t).
Proof.
  intros (Hsp & Hdp & Hseq & Hack & Hdo & Hres & Hwin & Hck & Hurg & Hopt & Hpay)
         Hdo5.
  rewrite Z.max_r in Hopt by lia.
  set (X := Z.shiftl (TCPPacket.data_offset t) 4 +
            Z.shiftl (TCPPacket.reserved t) 1 +
            int_of_bool (TCPPacket.NS t)).
  set (F := to_integer (map int_of_bool
              [TCPPacket.CWR t; TCPPacket.ECE t; TCPPacket.URG t;
               TCPPacket.ACK t; TCPPacket.PSH t; TCPPacket.RST t;
               TCPPacket.SYN t; TCPPacket.FIN t]) 1).
  set (ps := [to_octets (TCPPacket.source_port t) 2;
              to_octets (TCPPacket.dest_port t) 2;
              to_octets (TCPPacket.sequence t) 4;
              to_octets (TCPPacket.ack_number t) 4;
              [Z.land X 255]; [Z.land F 255];
              to_octets (TCPPacket.window_size t) 2;
              to_octets (TCPPacket.checksum t) 2;
              to_octets (TCPPacket.urgent_pointer t) 2;
              to_octets (TCPPacket.options t)
                        ((TCPPacket.data_offset t - 5) * 4)]).
  assert (TCPPacket.raw t = concat ps ++ TCPPacket.payload t) as Hraw.
  { unfold TCPPacket.raw, TCPPacket.raw_header, ps; cbn [concat].
    rewrite app_nil_r, <- !app_assoc; reflexivity. }
  set (r := TCPPacket.raw t) in *.
  assert (slice r 0 2 = nth 0 ps []) as S0 by (rewrite Hraw; piece ps 0%nat).
  assert (slice r 2 4 = nth 1 ps []) as S1 by (rewrite Hraw; piece ps 1%nat).
  assert (slice r 4 8 = nth 2 ps []) as S2 by (rewrite Hraw; piece ps 2%nat).
  assert (slice r 8 12 = nth 3 ps []) as S3 by (rewrite Hraw; piece ps 3%nat).
  assert (slice r 12 (12 + 1) = nth 4 ps []) as S4
    by (rewrite Hraw; piece ps 4%nat).
  assert (slice r 13 (13 + 1) = nth 5 ps []) as S5
    by (rewrite Hraw; piece ps 5%nat).
  assert (slice r 14 16 = nth 6 ps []) as S6 by (rewrite Hraw; piece ps 6%nat).
  assert (slice r 16 18 = nth 7 ps []) as S7 by (rewrite Hraw; piece ps 7%nat).
  assert (slice r 18 20 = nth 8 ps []) as S8 by (rewrite Hraw; piece ps 8%nat).
  assert (slice r 20 (20 + 4 * (TCPPacket.data_offset t - 5)) = nth 9 ps [])
    as S9 by (rewrite Hraw; piece ps 9%nat).
  assert (slice_from r (20 + 4 * (TCPPacket.data_offset t - 5))
          = TCPPacket.payload t) as S10.
  { rewrite Hraw; apply slice_from_pieces.
    unfold ps; cbn [concat]; rewrite !len_app, !len_to_octets.
    change (len [Z.land X 255]) with 1; change (len [Z.land F 255]) with 1.
    change (len []) with 0; lia. }
  cbn [nth ps] in S0, S1, S2, S3, S4, S5, S6, S7, S8, S9.
  pose proof (tcp_offset_byte_fields _ _ (TCPPacket.NS t) Hdo Hres)
    as (B1 & B2 & B3).
  pose proof (tcp_flags_byte_fields
                (TCPPacket.CWR t) (TCPPacket.ECE t) (TCPPacket.URG t)
                (TCPPacket.ACK t) (TCPPacket.PSH t) (TCPPacket.RST t)
                (TCPPacket.SYN t) (TCPPacket.FIN t))
    as (F0 & F1 & F2 & F3 & F4 & F5 & F6 & F7).
  cbv zeta in B1, B2, B3, F0, F1, F2, F3, F4, F5, F6, F7.
  fold X in B1, B2, B3; fold F in F0, F1, F2, F3, F4, F5, F6, F7.
  unfold TCPPacket.init; cbv zeta.
  rewrite (getitem_of_slice r 12 _ ltac:(lia) S4); cbn [bind Ok].
  rewrite (getitem_of_slice r 13 _ ltac:(lia) S5); cbn [bind Ok].
  rewrite B1, B2, B3, F0, F1, F2, F3, F4, F5, F6, F7.
  rewrite S0, S1, S2, S3, S6, S7, S8, S9, S10.
  rewrite !to_integer_of_to_octets_small by lia.
  reflexivity.
Qed.

Lemma to_integer_nibbles (a b : Z) :
  to_integer [a; b] 4 = Z.shiftl a 4 + b.
Proof.
  rewrite !to_integer_cons.
  change (len [b] * 4) with 4; change (len [] * 4) with 0.
  rewrite Z.shiftl_0_r; change (to_integer [] 4) with 0; lia.
Qed.

(** The version / IHL byte gives its two fields back. *)
Lemma ip_version_byte_fields (version ihl : Z) :
  0 <= version < 16 -> 0 <= ihl < 16 ->
  let b := Z.land (to_integer [version; ihl] 4) 255 in
  to_bits b 0 4 8 = version /\ to_bits b 4 4 8 = ihl.
Proof.
  intros Hv Hi b; subst b.
  rewrite to_integer_nibbles; unfold to_bits.
  change (Z.shiftl 1 4 - 1) with (Z.ones 4); change 255 with (Z.ones 8).
  change (8 - 0 - 4) with 4; change (8 - 4 - 4) with 0.
  rewrite Z.shiftr_0_r, !Z.land_ones, !Z.shiftr_div_pow2,
    !Z.shiftl_mul_pow2 by lia.
  change (2 ^ 8) with 256; change (2 ^ 4) with 16.
  rewrite (Z.mod_small (version * 16 + ihl) 256) by lia.
  split; Z.div_mod_to_equations; lia.
Qed.

(** The DSCP / ECN byte gives its two fields back. *)
Lemma ip_dscp_byte_fields (dscp ecn : Z) :
  0 <= dscp < 64 -> 0 <= ecn < 4 ->
  let b := Z.land (Z.shiftl dscp 2 + ecn) 255 in
  to_bits b 0 6 8 = dscp /\ to_bits b 6 2 8 = ecn.
Proof.
  intros Hd He b; subst b; unfold to_bits.
  change (Z.shiftl 1 6 - 1) with (Z.ones 6);
    change (Z.shiftl 1 2 - 1) with (Z.ones 2); change 255 with (Z.ones 8).
  change (8 - 0 - 6) with 2; change (8 - 6 - 2) with 0.
  rewrite Z.shiftr_0_r, !Z.land_ones, !Z.shiftr_div_pow2,
    !Z.shiftl_mul_pow2 by lia.
  change (2 ^ 8) with 256; change (2 ^ 6) with 64; change (2 ^ 2) with 4.
  rewrite (Z.mod_small (dscp * 4 + ecn) 256) by lia.
  split; Z.div_mod_to_equations; lia.
Qed.

(** The flags / fragment-offset word gives its two fields back. *)
Lemma ip_fragment_word_fields (flags fragment_offset : Z) :
  0 <= flags < 8 -> 0 <= fragment_offset < 8192 ->
  let v := Z.shiftl flags 13 + fragment_offset in
  0 <= v < 65536 /\
  to_bits v 0 3 16 = flags /\ to_bits v 3 13 16 = fragment_offset.
Proof.
  intros Hf Ho v; subst v; unfold to_bits.
  change (Z.shiftl 1 3 - 1) with (Z.ones 3);
    change (Z.shiftl 1 13 - 1) with (Z.ones 13).
  change (16 - 0 - 3) with 13; change (16 - 3 - 13) with 0.
  rewrite Z.shiftr_0_r, !Z.land_ones, !Z.shiftr_div_pow2,
    !Z.shiftl_mul_pow2 by lia.
  change (2 ^ 13) with 8192; change (2 ^ 3) with 8.
  repeat split; try lia; Z.div_mod_to_equations; lia.
Qed.

Lemma land_255_byte (b : Z) : 0 <= b < 256 -> Z.land b 255 = b.
Proof.
  intros Hb; change 255 with (Z.ones 8).
  rewrite Z.land_ones by lia; now apply Z.mod_small.
Qed.

Lemma IPv4Address_init_address (a : IPv4Address.t) :
  IPv4Address.init (IPv4Address.address a) = a.
Proof. destruct a as [l]; unfold IPv4Address.init; cbn; now rewrite map_id. Qed.

Lemma MACAddress_init_address (a : MACAddress.t) :
  MACAddress.init (MACAddress.address a) = a.
Proof. destruct a as [l]; unfold MACAddress.init; cbn; now rewrite map_id. Qed.

Lemma IPv4Packet_init_raw (p : IPv4Packet.t) :
  IPv4Packet_in_range p ->
  IPv4Packet.version p = 4 -> IPv4Packet.protocol p = 6 ->
  5 <= IPv4Packet.ihl p ->
  len (IPv4Address.address (IPv4Packet.source_address p)) = 4 ->
  len (IPv4Address.address (IPv4Packet.dest_address p)) = 4 ->
  TCPPacket_in_range (IPv4Packet.payload p) ->
  5 <= TCPPacket.data_offset (IPv4Packet.payload p) ->
  IPv4Packet.init (IPv4Packet.raw p) = Ok (IPv4Packet_reparsed p).
Proof.
  intros (Hver & Hihl & Hdscp & Hecn & Hlen & Hid & Hfl & Hfo & Httl & Hpr &
          Hck & Hsb & Hdb & _ & _ & Hopt)
         Hv4 Hp6 Hihl5 Ls Ld Htcp Hdo5.
  rewrite Z.max_r in Hopt by lia.
  set (V := to_integer [IPv4Packet.version p; IPv4Packet.ihl p] 4).
  set (D := Z.shiftl (IPv4Packet.dscp p) 2 + IPv4Packet.ecn p).
  set (W := Z.shiftl (IPv4Packet.flags p) 13 + IPv4Packet.fragment_offset p).
  set (ps := [[Z.land V 255]; [Z.land D 255];
              to_octets (IPv4Packet.length p) 2;
              to_octets (IPv4Packet.identification p) 2;
              to_octets W 2;
              [Z.land (IPv4Packet.ttl p) 255];
              [Z.land (IPv4Packet.protocol p) 255];
              to_octets (IPv4Packet.checksum p) 2;
              IPv4Address.address (IPv4Packet.source_address p);
              IPv4Address.address (IPv4Packet.dest_address p);
              to_octets (IPv4Packet.options p)
                        ((IPv4Packet.ihl p - 5) * 4)]).
  assert (IPv4Packet.raw p
          = concat ps ++ TCPPacket.raw (IPv4Packet.payload p)) as Hraw.
  { unfold IPv4Packet.raw, IPv4Packet.raw_header, ps; cbn [concat].
    rewrite app_nil_r, <- !app_assoc; reflexivity. }
  set (r := IPv4Packet.raw p) in *.
  assert (slice r 0 (0 + 1) = nth 0 ps []) as S0
    by (rewrite Hraw; piece ps 0%nat).
  assert (slice r 1 (1 + 1) = nth 1 ps []) as S1
    by (rewrite Hraw; piece ps 1%nat).
  assert (slice r 2 4 = nth 2 ps []) as S2 by (rewrite Hraw; piece ps 2%nat).
  assert (slice r 4 6 = nth 3 ps []) as S3 by (rewrite Hraw; piece ps 3%nat).
  assert (slice r 6 8 = nth 4 ps []) as S4 by (rewrite Hraw; piece ps 4%nat).
  assert (slice r 8 (8 + 1) = nth 5 ps []) as S5
    by (rewrite Hraw; piece ps 5%nat).
  assert (slice r 9 (9 + 1) = nth 6 ps []) as S6
    by (rewrite Hraw; piece ps 6%nat).
  assert (slice r 10 12 = nth 7 ps []) as S7 by (rewrite Hraw; piece ps 7%nat).
  assert (slice r 12 16 = nth 8 ps []) as S8.
  { rewrite Hraw; apply (slice_piece ps 8%nat);
      [unfold ps; cbn [length]; lia|reflexivity|].
    unfold ps; cbn [nth]; rewrite Ls; reflexivity. }
  assert (slice r 16 20 = nth 9 ps []) as S9.
  { rewrite Hraw; apply (slice_piece ps 9%nat);
      [unfold ps; cbn [length]; lia| |].
    - unfold ps; cbn [firstn concat]; rewrite !len_app, !len_to_octets, Ls.
      reflexivity.
    - unfold ps; cbn [nth]; rewrite Ld; reflexivity. }
  assert (slice r 20 (20 + 4 * (IPv4Packet.ihl p - 5)) = nth 10 ps []) as S10.
  { rewrite Hraw; apply (slice_piece ps 10%nat);
      [unfold ps; cbn [length]; lia| |].
    - unfold ps; cbn [firstn concat];
        rewrite !len_app, !len_to_octets, Ls, Ld.
      reflexivity.
    - unfold ps; cbn [nth]; rewrite len_to_octets; lia. }
  assert (slice_from r (20 + 4 * (IPv4Packet.ihl p - 5))
          = TCPPacket.raw (IPv4Packet.payload p)) as S11.
  { rewrite Hraw; apply slice_from_pieces.
    unfold ps; cbn [concat]; rewrite !len_app, !len_to_octets, Ls, Ld.
    change (len [Z.land V 255]) with 1; change (len [Z.land D 255]) with 1.
    change (len [Z.land (IPv4Packet.ttl p) 255]) with 1.
    change (len [Z.land (IPv4Packet.protocol p) 255]) with 1.
    change (len []) with 0; lia. }
  cbn [nth ps] in S0, S1, S2, S3, S4, S5, S6, S7, S8, S9, S10.
  pose proof (ip_version_byte_fields _ _ Hver Hihl) as (B1 & B2).
  pose proof (ip_dscp_byte_fields _ _ Hdscp Hecn) as (B3 & B4).
  pose proof (ip_fragment_word_fields _ _ Hfl Hfo) as (B5 & B6 & B7).
  cbv zeta in B1, B2, B3, B4, B5, B6, B7.
  fold V in B1, B2; fold D in B3, B4; fold W in B5, B6, B7.
  rewrite (land_255_byte _ Httl) in S5.
  rewrite (land_255_byte _ Hpr) in S6.
  unfold IPv4Packet.init; cbv zeta.
  rewrite (getitem_of_slice r 0 _ ltac:(lia) S0); cbn [bind Ok].
  rewrite B1, B2, Hv4.
  change (negb (4 =? 4)) with false; cbv iota.
  rewrite (getitem_of_slice r 1 _ ltac:(lia) S1); cbn [bind Ok].
  rewrite (getitem_of_slice r 8 _ ltac:(lia) S5); cbn [bind Ok].
  rewrite (getitem_of_slice r 9 _ ltac:(lia) S6); cbn [bind Ok].
  rewrite Hp6 at 1.
  change (negb (6 =? 6)) with false; cbv iota.
  rewrite S11, (TCPPacket_init_raw _ Htcp Hdo5); cbn [bind Ok].
  rewrite B3, B4, S2, S3, S4, S7, S8, S9, S10.
  rewrite !IPv4Address_init_address.
  rewrite !to_integer_of_to_octets_small by lia.
  rewrite B6, B7.
  unfold IPv4Packet_reparsed; rewrite Hv4; reflexivity.
Qed.

Lemma EthernetFrame_init_raw (f : EthernetFrame.t) :
  len (MACAddress.address (EthernetFrame.dest_address f)) = 6 ->
  len (MACAddress.address (EthernetFrame.source_address f)) = 6 ->
  EthernetFrame.ethertype f = 2048 ->
  EthernetFrame.init (EthernetFrame.raw f)
  = (payload <- IPv4Packet.init (IPv4Packet.raw (EthernetFrame.payload f)) ;;
     Ok {| EthernetFrame._raw := EthernetFrame.raw f;
           EthernetFrame.dest_address := EthernetFrame.dest_address f;
           EthernetFrame.source_address := EthernetFrame.source_address f;
           EthernetFrame.ethertype := 2048;
           EthernetFrame.payload := payload |}).
Proof.
  intros Ld Ls Het.
  set (ps := [MACAddress.address (EthernetFrame.dest_address f);
              MACAddress.address (EthernetFrame.source_address f);
              [8]; [0]]).
  assert (EthernetFrame.raw f
          = concat ps ++ IPv4Packet.raw (EthernetFrame.payload f)) as Hraw.
  { unfold EthernetFrame.raw, ps; cbn [concat]; rewrite Het.
    change (to_octets 2048 2) with ([8] ++ [0]).
    rewrite app_nil_r, <- !app_assoc; reflexivity. }
  set (r := EthernetFrame.raw f) in *.
  assert (slice r 0 6 = nth 0 ps []) as S0.
  { rewrite Hraw; apply (slice_piece ps 0%nat);
      [unfold ps; cbn [length]; lia|reflexivity|].
    unfold ps; cbn [nth]; rewrite Ld; reflexivity. }
  assert (slice r 6 12 = nth 1 ps []) as S1.
  { rewrite Hraw; apply (slice_piece ps 1%nat);
      [unfold ps; cbn [length]; lia| |].
    - unfold ps; cbn [firstn concat]; rewrite !len_app, Ld; reflexivity.
    - unfold ps; cbn [nth]; rewrite Ls; reflexivity. }
  assert (slice r 12 (12 + 1) = nth 2 ps []) as S2.
  { rewrite Hraw; apply (slice_piece ps 2%nat);
      [unfold ps; cbn [length]; lia| |reflexivity].
    unfold ps; cbn [firstn concat]; rewrite !len_app, Ld, Ls; reflexivity. }
  assert (slice r 13 (13 + 1) = nth 3 ps []) as S3.
  { rewrite Hraw; apply (slice_piece ps 3%nat);
      [unfold ps; cbn [length]; lia| |reflexivity].
    unfold ps; cbn [firstn concat]; rewrite !len_app, Ld, Ls; reflexivity. }
  assert (slice_from r 14 = IPv4Packet.raw (EthernetFrame.payload f)) as S4.
  { rewrite Hraw; apply slice_from_pieces.
    unfold ps; cbn [concat]; rewrite !len_app, Ld, Ls; reflexivity. }
  cbn [nth ps] in S0, S1, S2, S3.
  unfold EthernetFrame.init; cbv zeta.
  rewrite (getitem_of_slice r 12 _ ltac:(lia) S2); cbn [bind Ok].
  rewrite (getitem_of_slice r 13 _ ltac:(lia) S3); cbn [bind Ok].
  change (negb (Z.shiftl 8 8 + 0 =? 2048)) with false; cbv iota.
  rewrite S0, S1, S4, !MACAddress_init_address.
  reflexivity.
Qed.

(** X14.  A TCP segment whose fields fit their widths and whose data
    offset is at least 5 is decoded back from its own [raw()]: the
    constructor, run on the serialized bytes, builds a segment with the same
    fields. *)
Theorem TCPPacket_decode_serialized (t : TCPPacket.t) :
  TCPPacket_in_range t ->
  5 <= TCPPacket.data_offset t ->
  TCPPacket.init (TCPPacket.raw t) = Ok (TCPPacket_reparsed t) /\
  TCPPacket.raw (TCPPacket_reparsed t) = TCPPacket.raw t.
Proof.
  intros Hr Hdo; split; [now apply TCPPacket_init_raw|reflexivity].
Qed.

(** X15.  An IPv4 packet with version 4, protocol 6, IHL at least 5,
    four-octet addresses and fields that fit their widths, holding a TCP
    segment as in X14, is decoded back from its own [raw()] with the same
    fields in both layers. *)
Theorem IPv4Packet_decode_serialized (p : IPv4Packet.t) :
  IPv4Packet_in_range p ->
  IPv4Packet.version p = 4 -> IPv4Packet.protocol p = 6 ->
  5 <= IPv4Packet.ihl p ->
  len (IPv4Address.address (IPv4Packet.source_address p)) = 4 ->
  len (IPv4Address.address (IPv4Packet.dest_address p)) = 4 ->
  TCPPacket_in_range (IPv4Packet.payload p) ->
  5 <= TCPPacket.data_offset (IPv4Packet.payload p) ->
  IPv4Packet.init (IPv4Packet.raw p) = Ok (IPv4Packet_reparsed p) /\
  IPv4Packet.raw (IPv4Packet_reparsed p) = IPv4Packet.raw p.
Proof.
  intros; split; [now apply IPv4Packet_init_raw|reflexivity].
Qed.

Lemma EthernetFrame_init_raw_ok (f : EthernetFrame.t) :
  len (MACAddress.address (EthernetFrame.dest_address f)) = 6 ->
  len (MACAddress.address (EthernetFrame.source_address f)) = 6 ->
  EthernetFrame.ethertype f = 2048 ->
  let p := EthernetFrame.payload f in
  IPv4Packet_in_range p ->
  IPv4Packet.version p = 4 -> IPv4Packet.protocol p = 6 ->
  5 <= IPv4Packet.ihl p ->
  len (IPv4Address.address (IPv4Packet.source_address p)) = 4 ->
  len (IPv4Address.address (IPv4Packet.dest_address p)) = 4 ->
  TCPPacket_in_range (IPv4Packet.payload p) ->
  5 <= TCPPacket.data_offset (IPv4Packet.payload p) ->
  EthernetFrame.init (EthernetFrame.raw f) = Ok (EthernetFrame_reparsed f).
Proof.
  intros Ld Ls Het p Hr Hv Hp Hi Hsa Hda Ht Hd.
  rewrite (EthernetFrame_init_raw f Ld Ls Het); fold p.
  rewrite (IPv4Packet_init_raw p Hr Hv Hp Hi Hsa Hda Ht Hd); cbn [bind Ok].
  unfold EthernetFrame_reparsed; rewrite Het; reflexivity.
Qed.

(** X16.  A frame whose two MAC addresses hold six octets each, with
    ethertype 0x0800, holding a packet as in X15, is decoded back from its
    own [raw()] with the same fields in all three layers, so serializing,
    decoding and serializing again gives the same bytes. *)
Theorem EthernetFrame_decode_serialized (f : EthernetFrame.t) :
  is_bytes (MACAddress.address (EthernetFrame.dest_address f)) = true ->
  is_bytes (MACAddress.address (EthernetFrame.source_address f)) = true ->
  len (MACAddress.address (EthernetFrame.dest_address f)) = 6 ->
  len (MACAddress.address (EthernetFrame.source_address f)) = 6 ->
  EthernetFrame.ethertype f = 2048 ->
  let p := EthernetFrame.payload f in
  IPv4Packet_in_range p ->
  IPv4Packet.version p = 4 -> IPv4Packet.protocol p = 6 ->
  5 <= IPv4Packet.ihl p ->
  len (IPv4Address.address (IPv4Packet.source_address p)) = 4 ->
  len (IPv4Address.address (IPv4Packet.dest_address p)) = 4 ->
  TCPPacket_in_range (IPv4Packet.payload p) ->
  5 <= TCPPacket.data_offset (IPv4Packet.payload p) ->
  EthernetFrame.init (EthernetFrame.raw f) = Ok (EthernetFrame_reparsed f) /\
  EthernetFrame.raw (EthernetFrame_reparsed f) = EthernetFrame.raw f.
Proof.
  intros; split; [now apply EthernetFrame_init_raw_ok|reflexivity].
Qed.

(** * What decoding guarantees *)

Lemma to_bits_bound (v offset length n_bits : Z) :
  0 <= length -> 0 <= to_bits v offset length n_bits < 2 ^ length.
Proof.
  intros Hl; unfold to_bits.
  rewrite Z.shiftl_1_l, Z.sub_1_r, <- Z.ones_equiv, Z.land_ones by lia.
  apply Z.mod_pos_bound, Z.pow_pos_nonneg; lia.
Qed.

Lemma to_integer_slice_bound (octets : bytes) (a b : Z) :
  is_bytes octets = true -> 0 <= a -> 0 <= b ->
  0 <= to_integer (slice octets a b) 8 < 2 ^ (8 * Z.max 0 (b - a)).
Proof.
  intros Hb Ha Hb0.
  pose proof (to_integer_bound _ (is_bytes_slice octets a b Hb)) as [H0 H1].
  split; [exact H0|].
  eapply Z.lt_le_trans; [exact H1|].
  apply Z.pow_le_mono_r; [lia|].
  rewrite len_slice_gen by lia.
  pose proof (len_nonneg octets); lia.
Qed.

Lemma TCPPacket_decoded_in_range (octets : bytes) (t : TCPPacket.t) :
  is_bytes octets = true ->
  TCPPacket.init octets = Ok t ->
  TCPPacket_in_range t.
Proof.
  intros Hb Hinit.
  apply TCPPacket_init_inv in Hinit as (o12 & o13 & _ & _ & ->).
  unfold TCPPacket_in_range; tcp_fields.
  pose proof (to_integer_slice_bound octets 0 2 Hb).
  pose proof (to_integer_slice_bound octets 2 4 Hb).
  pose proof (to_integer_slice_bound octets 4 8 Hb).
  pose proof (to_integer_slice_bound octets 8 12 Hb).
  pose proof (to_integer_slice_bound octets 14 16 Hb).
  pose proof (to_integer_slice_bound octets 16 18 Hb).
  pose proof (to_integer_slice_bound octets 18 20 Hb).
  pose proof (to_bits_bound o12 0 4 8) as Hdo.
  pose proof (to_bits_bound o12 4 3 8).
  change (2 ^ 4) with 16 in Hdo.
  assert (0 <= to_bits o12 0 4 8 < 16) as Hdo' by lia.
  pose proof (to_integer_slice_bound octets 20
                (20 + 4 * (to_bits o12 0 4 8 - 5)) Hb) as Ho.
  replace (20 + 4 * (to_bits o12 0 4 8 - 5) - 20)
    with ((to_bits o12 0 4 8 - 5) * 4) in Ho by lia.
  repeat match goal with |- _ /\ _ => split end;
    try (now apply is_bytes_slice_from);
    try (apply Ho; lia);
    cbn in *; lia.
Qed.

Lemma IPv4Packet_decoded_in_range (octets : bytes) (p : IPv4Packet.t) :
  is_bytes octets = true ->
  IPv4Packet.init octets = Ok p ->
  IPv4Packet_in_range p /\
  IPv4Packet.version p = 4 /\ IPv4Packet.protocol p = 6 /\
  TCPPacket_in_range (IPv4Packet.payload p) /\
  (20 <= len octets ->
   len (IPv4Address.address (IPv4Packet.source_address p)) = 4 /\
   len (IPv4Address.address (IPv4Packet.dest_address p)) = 4).
Proof.
  intros Hb Hinit.
  pose proof (IPv4Packet_decoded_bounds _ _ Hb Hinit)
    as (Hs & Hd & Ls & Ld & Hfull & Hihl & _).
  cbv zeta in Hs, Hd, Ls, Ld, Hfull.
  apply IPv4Packet_init_inv in Hinit
    as (o0 & o1 & ttl & protocol & tcp &
        E0 & Hv & E1 & E8 & E9 & Hp & Etcp & ->).
  ip_fields.
  apply getitem_inv in E8 as [_ S8]; [|lia].
  apply getitem_inv in E9 as [_ S9]; [|lia].
  pose proof (is_bytes_singleton_slice _ _ _ Hb S8).
  pose proof (is_bytes_singleton_slice _ _ _ Hb S9).
  pose proof (to_integer_slice_bound octets 2 4 Hb).
  pose proof (to_integer_slice_bound octets 4 6 Hb).
  pose proof (to_integer_slice_bound octets 10 12 Hb).
  pose proof (to_bits_bound o0 4 4 8).
  pose proof (to_bits_bound o1 0 6 8).
  pose proof (to_bits_bound o1 6 2 8).
  pose proof (to_bits_bound (to_integer (slice octets 6 8) 8) 0 3 16).
  pose proof (to_bits_bound (to_integer (slice octets 6 8) 8) 3 13 16).
  pose proof (to_integer_slice_bound octets 20
                (20 + 4 * (to_bits o0 4 4 8 - 5)) Hb) as Ho.
  replace (20 + 4 * (to_bits o0 4 4 8 - 5) - 20)
    with ((to_bits o0 4 4 8 - 5) * 4) in Ho by lia.
  split; [|split; [exact Hv|split; [exact Hp|split]]].
  - unfold IPv4Packet_in_range; ip_fields.
    repeat match goal with |- _ /\ _ => split end;
      try assumption; try (apply Ho; lia); cbn in *; lia.
  - eapply TCPPacket_decoded_in_range; [|exact Etcp].
    now apply is_bytes_slice_from.
  - exact Hfull.
Qed.

Lemma decoded_frame_bounds (octets : bytes) (f : EthernetFrame.t) :
  is_bytes octets = true ->
  EthernetFrame.init octets = Ok f ->
  let p := EthernetFrame.payload f in
  len (MACAddress.address (EthernetFrame.dest_address f)) = 6 /\
  len (MACAddress.address (EthernetFrame.source_address f)) = 6 /\
  EthernetFrame.ethertype f = 2048 /\
  IPv4Packet.version p = 4 /\ IPv4Packet.protocol p = 6 /\
  (5 <= IPv4Packet.ihl p ->
   len (IPv4Address.address (IPv4Packet.source_address p)) = 4 /\
   len (IPv4Address.address (IPv4Packet.dest_address p)) = 4) /\
  IPv4Packet_in_range p /\
  TCPPacket_in_range (IPv4Packet.payload p).
Proof.
  intros Hb Hinit p; subst p.
  apply EthernetFrame_init_inv in Hinit
    as (o12 & o13 & ip & E12 & E13 & Het & Eip & ->).
  apply getitem_inv in E13 as [L13 _]; [|lia].
  eth_fields.
  pose proof (IPv4Packet_decoded_in_range _ _
                (is_bytes_slice_from _ 14 Hb) Eip)
    as (Hr & Hv & Hp & Ht & Hfull).
  pose proof (len_IPv4Packet_raw_decoded _ _ Eip) as (_ & _ & Hl & _).
  rewrite !map_id, !len_slice by lia.
  repeat match goal with |- _ /\ _ => split end;
    try assumption; try reflexivity.
  intros H; apply Hfull; lia.
Qed.


(** * The forged frame *)

Lemma checksum_range (octets : bytes) : 0 <= checksum octets < 65536.
Proof. rewrite checksum_finish; apply finish_range. Qed.

Lemma forge_reset_in_range (p : IPv4Packet.t) (s : Z) :
  IPv4Packet_in_range p ->
  TCPPacket_in_range (IPv4Packet.payload p) ->
  0 <= s < 4294967296 ->
  IPv4Packet_in_range (TCPPacket_forge_reset s p) /\
  TCPPacket_in_range (IPv4Packet.payload (TCPPacket_forge_reset s p)).
Proof.
  intros (H1 & H2 & H3 & H4 & H5 & H6 & H7 & H8 & H9 & H10 & H11 & H12 &
          H13 & H14 & H15 & H16)
         (T1 & T2 & T3 & T4 & T5 & T6 & T7 & T8 & T9 & T10 & T11) Hs.
  split.
  - unfold IPv4Packet_in_range.
    repeat match goal with |- _ /\ _ => split end;
      first [ assumption | apply H1 | apply H2 | apply H3 | apply H4
            | apply H5 | apply H6 | apply H7 | apply H8 | apply H9
            | apply H10 | apply H16 | apply checksum_range ].
  - unfold TCPPacket_in_range.
    repeat match goal with |- _ /\ _ => split end;
      first [ reflexivity | apply T1 | apply T2 | apply T5 | apply T6
            | apply T10 | apply checksum_range | apply Hs
            | cbn; lia ].
Qed.

(** X18.  A reset forged on a decoded frame whose IHL and data offset are
    at least 5, with a sequence number of 32 bits, serializes to
    [14 + 4 * ihl + 4 * data_offset] bytes that decode again: the
    constructor, run on the forged frame's [raw()], builds a frame with the
    forged fields in all three layers. *)
Theorem forged_frame_decodes (octets : bytes) (f : EthernetFrame.t) (s : Z) :
  is_bytes octets = true ->
  EthernetFrame.init octets = Ok f ->
  5 <= IPv4Packet.ihl (EthernetFrame.payload f) ->
  5 <= TCPPacket.data_offset (IPv4Packet.payload (EthernetFrame.payload f)) ->
  0 <= s < 4294967296 ->
  let f' := EthernetFrame_forge_reset s f in
  EthernetFrame.init (EthernetFrame.raw f') = Ok (EthernetFrame_reparsed f') /\
  len (EthernetFrame.raw f')
  = 14 + 4 * IPv4Packet.ihl (EthernetFrame.payload f)
    + 4 * TCPPacket.data_offset (IPv4Packet.payload (EthernetFrame.payload f)).
Proof.
  intros Hb Hinit Hihl Hdo Hs f'.
  pose proof (decoded_frame_bounds octets f Hb Hinit)
    as (Ld & Ls & Het & Hv & Hp & Hfull & Hr & Ht).
  destruct Hfull as [Ls4 Ld4]; [exact Hihl|].
  destruct (forge_reset_in_range _ s Hr Ht Hs) as [Hr' Ht'].
  split.
  - apply EthernetFrame_init_raw_ok; try assumption.
  - unfold EthernetFrame.raw, IPv4Packet.raw, TCPPacket.raw.
    rewrite !len_app, len_to_octets, len_ip_raw_header, len_tcp_raw_header.
    change (MACAddress.address (EthernetFrame.dest_address f'))
      with (MACAddress.address (EthernetFrame.dest_address f)).
    change (MACAddress.address (EthernetFrame.source_address f'))
      with (MACAddress.address (EthernetFrame.source_address f)).
    change (IPv4Packet.source_address (EthernetFrame.payload f'))
      with (IPv4Packet.source_address (EthernetFrame.payload f)).
    change (IPv4Packet.dest_address (EthernetFrame.payload f'))
      with (IPv4Packet.dest_address (EthernetFrame.payload f)).
    change (IPv4Packet.ihl (EthernetFrame.payload f'))
      with (IPv4Packet.ihl (EthernetFrame.payload f)).
    change (TCPPacket.data_offset
              (IPv4Packet.payload (EthernetFrame.payload f')))
      with (TCPPacket.data_offset
              (IPv4Packet.payload (EthernetFrame.payload f))).
    change (len (TCPPacket.payload
                   (IPv4Packet.payload (EthernetFrame.payload f'))))
      with 0.
    rewrite Ld, Ls, Ls4, Ld4; lia.
Qed.

Lemma to_octets_mod32 (s : Z) :
  to_octets (s mod 4294967296) 4 = to_octets s 4.
Proof.
  change 4294967296 with (2 ^ (8 * 4)).
  rewrite <- (to_integer_of_to_octets s 4) by lia.
  apply to_octets_to_integer; [apply is_bytes_to_octets|].
  now rewrite len_to_octets.
Qed.

(** X19.  The forged frame depends on the sequence value through its low
    32 bits only: [forge_reset(s)] and [forge_reset(s mod 2^32)] give
    frames with the same [raw()] and the same two checksums, for every
    integer [s], negative ones included. *)
Theorem forge_reset_sequence_mod (f : EthernetFrame.t) (s : Z) :
  let f1 := EthernetFrame_forge_reset s f in
  let f2 := EthernetFrame_forge_reset (s mod 4294967296) f in
  EthernetFrame.raw f1 = EthernetFrame.raw f2 /\
  IPv4Packet.checksum (EthernetFrame.payload f1)
    = IPv4Packet.checksum (EthernetFrame.payload f2) /\
  TCPPacket.checksum (IPv4Packet.payload (EthernetFrame.payload f1))
    = TCPPacket.checksum (IPv4Packet.payload (EthernetFrame.payload f2)).
Proof.
  cbv zeta.
  assert (TCPPacket.checksum
            (IPv4Packet.payload
               (TCPPacket_forge_reset s (EthernetFrame.payload f)))
          = TCPPacket.checksum
              (IPv4Packet.payload
                 (TCPPacket_forge_reset (s mod 4294967296)
                    (EthernetFrame.payload f)))) as Hc.
  { unfold TCPPacket_forge_reset, TCPPacket_replace_checksum,
      IPv4Packet.replace_checksum, IPv4Packet.tcp_checksum_bytes,
      TCPPacket.raw, TCPPacket.raw_header.
    cbv zeta.
    cbn [IPv4Packet.set_payload IPv4Packet.set_checksum
         TCPPacket.set_checksum TCPPacket.forge_reset_fields
         IPv4Packet.payload IPv4Packet.source_address
         IPv4Packet.dest_address IPv4Packet.protocol
         TCPPacket.checksum TCPPacket.source_port TCPPacket.dest_port
         TCPPacket.sequence TCPPacket.ack_number TCPPacket.data_offset
         TCPPacket.reserved TCPPacket.NS TCPPacket.CWR TCPPacket.ECE
         TCPPacket.URG TCPPacket.ACK TCPPacket.PSH TCPPacket.RST
         TCPPacket.SYN TCPPacket.FIN TCPPacket.window_size
         TCPPacket.urgent_pointer TCPPacket.options TCPPacket.payload].
    now rewrite to_octets_mod32. }
  split; [|split; [reflexivity|exact Hc]].
  unfold EthernetFrame.raw, IPv4Packet.raw, TCPPacket.raw.
  cbn [EthernetFrame_forge_reset EthernetFrame.payload
       EthernetFrame.dest_address EthernetFrame.source_address
       EthernetFrame.ethertype].
  do 4 f_equal.
  rewrite !tcp_raw_header_split, Hc.
  unfold tcp_header_pre.
  change (TCPPacket.sequence
            (IPv4Packet.payload
               (TCPPacket_forge_reset (s mod 4294967296)
                  (EthernetFrame.payload f))))
    with (s mod 4294967296).
  rewrite to_octets_mod32.
  reflexivity.
Qed.

(** Unfolds the setters and the serializers down to the record fields,
    leaving [checksum], [to_octets] and the list operations folded. *)
Ltac record_level :=
  cbv beta iota zeta delta
    [TCPPacket_forge_reset TCPPacket_replace_checksum
     IPv4Packet.replace_checksum IPv4Packet.set_payload
     IPv4Packet.set_checksum IPv4Packet.raw_header
     IPv4Packet.tcp_checksum_bytes
     TCPPacket.set_checksum TCPPacket.forge_reset_fields
     TCPPacket.raw_header TCPPacket.raw
     IPv4Packet._raw IPv4Packet.version IPv4Packet.ihl IPv4Packet.dscp
     IPv4Packet.ecn IPv4Packet.length IPv4Packet.identification
     IPv4Packet.flags IPv4Packet.fragment_offset IPv4Packet.ttl
     IPv4Packet.protocol IPv4Packet.checksum IPv4Packet.source_address
     IPv4Packet.dest_address IPv4Packet.options IPv4Packet.payload
     TCPPacket._raw TCPPacket.source_port TCPPacket.dest_port
     TCPPacket.sequence TCPPacket.ack_number TCPPacket.data_offset
     TCPPacket.reserved TCPPacket.NS TCPPacket.CWR TCPPacket.ECE
     TCPPacket.URG TCPPacket.ACK TCPPacket.PSH TCPPacket.RST
     TCPPacket.SYN TCPPacket.FIN TCPPacket.window_size
     TCPPacket.checksum TCPPacket.urgent_pointer TCPPacket.options
     TCPPacket.payload].

(** X20.  On a packet whose two address tuples hold octets,
    [forge_reset] absorbs what came before it and needs nothing after it:
    forging after an earlier [forge_reset] or after
    [IPv4Packet.replace_checksum] leaves the packet that forging alone
    leaves, the forged packet is a fixed point of both [replace_checksum]
    methods, and its addresses and payload hold octets again.  When the
    payload is a byte buffer as well, so that [TCPPacket.replace_checksum]
    can serialize it, forging after that method leaves the same packet
    too. *)
Theorem forge_reset_absorbs (p : IPv4Packet.t) (s1 s2 : Z) :
  is_bytes (IPv4Address.address (IPv4Packet.source_address p)) = true ->
  is_bytes (IPv4Address.address (IPv4Packet.dest_address p)) = true ->
  IPv4Packet_octets (TCPPacket_forge_reset s2 p) /\
  TCPPacket_forge_reset s2 (TCPPacket_forge_reset s1 p)
  = TCPPacket_forge_reset s2 p /\
  TCPPacket_forge_reset s2 (IPv4Packet.replace_checksum p)
  = TCPPacket_forge_reset s2 p /\
  IPv4Packet.replace_checksum (TCPPacket_forge_reset s2 p)
  = TCPPacket_forge_reset s2 p /\
  TCPPacket_replace_checksum (TCPPacket_forge_reset s2 p)
  = TCPPacket_forge_reset s2 p /\
  (is_bytes (TCPPacket.payload (IPv4Packet.payload p)) = true ->
   TCPPacket_forge_reset s2 (TCPPacket_replace_checksum p)
   = TCPPacket_forge_reset s2 p).
Proof.
  intros Hs Hd.
  split; [repeat split; assumption|].
  clear Hs Hd.
  destruct p as [r v i d e l id fl fo t pr c sa da o pl]; destruct pl.
  record_level; repeat split.
Qed.

(** X21.  On a packet whose address tuples and TCP payload hold octets,
    recomputing a checksum twice is recomputing it once, in either layer,
    and the two layers' recomputations commute: the IPv4 header checksum
    does not cover the TCP checksum, and the TCP checksum does not cover
    the IPv4 header checksum.  Each recomputation leaves the addresses and
    the payload as they were, so the next call finds octets again. *)
Theorem replace_checksum_compose (p : IPv4Packet.t) :
  IPv4Packet_octets p ->
  IPv4Packet_octets (IPv4Packet.replace_checksum p) /\
  IPv4Packet_octets (TCPPacket_replace_checksum p) /\
  IPv4Packet.replace_checksum (IPv4Packet.replace_checksum p)
    = IPv4Packet.replace_checksum p /\
  TCPPacket_replace_checksum (TCPPacket_replace_checksum p)
    = TCPPacket_replace_checksum p /\
  TCPPacket_replace_checksum (IPv4Packet.replace_checksum p)
    = IPv4Packet.replace_checksum (TCPPacket_replace_checksum p).
Proof.
  intros (Hs & Hd & Hp).
  split; [repeat split; assumption|].
  split; [repeat split; assumption|].
  repeat split.
Qed.

Lemma is_bytes_ip_raw_header (p : IPv4Packet.t) :
  is_bytes (IPv4Address.address (IPv4Packet.source_address p)) = true ->
  is_bytes (IPv4Address.address (IPv4Packet.dest_address p)) = true ->
  is_bytes (IPv4Packet.raw_header p) = true.
Proof.
  intros Hs Hd; unfold IPv4Packet.raw_header.
  now rewrite !is_bytes_app, !is_bytes_to_octets, Hs, Hd.
Qed.

Lemma is_bytes_tcp_raw_header (t : TCPPacket.t) :
  is_bytes (TCPPacket.raw_header t) = true.
Proof.
  unfold TCPPacket.raw_header.
  now rewrite !is_bytes_app, !is_bytes_to_octets.
Qed.

(** X22.  What [raw()] returns for a frame decoded from a byte buffer is a
    byte buffer again, before and after [forge_reset] with any integer
    sequence value: every element is an unsigned 8-bit value, so no
    [bytes(...)] in the serializers raises. *)
Theorem raw_is_bytes (octets : bytes) (f : EthernetFrame.t) (s : Z) :
  is_bytes octets = true ->
  EthernetFrame.init octets = Ok f ->
  is_bytes (EthernetFrame.raw f) = true /\
  is_bytes (EthernetFrame.raw (EthernetFrame_forge_reset s f)) = true.
Proof.
  intros Hb Hinit.
  pose proof (decoded_frame_bounds octets f Hb Hinit)
    as (_ & _ & _ & _ & _ & _ & Hr & Ht).
  pose proof Hr as (_ & _ & _ & _ & _ & _ & _ & _ & _ & _ & _ & Hsb & Hdb & _).
  pose proof Ht as (_ & _ & _ & _ & _ & _ & _ & _ & _ & _ & Hpay).
  apply EthernetFrame_init_inv in Hinit
    as (o12 & o13 & ip & _ & _ & _ & _ & ->).
  cbn [EthernetFrame.payload] in *.
  unfold EthernetFrame.raw, IPv4Packet.raw, TCPPacket.raw.
  cbn [EthernetFrame_forge_reset EthernetFrame.dest_address
       EthernetFrame.source_address EthernetFrame.ethertype
       EthernetFrame.payload MACAddress.init MACAddress.address].
  rewrite !is_bytes_app, !map_id, !is_bytes_to_octets,
    !is_bytes_tcp_raw_header, !is_bytes_slice by exact Hb.
  rewrite (is_bytes_ip_raw_header ip) by assumption.
  rewrite (is_bytes_ip_raw_header (TCPPacket_forge_reset s ip))
    by assumption.
  rewrite Hpay; split; reflexivity.
Qed.

(** ** Address text and indexing *)

Lemma str_len_append (s1 s2 : string) :
  str_len (String.append s1 s2) = str_len s1 + str_len s2.
Proof.
  unfold str_len; induction s1 as [|c s1 IH]; cbn [String.append String.length].
  - lia.
  - lia.
Qed.

Lemma join_cons2 (sep x y : string) (l : list string) :
  join sep (x :: y :: l)
  = String.append x (String.append sep (join sep (y :: l))).
Proof. reflexivity. Qed.

Lemma str_split_no_sep (sep : ascii) (x : string) :
  str_mem sep x = false -> str_split sep x = [x].
Proof.
  induction x as [|c x IH]; cbn [str_mem str_split]; [reflexivity|].
  intros H; apply orb_false_iff in H as [-> H].
  now rewrite IH.
Qed.

Lemma str_split_append (sep : ascii) (x rest : string) :
  str_mem sep x = false ->
  str_split sep (String.append x (String sep rest))
  = x :: str_split sep rest.
Proof.
  induction x as [|c x IH]; cbn [str_mem String.append].
  - intros _; cbn [str_split]; now rewrite Ascii.eqb_refl.
  - intros H; apply orb_false_iff in H as [Hc H].
    cbn [str_split]; rewrite Hc, IH by exact H; reflexivity.
Qed.


Lemma mac_octet_format (o : Z) :
  0 <= o < 256 ->
  rjust (str_slice_from (hex o) 2) 2 "0" = two_hex_digits o /\
  str_mem ":" (two_hex_digits o) = false /\
  int_of_hex (two_hex_digits o) = Some o.
Proof.
  intros Ho.
  pose proof (byte_cases
    (fun o => String.eqb (rjust (str_slice_from (hex o) 2) 2 "0")
                         (two_hex_digits o) &&
              negb (str_mem ":" (two_hex_digits o)) &&
              match int_of_hex (two_hex_digits o) with
              | Some v => v =? o
              | None => false
              end)) as H.
  specialize (H ltac:(vm_compute; reflexivity) o Ho); cbv beta in H.
  apply andb_true_iff in H as [H H3].
  apply andb_true_iff in H as [H1 H2].
  apply String.eqb_eq in H1; apply negb_true_iff in H2.
  split; [exact H1|]; split; [exact H2|].
  destruct (int_of_hex (two_hex_digits o)) as [v|]; [|discriminate].
  apply Z.eqb_eq in H3; now subst.
Qed.


(** Splitting a joined list of separator-free pieces gives the pieces back. *)
Lemma str_split_join (sep : ascii) (l : list string) :
  l <> [] ->
  (forall x, In x l -> str_mem sep x = false) ->
  str_split sep (join (String sep EmptyString) l) = l.
Proof.
  induction l as [|x l IH]; [congruence|].
  intros _ Hl.
  destruct l as [|y l].
  - cbn [join String.concat]; apply str_split_no_sep, Hl; now left.
  - rewrite join_cons2.
    change (String.append (String sep EmptyString) ?r) with (String sep r).
    rewrite str_split_append by (apply Hl; now left).
    rewrite IH; [reflexivity|discriminate|].
    intros z Hz; apply Hl; now right.
Qed.

Lemma is_bytes_In (l : list Z) (o : Z) :
  is_bytes l = true -> In o l -> 0 <= o < 256.
Proof.
  unfold is_bytes; rewrite forallb_forall; intros H Ho.
  specialize (H o Ho); unfold is_byte in H; lia.
Qed.

Lemma str_len_join_two_hex (l : list Z) :
  str_len (join ":" (map two_hex_digits l)) = Z.max 0 (3 * len l - 1).
Proof.
  induction l as [|x l IH]; [reflexivity|].
  destruct l as [|y l]; [reflexivity|].
  cbn [map] in *; rewrite join_cons2, !str_len_append, IH.
  unfold len; cbn [length]; change (str_len (two_hex_digits x)) with 2.
  change (str_len ":") with 1; lia.
Qed.

(** X23.  [str] of a MAC address of octets prints each octet as exactly
    two lowercase hexadecimal digits, high nibble first, with [:] between
    octets: [n] octets give [3 n - 1] characters (none for the empty
    address), and splitting the text at [:] and reading each piece as a
    hexadecimal number gives the octets back. *)
Theorem MACAddress_str_format (self : MACAddress.t) :
  is_bytes (MACAddress.address self) = true ->
  MACAddress_str self
  = join ":" (map two_hex_digits (MACAddress.address self)) /\
  str_len (MACAddress_str self)
  = Z.max 0 (3 * len (MACAddress.address self) - 1) /\
  (MACAddress.address self <> [] ->
   map int_of_hex (str_split ":" (MACAddress_str self))
   = map Some (MACAddress.address self)).
Proof.
  destruct self as [l]; unfold MACAddress_str; cbn [MACAddress.address].
  intros Hb.
  assert (map (fun o => rjust (str_slice_from (hex o) 2) 2 "0") l
          = map two_hex_digits l) as ->.
  { apply map_ext_in; intros o Ho.
    apply mac_octet_format, (is_bytes_In l); assumption. }
  split; [reflexivity|].
  split; [apply str_len_join_two_hex|].
  intros Hne.
  rewrite str_split_join.
  - rewrite map_map; apply map_ext_in; intros o Ho.
    apply mac_octet_format, (is_bytes_In l); assumption.
  - destruct l; [congruence|discriminate].
  - intros x Hx; apply in_map_iff in Hx as (o & <- & Ho).
    apply mac_octet_format, (is_bytes_In l); assumption.
Qed.


Lemma getitem_slice (l : list Z) (a b i : Z) :
  0 <= a -> 0 <= i -> a + i < b -> b <= len l ->
  getitem (slice l a b) i = getitem l (a + i).
Proof.
  intros Ha Hi Hab Hb.
  pose proof (len_slice l a b ltac:(lia) Hb) as Hl.
  unfold getitem; cbv zeta.
  assert ((i <? 0) = false) as E by lia; rewrite !E; clear E.
  assert ((a + i <? 0) = false) as E by lia; rewrite !E; clear E.
  unfold slice; cbv zeta; rewrite !clamp_in by lia.
  rewrite nth_error_firstn, nth_error_skipn.
  assert ((Z.to_nat i <? Z.to_nat (b - a))%nat = true) as ->
    by (apply Nat.ltb_lt; lia).
  now replace (Z.to_nat a + Z.to_nat i)%nat with (Z.to_nat (a + i)) by lia.
Qed.

Lemma getitem_negative (l : list Z) (i : Z) :
  i < 0 ->
  getitem l i
  = if i + len l <? 0 then Raise IndexError else getitem l (i + len l).
Proof.
  intros Hi; unfold getitem; cbv zeta.
  assert ((i <? 0) = true) as -> by lia.
  destruct (i + len l <? 0) eqn:E; [reflexivity|].
  now rewrite E.
Qed.

(** Indexing a slice of known length, with Python's three cases. *)
Lemma getitem_slice_cases (l : list Z) (a b i : Z) :
  0 <= a <= b -> b <= len l ->
  (0 <= i < b - a -> getitem (slice l a b) i = getitem l (a + i)) /\
  (a - b <= i < 0 -> getitem (slice l a b) i = getitem l (b + i)) /\
  (i < a - b \/ b - a <= i -> getitem (slice l a b) i = Raise IndexError).
Proof.
  intros Hab Hb.
  pose proof (len_slice l a b Hab Hb) as Hl.
  split; [|split].
  - intros Hi; apply getitem_slice; lia.
  - intros Hi; rewrite getitem_negative by lia.
    rewrite Hl.
    assert ((i + (b - a) <? 0) = false) as -> by lia.
    rewrite getitem_slice by lia; f_equal; lia.
  - intros [Hi|Hi].
    + rewrite getitem_negative by lia.
      rewrite Hl; now assert ((i + (b - a) <? 0) = true) as -> by lia.
    + apply getitem_out_of_range; lia.
Qed.

(** X25.  Indexing the addresses of a decoded frame reads the buffer: the
    destination and source MAC addresses are bytes 0..5 and 6..11, and in a
    buffer of at least 34 bytes the IPv4 source and destination addresses
    are bytes 26..29 and 30..33.  A negative index counts from the end of
    the address; an index outside the address raises [IndexError]. *)
Theorem decoded_address_getitem (octets : bytes) (f : EthernetFrame.t)
  (i : Z) :
  EthernetFrame.init octets = Ok f ->
  let dst := EthernetFrame.dest_address f in
  let src := EthernetFrame.source_address f in
  let ip_src := IPv4Packet.source_address (EthernetFrame.payload f) in
  let ip_dst := IPv4Packet.dest_address (EthernetFrame.payload f) in
  (0 <= i < 6 ->
   MACAddress.getitem dst i = getitem octets i /\
   MACAddress.getitem src i = getitem octets (6 + i)) /\
  (-6 <= i < 0 ->
   MACAddress.getitem dst i = getitem octets (6 + i) /\
   MACAddress.getitem src i = getitem octets (12 + i)) /\
  (i < -6 \/ 6 <= i ->
   MACAddress.getitem dst i = Raise IndexError /\
   MACAddress.getitem src i = Raise IndexError) /\
  (34 <= len octets ->
   (0 <= i < 4 ->
    IPv4Address.getitem ip_src i = getitem octets (26 + i) /\
    IPv4Address.getitem ip_dst i = getitem octets (30 + i)) /\
   (-4 <= i < 0 ->
    IPv4Address.getitem ip_src i = getitem octets (30 + i) /\
    IPv4Address.getitem ip_dst i = getitem octets (34 + i)) /\
   (i < -4 \/ 4 <= i ->
    IPv4Address.getitem ip_src i = Raise IndexError /\
    IPv4Address.getitem ip_dst i = Raise IndexError)).
Proof.
  intros Hinit.
  apply EthernetFrame_init_inv in Hinit
    as (o12 & o13 & ip & E12 & E13 & Het & Eip & ->).
  apply getitem_inv in E13 as [L13 _]; [|lia].
  apply IPv4Packet_init_inv in Eip
    as (o0 & o1 & ttl & protocol & tcp & _ & _ & _ & _ & _ & _ & _ & ->).
  cbv zeta; eth_fields; ip_fields.
  unfold MACAddress.getitem, IPv4Address.getitem; eth_fields; ip_fields.
  rewrite !map_id.
  destruct (getitem_slice_cases octets 0 6 i ltac:(lia) ltac:(lia))
    as (D1 & D2 & D3).
  destruct (getitem_slice_cases octets 6 12 i ltac:(lia) ltac:(lia))
    as (S1 & S2 & S3).
  split; [intros Hi; split; [apply D1|apply S1]; lia|].
  split; [intros Hi; split; [apply D2|apply S2]; lia|].
  split; [intros Hi; split; [apply D3|apply S3]; lia|].
  intros Hlen.
  pose proof (len_slice_from octets 14 ltac:(lia)) as Hl.
  destruct (getitem_slice_cases (slice_from octets 14) 12 16 i
              ltac:(lia) ltac:(lia)) as (A1 & A2 & A3).
  destruct (getitem_slice_cases (slice_from octets 14) 16 20 i
              ltac:(lia) ltac:(lia)) as (B1 & B2 & B3).
  split; [|split].
  - intros Hi; rewrite A1, B1, !getitem_slice_from by lia.
    split; f_equal; lia.
  - intros Hi; rewrite A2, B2, !getitem_slice_from by lia.
    split; f_equal; lia.
  - intros Hi; split; [apply A3|apply B3]; lia.
Qed.

(** ** The further properties at concrete inputs *)

(** Proves a closed conjunction of bounds and equations by evaluation. *)
Ltac by_evaluation :=
  vm_compute;
  repeat match goal with |- _ /\ _ => split end;
  first [reflexivity | discriminate].

Lemma to_octets_shape_witness : to_octets 1000 0 = [].
Proof. apply (proj2 (proj2 (to_octets_shape 1000 0))); lia. Defined.

Lemma to_integer_to_octets_witness :
  to_integer (to_octets (-2) 2) 8 = (-2) mod 2 ^ (8 * 2) /\
  to_octets ((-2) mod 2 ^ (8 * 2)) 2 = to_octets (-2) 2.
Proof. apply (to_integer_to_octets (-2) 2); lia. Defined.

Lemma to_octets_to_integer_round_trip_witness :
  to_octets (to_integer [1; 2; 3] 8) (len [1; 2; 3]) = [1; 2; 3] /\
  0 <= to_integer [1; 2; 3] 8 < 2 ^ (8 * len [1; 2; 3]).
Proof. apply (to_octets_to_integer_round_trip [1; 2; 3]); reflexivity. Defined.

Lemma to_integer_le_rev_witness :
  to_integer_le [1; 2; 3] 8 = to_integer (rev [1; 2; 3]) 8.
Proof. apply (to_integer_le_rev [1; 2; 3] 8); lia. Defined.

Lemma to_bits_split_witness :
  0 <= to_bits 180 2 (3 + 2) 8 < 2 ^ (3 + 2) /\
  to_bits 180 2 (3 + 2) 8
  = to_bits 180 2 3 8 * 2 ^ 2 + to_bits 180 (2 + 3) 2 8.
Proof. apply (to_bits_split 180 2 3 2 8); lia. Defined.

Lemma checksum_blocks_commute_witness :
  checksum ([1; 2] ++ [3; 4; 5; 6]) = checksum ([3; 4; 5; 6] ++ [1; 2]).
Proof. apply (checksum_blocks_commute [1; 2] [3; 4; 5; 6]); reflexivity. Defined.

Lemma TCPPacket_init_outcome_witness :
  (exists p, TCPPacket.init sample_segment = Ok p) /\
  TCPPacket.init [0; 80; 48; 57] = Raise IndexError.
Proof.
  split.
  - apply (proj1 (TCPPacket_init_outcome sample_segment)).
    vm_compute; discriminate.
  - apply (proj1 (proj2 (TCPPacket_init_outcome [0; 80; 48; 57]))).
    vm_compute; reflexivity.
Defined.

Lemma IPv4Packet_init_errors_witness :
  IPv4Packet.init [] = Raise IndexError /\
  IPv4Packet.init [96] = Raise (ValueError "non-ipv4 packet") /\
  IPv4Packet.init [69; 0; 0; 20] = Raise IndexError /\
  IPv4Packet.init [69; 0; 0; 20; 0; 0; 0; 0; 64; 17]
    = Raise (ValueError "non-tcp packet") /\
  IPv4Packet.init [69; 0; 0; 20; 0; 0; 0; 0; 64; 6] = Raise IndexError.
Proof.
  split; [|split; [|split; [|split]]].
  - apply (proj1 (IPv4Packet_init_errors [])); reflexivity.
  - apply (proj1 (proj2 (IPv4Packet_init_errors [96]) 96 eq_refl)).
    vm_compute; discriminate.
  - apply (proj1 (proj2 (proj2 (IPv4Packet_init_errors [69; 0; 0; 20])
                           69 eq_refl)));
      reflexivity.
  - apply (proj1 (proj2 (proj2 (proj2 (IPv4Packet_init_errors
             [69; 0; 0; 20; 0; 0; 0; 0; 64; 17]) 69 eq_refl))) eq_refl 17);
      [reflexivity | vm_compute; discriminate].
  - apply (proj2 (proj2 (proj2 (proj2 (IPv4Packet_init_errors
             [69; 0; 0; 20; 0; 0; 0; 0; 64; 6]) 69 eq_refl))) eq_refl);
      reflexivity.
Defined.

Lemma EthernetFrame_init_errors_witness :
  EthernetFrame.init [0; 1; 2; 3; 4; 5] = Raise IndexError /\
  EthernetFrame.init arp_frame = Raise (ValueError "non-ipv4 packet") /\
  EthernetFrame.init [0; 1; 2; 3; 4; 5; 6; 7; 8; 9; 10; 11; 8; 0; 96]
    = Raise (ValueError "non-ipv4 packet").
Proof.
  split; [|split].
  - apply (proj1 (EthernetFrame_init_errors [0; 1; 2; 3; 4; 5])).
    vm_compute; reflexivity.
  - apply (proj1 (proj2 (EthernetFrame_init_errors arp_frame)
                    8 6 eq_refl eq_refl)).
    vm_compute; discriminate.
  - apply (proj2 (proj2 (EthernetFrame_init_errors
                    [0; 1; 2; 3; 4; 5; 6; 7; 8; 9; 10; 11; 8; 0; 96])
                    8 0 eq_refl eq_refl));
      reflexivity.
Defined.

Lemma TCPPacket_round_trip_iff_witness :
  exists p,
    TCPPacket.init sample_segment = Ok p /\
    (TCPPacket.raw p = sample_segment <->
     5 <= TCPPacket.data_offset p /\
     4 * TCPPacket.data_offset p <= len sample_segment).
Proof.
  decode_concrete TCPPacket.init sample_segment p E.
  exists p; split; [reflexivity|].
  apply (TCPPacket_round_trip_iff sample_segment p);
    [vm_compute; reflexivity | exact E].
Defined.

Lemma IPv4Packet_round_trip_iff_witness :
  exists p,
    IPv4Packet.init sample_packet = Ok p /\
    (IPv4Packet.raw p = sample_packet <->
     5 <= IPv4Packet.ihl p /\
     5 <= TCPPacket.data_offset (IPv4Packet.payload p) /\
     4 * IPv4Packet.ihl p + 4 * TCPPacket.data_offset (IPv4Packet.payload p)
     <= len sample_packet).
Proof.
  decode_concrete IPv4Packet.init sample_packet p E.
  exists p; split; [reflexivity|].
  apply (IPv4Packet_round_trip_iff sample_packet p);
    [vm_compute; reflexivity | exact E].
Defined.

Lemma EthernetFrame_round_trip_iff_witness :
  exists f,
    EthernetFrame.init sample_frame = Ok f /\
    (EthernetFrame.raw f = sample_frame <->
     5 <= IPv4Packet.ihl (EthernetFrame.payload f) /\
     5 <= TCPPacket.data_offset (IPv4Packet.payload (EthernetFrame.payload f))
     /\
     14 + 4 * IPv4Packet.ihl (EthernetFrame.payload f)
     + 4 * TCPPacket.data_offset (IPv4Packet.payload (EthernetFrame.payload f))
     <= len sample_frame).
Proof.
  decode_concrete EthernetFrame.init sample_frame f E.
  exists f; split; [reflexivity|].
  apply (EthernetFrame_round_trip_iff sample_frame f);
    [vm_compute; reflexivity | exact E].
Defined.

Lemma TCPPacket_decode_serialized_witness :
  TCPPacket.init (TCPPacket.raw syn_segment)
    = Ok (TCPPacket_reparsed syn_segment) /\
  TCPPacket.raw (TCPPacket_reparsed syn_segment) = TCPPacket.raw syn_segment.
Proof.
  apply (TCPPacket_decode_serialized syn_segment); by_evaluation.
Defined.

Lemma IPv4Packet_decode_serialized_witness :
  IPv4Packet.init (IPv4Packet.raw syn_packet)
    = Ok (IPv4Packet_reparsed syn_packet) /\
  IPv4Packet.raw (IPv4Packet_reparsed syn_packet) = IPv4Packet.raw syn_packet.
Proof.
  apply (IPv4Packet_decode_serialized syn_packet); by_evaluation.
Defined.

Lemma EthernetFrame_decode_serialized_witness :
  EthernetFrame.init (EthernetFrame.raw syn_frame)
    = Ok (EthernetFrame_reparsed syn_frame) /\
  EthernetFrame.raw (EthernetFrame_reparsed syn_frame)
    = EthernetFrame.raw syn_frame.
Proof.
  apply (EthernetFrame_decode_serialized syn_frame); by_evaluation.
Defined.


Lemma forged_frame_decodes_witness :
  exists f,
    EthernetFrame.init sample_frame = Ok f /\
    EthernetFrame.init (EthernetFrame.raw (EthernetFrame_forge_reset 12345 f))
      = Ok (EthernetFrame_reparsed (EthernetFrame_forge_reset 12345 f)) /\
    len (EthernetFrame.raw (EthernetFrame_forge_reset 12345 f)) = 54.
Proof.
  decode_concrete EthernetFrame.init sample_frame f E.
  exists f; split; [reflexivity|].
  assert (is_bytes sample_frame = true) as Hb by (vm_compute; reflexivity).
  assert (IPv4Packet.ihl (EthernetFrame.payload f) = 5 /\
          TCPPacket.data_offset (IPv4Packet.payload (EthernetFrame.payload f))
          = 5) as [Hi Hd].
  { pose proof E as E'; vm_compute in E'.
    injection E' as E'; subst f; split; reflexivity. }
  pose proof (forged_frame_decodes sample_frame f 12345 Hb E
                ltac:(lia) ltac:(lia) ltac:(lia)) as [H1 H2].
  cbv zeta in *.
  split; [exact H1|].
  rewrite H2, Hi, Hd; reflexivity.
Defined.

Lemma raw_is_bytes_witness :
  exists f,
    EthernetFrame.init sample_frame = Ok f /\
    is_bytes (EthernetFrame.raw f) = true /\
    is_bytes (EthernetFrame.raw (EthernetFrame_forge_reset (-1) f)) = true.
Proof.
  decode_concrete EthernetFrame.init sample_frame f E.
  exists f; split; [reflexivity|].
  apply (raw_is_bytes sample_frame f (-1));
    [vm_compute; reflexivity | exact E].
Defined.

Lemma MACAddress_str_format_witness :
  MACAddress_str (MACAddress.init [0; 17; 255; 171; 9; 16])
    = "00:11:ff:ab:09:10"%string /\
  map int_of_hex
    (str_split ":" (MACAddress_str (MACAddress.init [0; 17; 255; 171; 9; 16])))
  = map Some [0; 17; 255; 171; 9; 16].
Proof.
  pose proof (MACAddress_str_format (MACAddress.init [0; 17; 255; 171; 9; 16])
                ltac:(reflexivity)) as (H1 & _ & H3).
  split; [rewrite H1; reflexivity|].
  apply H3; discriminate.
Defined.


Lemma decoded_address_getitem_witness :
  exists f,
    EthernetFrame.init sample_frame = Ok f /\
    MACAddress.getitem (EthernetFrame.source_address f) 2
      = getitem sample_frame 8 /\
    MACAddress.getitem (EthernetFrame.dest_address f) (-1)
      = getitem sample_frame 5 /\
    MACAddress.getitem (EthernetFrame.dest_address f) 6 = Raise IndexError /\
    IPv4Address.getitem
      (IPv4Packet.dest_address (EthernetFrame.payload f)) 3
      = getitem sample_frame 33.
Proof.
  decode_concrete EthernetFrame.init sample_frame f E.
  exists f; split; [reflexivity|].
  assert (34 <= len sample_frame) as Hlen by (vm_compute; discriminate).
  split; [|split; [|split]].
  - apply (proj1 (decoded_address_getitem sample_frame f 2 E)); lia.
  - apply (proj1 (proj2 (decoded_address_getitem sample_frame f (-1) E)));
      lia.
  - apply (proj1 (proj2 (proj2 (decoded_address_getitem sample_frame f 6 E))));
      lia.
  - apply (proj1 (proj2 (proj2 (proj2
             (decoded_address_getitem sample_frame f 3 E))) Hlen));
      lia.
Defined.

Lemma forge_reset_absorbs_witness :
  TCPPacket_forge_reset 7 (TCPPacket_forge_reset 12345 syn_packet)
  = TCPPacket_forge_reset 7 syn_packet /\
  TCPPacket_forge_reset 7 (TCPPacket_replace_checksum syn_packet)
  = TCPPacket_forge_reset 7 syn_packet.
Proof.
  pose proof (forge_reset_absorbs syn_packet 12345 7
                ltac:(reflexivity) ltac:(reflexivity))
    as (_ & H1 & _ & _ & _ & H3).
  split; [exact H1|].
  apply H3; reflexivity.
Defined.

Lemma replace_checksum_compose_witness :
  TCPPacket_replace_checksum (IPv4Packet.replace_checksum syn_packet)
  = IPv4Packet.replace_checksum (TCPPacket_replace_checksum syn_packet).
Proof.
  apply (replace_checksum_compose syn_packet).
  repeat split.
Defined.
